(** * poly_abri: the five-minute market session, its evaluators and its order sizing

    A shallow embedding of [src/strategy_5min.py], [dto/order_dto.py],
    [src/config.py], the import surface and the order placement of
    [src/trading_client.py], and the slugs of [src/market_lookup.py].

    - Python [int] is [Z]; Python [float] is the kernel's binary64 [float],
      so every arithmetic step rounds exactly as CPython's does.
    - Python [None] is [None]; a dict with string keys is a [gmap string _].
    - An exception is a value of [exn]; a method of the bot is a function
      from the bot (and the readings it takes from the outside: the clock,
      the quote source, the execution backend) to an outcome, the bot as
      the call left it, and the events it emitted. *)

From Stdlib Require Import ZArith Lia Floats.
From stdpp Require Import base strings gmap list pretty.

Set Warnings "-inexact-float".

Local Open Scope Z_scope.

(** ** Exceptions and outcomes *)

Inductive exn : Type :=
  | AttributeError (attr : string)
  | TypeError
  | ValueError
  | OverflowError
  | ZeroDivisionError
  | RuntimeError (msg : string)
  | KeyError (key : string)
  | ImportError (name : string)
  | ExternalError (what : string).

Inductive outcome (A : Type) : Type :=
  | Ret (a : A)
  | Raise (e : exn).
Arguments Ret {A} a.
Arguments Raise {A} e.

Global Instance outcome_ret : MRet outcome := λ A, Ret.

Global Instance outcome_bind : MBind outcome := λ A B k o,
  match o with Ret a => k a | Raise e => Raise e end.

(** ** Python's numbers *)

Module Py.

(** An integer as an unrounded binary value [z * 2^0]. *)
Definition raw (z : Z) : spec_float :=
  match z with
  | Z0 => S754_zero false
  | Zpos p => S754_finite false p 0
  | Zneg p => S754_finite true p 0
  end.

(** The binary64 value nearest to [n / d] (ties to even): what [n / d] is for
    two Python ints, and what a decimal literal with numerator [n] over a
    power of ten [d] parses to. *)
Definition nearest (n d : Z) : float :=
  SF2Prim (SFdiv prec emax (raw n) (raw d)).

(** [float(z)] *)
Definition of_int (z : Z) : float := nearest z 1.

(** [c * x] as an exact fraction [(n, d)], [d > 0]; [None] for an infinity
    or a NaN. *)
Definition scaled (c : Z) (x : float) : option (Z * Z) :=
  match Prim2SF x with
  | S754_zero _ => Some (0, 1)
  | S754_finite s m e =>
      let n := c * (if s then Zneg m else Zpos m) in
      Some (if e <? 0 then (n, 2 ^ (- e)) else (n * 2 ^ e, 1))
  | S754_infinity _ | S754_nan => None
  end.

(** The integer nearest to [n / d], ties to the even one ([d > 0]). *)
Definition round_half_even (n d : Z) : Z :=
  let q := n / d in
  match 2 * (n mod d) ?= d with
  | Lt => q
  | Gt => q + 1
  | Eq => if Z.even q then q else q + 1
  end.

(** [round(x)]: an int. *)
Definition round (x : float) : outcome Z :=
  match scaled 1 x with
  | Some (n, d) => Ret (round_half_even n d)
  | None => Raise (if PrimFloat.is_nan x then ValueError else OverflowError)
  end.

(** [round(x, 2)]: the decimal with two places nearest to the exact value
    of [x], converted back to binary64. *)
Definition round2 (x : float) : float :=
  match scaled 100 x with
  | Some (n, d) =>
      let k := round_half_even n d in
      if k =? 0 then (x * 0)%float (* a zero that keeps the sign of [x] *)
      else nearest k 100
  | None => x
  end.

(** [math.ceil(x)]: an int. *)
Definition ceil (x : float) : outcome Z :=
  match scaled 1 x with
  | Some (n, d) => Ret (- ((- n) / d))
  | None => Raise (if PrimFloat.is_nan x then ValueError else OverflowError)
  end.

(** [a / b] on floats. *)
Definition fdiv (a b : float) : outcome float :=
  if PrimFloat.eqb b 0 then Raise ZeroDivisionError else Ret (a / b)%float.

(** [a / b] on ints. *)
Definition idiv (a b : Z) : outcome float :=
  if b =? 0 then Raise ZeroDivisionError else Ret (nearest a b).

(** [s.isascii()], for a text given by the bytes of its UTF-8 form: every
    character is below 128. *)
Fixpoint isascii (s : string) : bool :=
  match s with
  | EmptyString => true
  | String c s' => (Ascii.N_of_ascii c <? 128)%N && isascii s'
  end.

End Py.

(** ** Values held in dicts and in attributes set at run time *)

Inductive pyval : Type :=
  | VNone
  | VStr (s : string)
  | VInt (z : Z)
  | VFloat (x : float).

(** ** src/config.py *)

Module Config.

(** The process environment as [os.getenv] sees it once [load_dotenv] ran;
    numeric variables are given with the value [float(...)] or [int(...)]
    reads from them. *)
Record Environ : Type := {
  getenv : string → option string;
  getenv_float : string → option float;
  getenv_int : string → option Z;
}.

Definition lower_ascii (c : Ascii.ascii) : Ascii.ascii :=
  let n := Ascii.N_of_ascii c in
  if ((65 <=? n) && (n <=? 90))%N then Ascii.ascii_of_N (n + 32) else c.

Fixpoint lower (s : string) : string :=
  match s with
  | EmptyString => EmptyString
  | String c s' => String (lower_ascii c) (lower s')
  end.

(** An instance of the [Settings] dataclass: its declared fields, and
    [attrs], the attributes set on the instance after construction (the class
    declares no others, and has no [__getattr__]). *)
Record Settings : Type := {
  api_key : string;
  api_secret : string;
  api_passphrase : string;
  private_key : string;
  signature_type : Z;
  funder : string;
  market_slug : string;
  market_id : string;
  yes_token_id : string;
  no_token_id : string;
  ws_url : string;
  target_pair_cost : float;
  balance_slack : float;
  order_size : float;
  yes_buy_threshold : float;
  no_buy_threshold : float;
  verbose : bool;
  dry_run : bool;
  cooldown_seconds : float;
  sim_balance : float;
  max_trades_per_market : Z;
  min_time_remaining_minutes : Z;
  attrs : gmap string pyval;
}.


(** [settings.<name>] for a name the class does not declare. *)
Definition getattr (s : Settings) (name : string) : outcome pyval :=
  match attrs s !! name with
  | Some v => Ret v
  | None => Raise (AttributeError name)
  end.

Definition load_settings (env : Environ) : Settings := {|
  api_key := default EmptyString (getenv env "POLYMARKET_API_KEY");
  api_secret := default EmptyString (getenv env "POLYMARKET_API_SECRET");
  api_passphrase := default EmptyString (getenv env "POLYMARKET_API_PASSPHRASE");
  private_key := default EmptyString (getenv env "POLYMARKET_PRIVATE_KEY");
  signature_type := default 1 (getenv_int env "POLYMARKET_SIGNATURE_TYPE");
  funder := default EmptyString (getenv env "POLYMARKET_FUNDER");
  market_slug := default EmptyString (getenv env "POLYMARKET_MARKET_SLUG");
  market_id := default EmptyString (getenv env "POLYMARKET_MARKET_ID");
  yes_token_id := default EmptyString (getenv env "POLYMARKET_YES_TOKEN_ID");
  no_token_id := default EmptyString (getenv env "POLYMARKET_NO_TOKEN_ID");
  ws_url := default "wss://ws-subscriptions-clob.polymarket.com"
              (getenv env "POLYMARKET_WS_URL");
  target_pair_cost := default 0.99%float (getenv_float env "TARGET_PAIR_COST");
  balance_slack := default 0.15%float (getenv_float env "BALANCE_SLACK");
  order_size := default 50%float (getenv_float env "ORDER_SIZE");
  yes_buy_threshold := default 0.45%float (getenv_float env "YES_BUY_THRESHOLD");
  no_buy_threshold := default 0.45%float (getenv_float env "NO_BUY_THRESHOLD");
  verbose := bool_decide (lower (default "false" (getenv env "VERBOSE")) = "true");
  dry_run := bool_decide (lower (default "false" (getenv env "DRY_RUN")) = "true");
  cooldown_seconds := default 10%float (getenv_float env "COOLDOWN_SECONDS");
  sim_balance := default 0%float (getenv_float env "SIM_BALANCE");
  max_trades_per_market := default 0 (getenv_int env "MAX_TRADES_PER_MARKET");
  min_time_remaining_minutes :=
    default 0 (getenv_int env "MIN_TIME_REMAINING_MINUTES");
  attrs := ∅;
|}.

End Config.

(** ** dto/order_dto.py *)

Module OrderDto.

Record t : Type := mk {
  token_id : string;
  price : float;
  size : float;
}.

(** [OrderDto(token_id=..., price=..., size=...)]: the generated [__init__]
    stores the three fields, then [__post_init__] replaces [price] by
    [round(float(price), 2)]; [float(None)] raises [TypeError]. *)
Definition new (token_id : string) (price : option float) (size : float)
  : outcome t :=
  match price with
  | Some p => Ret (mk token_id (Py.round2 p) size)
  | None => Raise TypeError
  end.

Definition set_size (o : t) (s : float) : t := mk (token_id o) (price o) s.

End OrderDto.

(** ** src/strategy_5min.py *)

Module Strategy.

(** The six values [get_current_prices] returns: last-trade prices, ask sizes
    and best asks of the UP and the DOWN token; each may be [None]. *)
Record Prices : Type := {
  price_up : option float;
  price_down : option float;
  size_up : option float;
  size_down : option float;
  best_up : option float;
  best_down : option float;
}.

Definition no_prices : Prices := {|
  price_up := None; price_down := None; size_up := None;
  size_down := None; best_up := None; best_down := None;
|}.

(** The attributes of a [SimpleArbitrageBot] ([client], the process-wide
    venue handle, and [last_check], never assigned again, are left out). *)
Record Bot : Type := mkBot {
  settings : Config.Settings;
  is_performed : bool;
  is_performed_informed : bool;
  is_finished : bool;
  order : option (gmap string pyval);
  market_id : string;
  yes_token_id : string;
  no_token_id : string;
  strategy_start_timestamp : Z;
  strategy_end_timestamp : option Z;
  market_end_timestamp : option Z;
  market_slug : string;
  opportunities_found : Z;
  trades_executed : Z;
  total_invested : float;
  total_shares_bought : float;
  positions : list (gmap string pyval);
  cached_balance : option float;
  current_market_trades : Z;
  last_price_info : option Prices;
}.

(** Attribute assignment, [self.<field> = v]. *)

Definition set_settings (v : Config.Settings) (b : Bot) : Bot :=
  mkBot v (b.(is_performed)) (b.(is_performed_informed)) (b.(is_finished))
    (b.(order)) (b.(market_id)) (b.(yes_token_id)) (b.(no_token_id))
    (b.(strategy_start_timestamp)) (b.(strategy_end_timestamp))
    (b.(market_end_timestamp)) (b.(market_slug)) (b.(opportunities_found))
    (b.(trades_executed)) (b.(total_invested)) (b.(total_shares_bought))
    (b.(positions)) (b.(cached_balance)) (b.(current_market_trades))
    (b.(last_price_info)).

Definition set_is_performed (v : bool) (b : Bot) : Bot :=
  mkBot (b.(settings)) v (b.(is_performed_informed)) (b.(is_finished))
    (b.(order)) (b.(market_id)) (b.(yes_token_id)) (b.(no_token_id))
    (b.(strategy_start_timestamp)) (b.(strategy_end_timestamp))
    (b.(market_end_timestamp)) (b.(market_slug)) (b.(opportunities_found))
    (b.(trades_executed)) (b.(total_invested)) (b.(total_shares_bought))
    (b.(positions)) (b.(cached_balance)) (b.(current_market_trades))
    (b.(last_price_info)).

Definition set_is_performed_informed (v : bool) (b : Bot) : Bot :=
  mkBot (b.(settings)) (b.(is_performed)) v (b.(is_finished)) (b.(order))
    (b.(market_id)) (b.(yes_token_id)) (b.(no_token_id))
    (b.(strategy_start_timestamp)) (b.(strategy_end_timestamp))
    (b.(market_end_timestamp)) (b.(market_slug)) (b.(opportunities_found))
    (b.(trades_executed)) (b.(total_invested)) (b.(total_shares_bought))
    (b.(positions)) (b.(cached_balance)) (b.(current_market_trades))
    (b.(last_price_info)).

Definition set_is_finished (v : bool) (b : Bot) : Bot :=
  mkBot (b.(settings)) (b.(is_performed)) (b.(is_performed_informed)) v
    (b.(order)) (b.(market_id)) (b.(yes_token_id)) (b.(no_token_id))
    (b.(strategy_start_timestamp)) (b.(strategy_end_timestamp))
    (b.(market_end_timestamp)) (b.(market_slug)) (b.(opportunities_found))
    (b.(trades_executed)) (b.(total_invested)) (b.(total_shares_bought))
    (b.(positions)) (b.(cached_balance)) (b.(current_market_trades))
    (b.(last_price_info)).

Definition set_order (v : option (gmap string pyval)) (b : Bot) : Bot :=
  mkBot (b.(settings)) (b.(is_performed)) (b.(is_performed_informed))
    (b.(is_finished)) v (b.(market_id)) (b.(yes_token_id)) (b.(no_token_id))
    (b.(strategy_start_timestamp)) (b.(strategy_end_timestamp))
    (b.(market_end_timestamp)) (b.(market_slug)) (b.(opportunities_found))
    (b.(trades_executed)) (b.(total_invested)) (b.(total_shares_bought))
    (b.(positions)) (b.(cached_balance)) (b.(current_market_trades))
    (b.(last_price_info)).

Definition set_market_id (v : string) (b : Bot) : Bot :=
  mkBot (b.(settings)) (b.(is_performed)) (b.(is_performed_informed))
    (b.(is_finished)) (b.(order)) v (b.(yes_token_id)) (b.(no_token_id))
    (b.(strategy_start_timestamp)) (b.(strategy_end_timestamp))
    (b.(market_end_timestamp)) (b.(market_slug)) (b.(opportunities_found))
    (b.(trades_executed)) (b.(total_invested)) (b.(total_shares_bought))
    (b.(positions)) (b.(cached_balance)) (b.(current_market_trades))
    (b.(last_price_info)).

Definition set_yes_token_id (v : string) (b : Bot) : Bot :=
  mkBot (b.(settings)) (b.(is_performed)) (b.(is_performed_informed))
    (b.(is_finished)) (b.(order)) (b.(market_id)) v (b.(no_token_id))
    (b.(strategy_start_timestamp)) (b.(strategy_end_timestamp))
    (b.(market_end_timestamp)) (b.(market_slug)) (b.(opportunities_found))
    (b.(trades_executed)) (b.(total_invested)) (b.(total_shares_bought))
    (b.(positions)) (b.(cached_balance)) (b.(current_market_trades))
    (b.(last_price_info)).

Definition set_no_token_id (v : string) (b : Bot) : Bot :=
  mkBot (b.(settings)) (b.(is_performed)) (b.(is_performed_informed))
    (b.(is_finished)) (b.(order)) (b.(market_id)) (b.(yes_token_id)) v
    (b.(strategy_start_timestamp)) (b.(strategy_end_timestamp))
    (b.(market_end_timestamp)) (b.(market_slug)) (b.(opportunities_found))
    (b.(trades_executed)) (b.(total_invested)) (b.(total_shares_bought))
    (b.(positions)) (b.(cached_balance)) (b.(current_market_trades))
    (b.(last_price_info)).

Definition set_strategy_start_timestamp (v : Z) (b : Bot) : Bot :=
  mkBot (b.(settings)) (b.(is_performed)) (b.(is_performed_informed))
    (b.(is_finished)) (b.(order)) (b.(market_id)) (b.(yes_token_id))
    (b.(no_token_id)) v (b.(strategy_end_timestamp))
    (b.(market_end_timestamp)) (b.(market_slug)) (b.(opportunities_found))
    (b.(trades_executed)) (b.(total_invested)) (b.(total_shares_bought))
    (b.(positions)) (b.(cached_balance)) (b.(current_market_trades))
    (b.(last_price_info)).

Definition set_strategy_end_timestamp (v : option Z) (b : Bot) : Bot :=
  mkBot (b.(settings)) (b.(is_performed)) (b.(is_performed_informed))
    (b.(is_finished)) (b.(order)) (b.(market_id)) (b.(yes_token_id))
    (b.(no_token_id)) (b.(strategy_start_timestamp)) v
    (b.(market_end_timestamp)) (b.(market_slug)) (b.(opportunities_found))
    (b.(trades_executed)) (b.(total_invested)) (b.(total_shares_bought))
    (b.(positions)) (b.(cached_balance)) (b.(current_market_trades))
    (b.(last_price_info)).

Definition set_market_end_timestamp (v : option Z) (b : Bot) : Bot :=
  mkBot (b.(settings)) (b.(is_performed)) (b.(is_performed_informed))
    (b.(is_finished)) (b.(order)) (b.(market_id)) (b.(yes_token_id))
    (b.(no_token_id)) (b.(strategy_start_timestamp))
    (b.(strategy_end_timestamp)) v (b.(market_slug))
    (b.(opportunities_found)) (b.(trades_executed)) (b.(total_invested))
    (b.(total_shares_bought)) (b.(positions)) (b.(cached_balance))
    (b.(current_market_trades)) (b.(last_price_info)).

Definition set_market_slug (v : string) (b : Bot) : Bot :=
  mkBot (b.(settings)) (b.(is_performed)) (b.(is_performed_informed))
    (b.(is_finished)) (b.(order)) (b.(market_id)) (b.(yes_token_id))
    (b.(no_token_id)) (b.(strategy_start_timestamp))
    (b.(strategy_end_timestamp)) (b.(market_end_timestamp)) v
    (b.(opportunities_found)) (b.(trades_executed)) (b.(total_invested))
    (b.(total_shares_bought)) (b.(positions)) (b.(cached_balance))
    (b.(current_market_trades)) (b.(last_price_info)).

Definition set_opportunities_found (v : Z) (b : Bot) : Bot :=
  mkBot (b.(settings)) (b.(is_performed)) (b.(is_performed_informed))
    (b.(is_finished)) (b.(order)) (b.(market_id)) (b.(yes_token_id))
    (b.(no_token_id)) (b.(strategy_start_timestamp))
    (b.(strategy_end_timestamp)) (b.(market_end_timestamp))
    (b.(market_slug)) v (b.(trades_executed)) (b.(total_invested))
    (b.(total_shares_bought)) (b.(positions)) (b.(cached_balance))
    (b.(current_market_trades)) (b.(last_price_info)).

Definition set_trades_executed (v : Z) (b : Bot) : Bot :=
  mkBot (b.(settings)) (b.(is_performed)) (b.(is_performed_informed))
    (b.(is_finished)) (b.(order)) (b.(market_id)) (b.(yes_token_id))
    (b.(no_token_id)) (b.(strategy_start_timestamp))
    (b.(strategy_end_timestamp)) (b.(market_end_timestamp))
    (b.(market_slug)) (b.(opportunities_found)) v (b.(total_invested))
    (b.(total_shares_bought)) (b.(positions)) (b.(cached_balance))
    (b.(current_market_trades)) (b.(last_price_info)).

Definition set_total_invested (v : float) (b : Bot) : Bot :=
  mkBot (b.(settings)) (b.(is_performed)) (b.(is_performed_informed))
    (b.(is_finished)) (b.(order)) (b.(market_id)) (b.(yes_token_id))
    (b.(no_token_id)) (b.(strategy_start_timestamp))
    (b.(strategy_end_timestamp)) (b.(market_end_timestamp))
    (b.(market_slug)) (b.(opportunities_found)) (b.(trades_executed)) v
    (b.(total_shares_bought)) (b.(positions)) (b.(cached_balance))
    (b.(current_market_trades)) (b.(last_price_info)).

Definition set_total_shares_bought (v : float) (b : Bot) : Bot :=
  mkBot (b.(settings)) (b.(is_performed)) (b.(is_performed_informed))
    (b.(is_finished)) (b.(order)) (b.(market_id)) (b.(yes_token_id))
    (b.(no_token_id)) (b.(strategy_start_timestamp))
    (b.(strategy_end_timestamp)) (b.(market_end_timestamp))
    (b.(market_slug)) (b.(opportunities_found)) (b.(trades_executed))
    (b.(total_invested)) v (b.(positions)) (b.(cached_balance))
    (b.(current_market_trades)) (b.(last_price_info)).

Definition set_positions (v : list (gmap string pyval)) (b : Bot) : Bot :=
  mkBot (b.(settings)) (b.(is_performed)) (b.(is_performed_informed))
    (b.(is_finished)) (b.(order)) (b.(market_id)) (b.(yes_token_id))
    (b.(no_token_id)) (b.(strategy_start_timestamp))
    (b.(strategy_end_timestamp)) (b.(market_end_timestamp))
    (b.(market_slug)) (b.(opportunities_found)) (b.(trades_executed))
    (b.(total_invested)) (b.(total_shares_bought)) v (b.(cached_balance))
    (b.(current_market_trades)) (b.(last_price_info)).

Definition set_cached_balance (v : option float) (b : Bot) : Bot :=
  mkBot (b.(settings)) (b.(is_performed)) (b.(is_performed_informed))
    (b.(is_finished)) (b.(order)) (b.(market_id)) (b.(yes_token_id))
    (b.(no_token_id)) (b.(strategy_start_timestamp))
    (b.(strategy_end_timestamp)) (b.(market_end_timestamp))
    (b.(market_slug)) (b.(opportunities_found)) (b.(trades_executed))
    (b.(total_invested)) (b.(total_shares_bought)) (b.(positions)) v
    (b.(current_market_trades)) (b.(last_price_info)).

Definition set_current_market_trades (v : Z) (b : Bot) : Bot :=
  mkBot (b.(settings)) (b.(is_performed)) (b.(is_performed_informed))
    (b.(is_finished)) (b.(order)) (b.(market_id)) (b.(yes_token_id))
    (b.(no_token_id)) (b.(strategy_start_timestamp))
    (b.(strategy_end_timestamp)) (b.(market_end_timestamp))
    (b.(market_slug)) (b.(opportunities_found)) (b.(trades_executed))
    (b.(total_invested)) (b.(total_shares_bought)) (b.(positions))
    (b.(cached_balance)) v (b.(last_price_info)).

Definition set_last_price_info (v : option Prices) (b : Bot) : Bot :=
  mkBot (b.(settings)) (b.(is_performed)) (b.(is_performed_informed))
    (b.(is_finished)) (b.(order)) (b.(market_id)) (b.(yes_token_id))
    (b.(no_token_id)) (b.(strategy_start_timestamp))
    (b.(strategy_end_timestamp)) (b.(market_end_timestamp))
    (b.(market_slug)) (b.(opportunities_found)) (b.(trades_executed))
    (b.(total_invested)) (b.(total_shares_bought)) (b.(positions))
    (b.(cached_balance)) (b.(current_market_trades)) v.

(** *** Methods as state transformers *)

(** One leg of the pair [execute_arbitrage] hands to [place_orders_fast]. *)
Record LegOrder : Type := {
  leg_side : string;
  leg_token_id : string;
  leg_price : float;
  leg_size : float;
}.

(** What a method does to the outside. *)
Inductive event : Type :=
  | MarketBuy (o : OrderDto.t)
  | PlaceOrders (legs : list LegOrder)
  | ErrorLogged (msg : string)
  | Slept (seconds : Z)
  | Summary (slug : string) (result : option string)
      (row : gmap string pyval) (pnl : float).

(** A method body: from [self] to its outcome, [self] as the body left it
    (attribute assignments made before an exception stay), and the events
    in order. *)
Definition M (A : Type) : Type := Bot → outcome A * Bot * list event.

Global Instance M_ret : MRet M := λ A a b, (Ret a, b, []).

Global Instance M_bind : MBind M := λ A B k m b,
  match m b with
  | (Ret a, b', ev) => let '(r, b'', ev') := k a b' in (r, b'', ev ++ ev')
  | (Raise e, b', ev) => (Raise e, b', ev)
  end.

Definition raise {A} (e : exn) : M A := λ b, (Raise e, b, []).
Definition lift {A} (o : outcome A) : M A := λ b, (o, b, []).
Definition self : M Bot := λ b, (Ret b, b, []).
Definition assign (f : Bot → Bot) : M unit := λ b, (Ret tt, f b, []).
Definition emit (e : event) : M unit := λ b, (Ret tt, b, [e]).

(** [try: m  except Exception: pass] *)
Definition try_except (m : M unit) : M unit := λ b,
  match m b with
  | (Raise _, b', ev) => (Ret tt, b', ev)
  | r => r
  end.

(** A value that must not be [None] where it is formatted with [:.2f],
    subtracted or compared. *)
Definition number (v : option float) : M float :=
  match v with Some x => mret x | None => raise TypeError end.

Definition of_option (v : option float) : pyval :=
  match v with Some x => VFloat x | None => VNone end.

(** [d[key]] read as a number. *)
Definition item (d : gmap string pyval) (key : string) : M float :=
  match d !! key with
  | Some (VFloat x) => mret x
  | Some (VInt z) => mret (Py.of_int z)
  | Some _ => raise TypeError
  | None => raise (KeyError key)
  end.

(** [d.get(key)] used as a number. *)
Definition get_number (d : gmap string pyval) (key : string) : M float :=
  match d !! key with
  | Some (VFloat x) => mret x
  | Some (VInt z) => mret (Py.of_int z)
  | _ => raise TypeError
  end.

(** [self.order[key] = v] *)
Definition order_setitem (key : string) (v : pyval) : M unit :=
  b ← self;
  match order b with
  | Some d => assign (set_order (Some (<[key := v]> d)))
  | None => raise TypeError
  end.

(** *** Remaining-time queries *)

(** [f"{minutes}m {seconds}s"] with [minutes = int(remaining // 60)] and
    [seconds = int(remaining % 60)]. *)
Definition minutes_seconds (remaining : Z) : string :=
  pretty (remaining / 60) +:+ "m " +:+ pretty (remaining mod 60) +:+ "s".

(** In [if not self.market_end_timestamp] and its like, [None] and [0] are
    both falsy; [now] is [int(datetime.now().timestamp())]. *)

Definition get_time_remaining (b : Bot) (now : Z) : string :=
  match market_end_timestamp b with
  | None | Some 0 => "Unknown"
  | Some t =>
      let remaining := t - now in
      if remaining <=? 0 then "CLOSED" else minutes_seconds remaining
  end.

Definition get_strategy_remaining (b : Bot) (now : Z) : string :=
  match strategy_end_timestamp b with
  | None | Some 0 => "Unknown"
  | Some t =>
      let remaining := t - now in
      if remaining <=? 0 then "CLOSED" else minutes_seconds remaining
  end.

Definition get_strategy_remaining_to_start (b : Bot) (now : Z) : string :=
  if strategy_start_timestamp b =? 0 then "Unknown"
  else
    let remaining := strategy_start_timestamp b - now in
    if 0 <=? remaining then "CLOSED" else minutes_seconds remaining.

(** *** Quotes *)

Definition max_retries : nat := 3.

(** The retry loop of [get_current_prices]: [quotes attempt] is what the
    body of the [try] produces at that attempt, [None] when it raises; a
    failed attempt that is not the last is followed by [time.sleep(1)].
    The loop gives the six values and the pauses it made on the way. *)
Fixpoint attempts (quotes : nat → option Prices) (range : list nat)
  : Prices * list event :=
  match range with
  | [] => (no_prices, [])
  | attempt :: range' =>
      match quotes attempt with
      | Some p => (p, [])
      | None =>
          if (attempt <? max_retries)%nat then
            let '(p, slept) := attempts quotes range' in (p, Slept 1 :: slept)
          else (no_prices, [])
      end
  end.

(** What a call of [get_current_prices] returns, and the pauses it makes. *)
Definition prices_of (quotes : nat → option Prices) : Prices :=
  (attempts quotes (seq 1 max_retries)).1.

Definition pauses_of (quotes : nat → option Prices) : list event :=
  (attempts quotes (seq 1 max_retries)).2.

Definition get_current_prices (quotes : nat → option Prices) : M Prices :=
  λ b, (Ret (prices_of quotes), b, pauses_of quotes).

(** *** Arbitrage mode *)

Definition safety_margin : float := 5.

Definition check_arbitrage (quotes : nat → option Prices) (now_iso : string)
  : M (option (gmap string pyval)) :=
  q ← get_current_prices quotes;
  assign (set_last_price_info (Some q));;
  b ← self;
  let s := settings b in
  match price_up q, price_down q with
  | None, _ | Some _, None => mret None
  | Some price_up, Some price_down =>
    if ((0.75 <=? price_up) || (0.75 <=? price_down))%float then mret None
    else
      best_up ← number (best_up q);
      let up_diff := abs (price_up - best_up) in
      best_down ← number (best_down q);
      let down_diff := abs (price_down - best_down) in
      if ((0.03 <? up_diff) && (0.03 <? down_diff)
          || (0.05 <? up_diff + down_diff))%float
      then mret None
      else
        let total_cost := (price_up + price_down)%float in
        if (total_cost <? Config.target_pair_cost s)%float then
          size_up ← number (size_up q);
          let available_up := (size_up - safety_margin)%float in
          size_down ← number (size_down q);
          let available_down := (size_down - safety_margin)%float in
          if ((available_up <? Config.order_size s)
              || (available_down <? Config.order_size s))%float
          then mret None
          else
            let profit := (1 - total_cost)%float in
            ratio ← lift (Py.fdiv profit total_cost);
            let profit_pct := (ratio * 100)%float in
            let investment := (total_cost * Config.order_size s)%float in
            let expected_payout := (1 * Config.order_size s)%float in
            let expected_profit := (expected_payout - investment)%float in
            mret (Some (
              <["price_up" := VFloat price_up]> (
              <["price_down" := VFloat price_down]> (
              <["total_cost" := VFloat total_cost]> (
              <["profit_per_share" := VFloat profit]> (
              <["profit_pct" := VFloat profit_pct]> (
              <["order_size" := VFloat (Config.order_size s)]> (
              <["total_investment" := VFloat investment]> (
              <["expected_payout" := VFloat expected_payout]> (
              <["expected_profit" := VFloat expected_profit]> (
              <["size_up" := VFloat size_up]> (
              <["size_down" := VFloat size_down]> (
              <["timestamp" := VStr now_iso]> ∅)))))))))))))
        else mret None
  end.

(** What the execution backend is asked and what it answers. *)
Record Backend : Type := {
  (** [execute_market_buy(settings, order)]: one entry per result, [Some msg]
      for a dict with a non-empty ["errorMsg"].  The strategy imports the
      name from [src.trading_client], which does not define it (see
      [Imports]); here it is whatever the caller binds to it. *)
  execute_market_buy : OrderDto.t → outcome (list (option string));
  (** [place_orders_fast(settings, orders)]: [Some msg] for a dict with an
      ["error"] key. *)
  place_orders_fast : list LegOrder → outcome (list (option string));
  (** [get_balance(settings)], which turns every failure into [0.0]. *)
  get_balance : float;
}.

(** [execute_arbitrage(opportunity)]; [now] is the clock read by the
    remaining-time guard.  The position check after a fill only logs. *)
Definition execute_arbitrage (be : Backend) (now : Z)
    (opportunity : gmap string pyval) : M unit :=
  b ← self;
  assign (set_opportunities_found (opportunities_found b + 1));;
  _ ← item opportunity "price_up";
  _ ← item opportunity "price_down";
  _ ← item opportunity "total_cost";
  _ ← item opportunity "profit_per_share";
  _ ← item opportunity "profit_pct";
  order_size ← item opportunity "order_size";
  total_investment ← item opportunity "total_investment";
  _ ← item opportunity "expected_payout";
  _ ← item opportunity "expected_profit";
  let s := settings b in
  let short_of_time :=
    if 0 <? Config.min_time_remaining_minutes s then
      match market_end_timestamp b with
      | None | Some 0 => false
      | Some t =>
          let remaining_seconds := t - now in
          let remaining_minutes := Py.nearest remaining_seconds 60 in
          (remaining_minutes <? Py.of_int (Config.min_time_remaining_minutes s))%float
      end
    else false in
  if short_of_time then mret tt
  else if (0 <? Config.max_trades_per_market s)
          && (Config.max_trades_per_market s <=? current_market_trades b)
  then mret tt
  else
    let track : M unit :=
      b ← self;
      assign (set_total_invested (total_invested b + total_investment)%float);;
      assign (set_total_shares_bought
                (total_shares_bought b + order_size * 2)%float);;
      assign (set_positions (positions b ++ [opportunity])) in
    if Config.dry_run s then
      track;;
      b ← self;
      assign (set_current_market_trades (current_market_trades b + 1))
    else
      try_except (
        up_price ← item opportunity "price_up";
        down_price ← item opportunity "price_down";
        let orders :=
          [ {| leg_side := "BUY"; leg_token_id := yes_token_id b;
               leg_price := up_price; leg_size := Config.order_size s |};
            {| leg_side := "BUY"; leg_token_id := no_token_id b;
               leg_price := down_price; leg_size := Config.order_size s |} ] in
        emit (PlaceOrders orders);;
        results ← lift (place_orders_fast be orders);
        let errors := omap id results in
        match errors with
        | _ :: _ =>
            mapM (λ msg, emit (ErrorLogged msg)) errors;;
            raise (RuntimeError "Some orders failed")
        | [] =>
            emit (Slept 1);;
            b ← self;
            assign (set_trades_executed (trades_executed b + 1));;
            assign (set_current_market_trades (current_market_trades b + 1));;
            track;;
            assign (set_cached_balance (Some (get_balance be)))
        end).

(** Lines 494-507 of [get_market_result]: the side the final prices
    name. *)
Definition winner (q : Prices) : option string :=
  match price_up q, price_down q with
  | None, _ | Some _, None => None
  | Some price_up, Some price_down =>
      if (0.99 <=? price_up)%float then Some "UP"
      else if (0.99 <=? price_down)%float then Some "DOWN"
      else if (price_down <? price_up)%float then Some "UP"
      else Some "DOWN"
  end.

(** [get_market_result()] *)
Definition get_market_result (quotes : nat → option Prices)
  : M (option string) :=
  q ← get_current_prices quotes;
  mret (winner q).

(** [show_final_summary()]: the ledger row is emitted as it stands in
    [self.order], with the profit-and-loss column it computes; rendering the
    columns as text is left to the ledger. *)
Definition show_final_summary (quotes : nat → option Prices) : M unit :=
  b ← self;
  result ← get_market_result quotes;
  match order b with
  | None => mret tt
  | Some row =>
      _ ← get_number row "cost";
      order_size ← get_number row "order_size";
      entry_price ← get_number row "entry_price";
      pnl ← match row !! "stoploss_price" with
            | None | Some VNone => mret (order_size * (1 - entry_price))%float
            | Some _ =>
                stoploss_price ← get_number row "stoploss_price";
                mret (order_size * (stoploss_price - entry_price))%float
            end;
      emit (Summary (market_slug b) result row pnl)
  end.

(** *** Order sizing *)

(** The adjustment [run_once] makes when [order.price * order.size < 1]:
    the new [order.size]. *)
Definition adjust_size (price : float) : outcome float :=
  price_cents ← Py.round (price * 100)%float;
  quotient ← Py.idiv 10000 price_cents;
  min_s ← Py.ceil quotient;
  match List.find (λ s, (s * price_cents) mod 100 =? 0) (seqZ min_s 200) with
  | Some s => Py.idiv s 100
  | None =>
      inverse ← Py.fdiv 1 price;
      shares ← Py.ceil inverse;
      mret (Py.of_int shares)
  end.

(** The size [run_once] ends up with for a best ask [quote] and a configured
    [order_size]: the configured size, or the adjusted one when the order
    built from the quote costs less than $1. *)
Definition submitted_size (quote order_size : float) : outcome float :=
  order ← OrderDto.new EmptyString (Some quote) order_size;
  if (OrderDto.price order * OrderDto.size order <? 1)%float
  then adjust_size (OrderDto.price order)
  else mret (OrderDto.size order).

(** [round(c * 100) == c * 100] *)
Definition exact_cent (c : float) : bool :=
  match Py.round (c * 100)%float with
  | Ret n => (Py.of_int n =? c * 100)%float
  | Raise _ => false
  end.

(** *** Directional mode *)

(** What one call of [run_once] reads from the outside. *)
Record Scan : Type := {
  now_close : Z;      (** the clock, as [get_time_remaining] reads it *)
  now_start : Z;      (** the clock, as [get_strategy_remaining_to_start] reads it *)
  quotes : nat → option Prices;
  time_stamp : string; (** [str(datetime.now().timestamp())] *)
  backend : Backend;
}.

(** Lines 565-587 of [run_once]: [self.order] and the [OrderDto] of the side
    whose price gave the signal, UP first; [None] when neither did. *)
Definition choose_side (io : Scan) (q : Prices) (up down : bool)
  : M (option OrderDto.t) :=
  b ← self;
  let s := settings b in
  if up then
    assign (set_order (Some (
      <["time_stamp" := VStr (time_stamp io)]> (
      <["direction" := VStr "UP"]> (
      <["entry_price" := of_option (best_up q)]> ∅)))));;
    order ← lift (OrderDto.new (yes_token_id b) (best_up q)
                    (Config.order_size s));
    mret (Some order)
  else if down then
    assign (set_order (Some (
      <["time_stamp" := VStr (time_stamp io)]> (
      <["direction" := VStr "DOWN"]> (
      <["entry_price" := of_option (best_down q)]> ∅)))));;
    order ← lift (OrderDto.new (no_token_id b) (best_down q)
                    (Config.order_size s));
    mret (Some order)
  else mret None.

(** Lines 593-608 of [run_once]: the size entry, the adjustment of an order
    that costs less than $1, and the cost entry. *)
Definition size_order (order : OrderDto.t) : M OrderDto.t :=
  b ← self;
  order_setitem "order_size" (VFloat (Config.order_size (settings b)));;
  order ←
    (if (OrderDto.price order * OrderDto.size order <? 1)%float then
       size ← lift (adjust_size (OrderDto.price order));
       order_setitem "order_size" (VFloat size);;
       mret (OrderDto.set_size order size)
     else mret order);
  order_setitem "cost" (VFloat (OrderDto.size order * OrderDto.price order));;
  mret order.

(** Lines 609-624 of [run_once]: submission unless in dry-run, and the
    position flag. *)
Definition submit_order (io : Scan) (order : OrderDto.t) : M bool :=
  b ← self;
  if negb (Config.dry_run (settings b)) then
    emit (MarketBuy order);;
    results ← lift (execute_market_buy (backend io) order);
    let errors := omap id results in
    match errors with
    | _ :: _ =>
        mapM (λ msg, emit (ErrorLogged msg)) errors;;
        mret false
    | [] =>
        assign (set_is_performed true);;
        mret true
    end
  else
    assign (set_is_performed true);;
    mret true.

Definition run_once (io : Scan) : M bool :=
  b ← self;
  let time_remaining := get_time_remaining b (now_close io) in
  if String.eqb time_remaining "CLOSED" then mret false
  else
    let strategy_remaining_to_start :=
      get_strategy_remaining_to_start b (now_start io) in
    if String.eqb strategy_remaining_to_start "CLOSED" then mret false
    else
      q ← get_current_prices (quotes io);
      (* logger.info(f'Up Price: {price_up:.2f}, Down Price: {price_down:.2f}') *)
      price_up ← number (price_up q);
      price_down ← number (price_down q);
      let s := settings b in
      let up := ((Config.yes_buy_threshold s <=? price_up)
                 && (price_up <=? 0.95))%float in
      let down := ((Config.no_buy_threshold s <=? price_down)
                   && (price_down <=? 0.95))%float in
      if up || down then
        order ← choose_side io q up down;
        match order with
        | None => mret false
        | Some order =>
            order ← size_order order;
            submit_order io order
        end
      else mret false.

(** *** Market discovery and construction *)

(** [re.search(pattern + r'(\d+)', text)], then [int(match.group(1))]:
    the decimal number after the leftmost occurrence of [pattern] that a
    digit follows.  The pattern is matched character by character and the
    digits are [0]..[9]: this is what the regular expression of lines 53 and
    119 does when the symbol put into it has no character with a meaning in
    a regular expression and the text searched is ASCII ([Texts.plain] and
    [Py.isascii] say so in the properties that depend on it); other symbols
    and other digits are not followed. *)
Definition digit (c : Ascii.ascii) : option Z :=
  let n := Z.of_N (Ascii.N_of_ascii c) in
  if (48 <=? n) && (n <=? 57) then Some (n - 48) else None.

Fixpoint digits (acc : Z) (text : string) : Z :=
  match text with
  | String c rest =>
      match digit c with Some d => digits (10 * acc + d) rest | None => acc end
  | EmptyString => acc
  end.

Fixpoint after_prefix (pattern text : string) : option string :=
  match pattern, text with
  | EmptyString, _ => Some text
  | String p pattern', String c text' =>
      if Ascii.eqb p c then after_prefix pattern' text' else None
  | String _ _, EmptyString => None
  end.

Definition number_here (pattern text : string) : option Z :=
  match after_prefix pattern text with
  | Some (String c rest) =>
      match digit c with Some d => Some (digits d rest) | None => None end
  | _ => None
  end.

Fixpoint search_number (pattern text : string) : option Z :=
  match number_here pattern text with
  | Some n => Some n
  | None =>
      match text with
      | String _ rest => search_number pattern rest
      | EmptyString => None
      end
  end.

(** What [find_current_5min_market] reads: the listing page, or the
    exception fetching it raised, and the UTC clock in whole seconds. *)
Record Discovery : Type := {
  page : outcome string;
  utcnow : Z;
}.

Definition find_current_5min_market (symbol : string) (d : Discovery)
  : outcome string :=
  match page d with
  | Raise e => Raise e
  | Ret text =>
      match search_number (symbol +:+ "-updown-5m-") text with
      | None => Raise (RuntimeError "No active 5min market found")
      | Some _ =>
          let aligned_ts := utcnow d - utcnow d mod 300 in
          Ret (symbol +:+ "-updown-5m-" +:+ pretty aligned_ts)
      end
  end.

(** The part of [fetch_market_from_slug]'s answer the bot keeps. *)
Record MarketInfo : Type := {
  info_market_id : string;
  info_yes_token_id : string;
  info_no_token_id : string;
}.

(** [get_client(settings)]: the cached handle, else a key is required before
    the venue is asked for credentials ([connect] is how that goes). *)
Definition get_client (cached : bool) (s : Config.Settings)
    (connect : outcome unit) : outcome unit :=
  if cached then Ret tt
  else if String.eqb (Config.private_key s) EmptyString
  then Raise (RuntimeError "POLYMARKET_PRIVATE_KEY is required for trading")
  else connect.

(** What [__init__] reads from the outside. *)
Record Construction : Type := {
  client_cached : bool;
  connect : outcome unit;
  discovery : Discovery;
  fetch_market_from_slug : string → outcome MarketInfo;
}.

(** The slug [__init__] settles on: the discovered one, else the configured
    one. *)
Definition resolve_slug (settings : Config.Settings) (symbol : string)
    (d : Discovery) : outcome string :=
  match find_current_5min_market symbol d with
  | Ret slug => Ret slug
  | Raise _ =>
      if String.eqb (Config.market_slug settings) EmptyString
      then Raise (RuntimeError "Could not find 5min market and no slug configured")
      else Ret (Config.market_slug settings)
  end.

(** [self.__init__(settings, symbol)] on an existing object. *)
Definition init (settings : Config.Settings) (symbol : string)
    (w : Construction) : M unit :=
  assign (set_settings settings);;
  lift (get_client (client_cached w) settings (connect w));;
  assign (set_is_performed false);;
  assign (set_is_performed_informed false);;
  assign (set_is_finished false);;
  assign (set_order None);;
  market_slug ← lift (resolve_slug settings symbol (discovery w));
  market_info ← lift (fetch_market_from_slug w market_slug);
  assign (set_market_id (info_market_id market_info));;
  assign (set_yes_token_id (info_yes_token_id market_info));;
  assign (set_no_token_id (info_no_token_id market_info));;
  let market_start := search_number (symbol +:+ "-updown-5m-") market_slug in
  (* market_start + self.settings.strategy_start_timestamp: the attribute is
     read before the sum is attempted; an int offset keeps the timestamps
     ints, which is as far as the model follows a float one *)
  offset ← lift (Config.getattr settings "strategy_start_timestamp");
  start ← match market_start, offset with
          | Some t, VInt z => mret (t + z)
          | Some _, VFloat _ => raise (ExternalError "float timestamp")
          | _, _ => raise TypeError
          end;
  assign (set_strategy_start_timestamp start);;
  let truthy := match market_start with Some 0 | None => None | Some t => Some t end in
  assign (set_strategy_end_timestamp ((λ t, t + 120) <$> truthy));;
  assign (set_market_end_timestamp ((λ t, t + 300) <$> truthy));;
  assign (set_market_slug market_slug);;
  assign (set_opportunities_found 0);;
  assign (set_trades_executed 0);;
  assign (set_total_invested 0);;
  assign (set_total_shares_bought 0);;
  assign (set_positions []);;
  assign (set_cached_balance None);;
  assign (set_current_market_trades 0).

(** An object before [__init__] has given it attributes. *)
Definition blank (settings : Config.Settings) : Bot :=
  mkBot settings false false false None EmptyString EmptyString EmptyString
    0 None None EmptyString 0 0 0 0 [] None 0 None.

(** [SimpleArbitrageBot(settings, symbol)] *)
Definition new (settings : Config.Settings) (symbol : string)
    (w : Construction) : outcome Bot :=
  match init settings symbol w (blank settings) with
  | (Ret _, b, _) => Ret b
  | (Raise e, _, _) => Raise e
  end.

(** *** The polling loop *)

(** What one iteration of [monitor] reads from the outside. *)
Record Tick : Type := {
  now : Z;                     (** the clock at the head of the iteration *)
  now_window : Z;              (** the clock at the strategy-start check *)
  quoted : nat → option Prices; (** the quote source outside [run_once] *)
  scan : Scan;
  rediscovery : Discovery;
  reconstruction : Construction;
}.

(** Which branch an iteration took. *)
Inductive branch : Type :=
  | Rotated
  | AwaitingMarket
  | Stopped
  | Watching
  | AwaitingWindow
  | Scanned (opened : bool).

(** [price_up if self.order.get("direction") == "UP" else price_down] *)
Definition held_price (row : gmap string pyval) (q : Prices) : option float :=
  match row !! "direction" with
  | Some (VStr direction) =>
      if String.eqb direction "UP" then price_up q else price_down q
  | _ => price_down q
  end.

(** The stop-loss check of an iteration that holds a position. *)
Definition watch_stoploss (quoted : nat → option Prices) : M unit :=
  b ← self;
  q ← get_current_prices quoted;
  row ← match order b with
        | Some row => mret row
        | None => raise (AttributeError "get")
        end;
  match held_price row q with
  | None => mret tt
  | Some stoploss_price =>
      entry_price ← get_number row "entry_price";
      stoploss ← lift (Config.getattr (settings b) "stoploss");
      stoploss ← match stoploss with
                 | VFloat x => mret x
                 | VInt z => mret (Py.of_int z)
                 | _ => raise TypeError
                 end;
      if (stoploss <=? entry_price - stoploss_price)%float then
        order_setitem "stoploss_price" (VFloat stoploss_price);;
        assign (set_is_finished true)
      else mret tt
  end.

(** The [try] block of an iteration on a closed market: [True] when the bot
    re-initialised itself on a new slug, [False] when the slug is still the
    same or anything raised (what [__init__] had assigned by then stays). *)
Definition rotate (symbol : string) (t : Tick) : M bool := λ b,
  let attempt : M bool :=
    new_market_slug ← lift (find_current_5min_market symbol (rediscovery t));
    if String.eqb new_market_slug (market_slug b) then mret false
    else init (settings b) symbol (reconstruction t);; mret true in
  match attempt b with
  | (Raise _, b', ev) => (Ret false, b', ev)
  | r => r
  end.

(** One iteration of the [while True] of [monitor(symbol, interval_seconds)]. *)
Definition monitor_step (symbol : string) (interval_seconds : Z) (t : Tick)
  : M branch :=
  b ← self;
  if String.eqb (get_time_remaining b (now t)) "CLOSED" then
    show_final_summary (quoted t);;
    assign (set_is_performed false);;
    assign (set_is_performed_informed false);;
    assign (set_is_finished false);;
    assign (set_order None);;
    rotated ← rotate symbol t;
    if rotated : bool then mret Rotated
    else emit (Slept 30);; mret AwaitingMarket
  else if is_finished b then mret Stopped
  else if is_performed b then watch_stoploss (quoted t);; mret Watching
  else if String.eqb (get_strategy_remaining_to_start b (now_window t)) "CLOSED"
  then assign (set_is_performed_informed true);; mret AwaitingWindow
  else
    opened ← run_once (scan t);
    emit (Slept interval_seconds);;
    mret (Scanned opened).

(** The first iterations of the [while True] of [monitor], one per tick, up
    to the first exception: the branches taken, in order. *)
Fixpoint monitor_run (symbol : string) (interval_seconds : Z)
    (ticks : list Tick) : M (list branch) :=
  match ticks with
  | [] => mret []
  | t :: ticks' =>
      taken ← monitor_step symbol interval_seconds t;
      later ← monitor_run symbol interval_seconds ticks';
      mret (taken :: later)
  end.

(** *** Order books and last trades, as the client returns them *)

(** A level of an order book: what [float(level.price)] and
    [float(level.size)] evaluate to. *)
Record Level : Type := {
  level_price : outcome float;
  level_size : outcome float;
}.

(** An order book of the client: [asset_id] and [token_id] as
    [getattr(ob, name, None)] reads them; [bids] and [asks], with [None] for
    an attribute that is missing or [None]. *)
Record OrderBook : Type := {
  book_asset_id : option string;
  book_token_id : option string;
  book_bids : option (list Level);
  book_asks : option (list Level);
}.

(** An entry of the dict [_fetch_orderbooks] returns (the int [0] of an
    empty side is the float [0], which compares and formats alike). *)
Record BookEntry : Type := {
  best_bid : option float;
  best_ask : option float;
  spread : option float;
  bid_size : float;
  ask_size : float;
}.

(** A string attribute that is truthy: neither [None] nor empty. *)
Definition nonempty (s : option string) : option string :=
  match s with
  | Some (String c s') => Some (String c s')
  | _ => None
  end.

(** [getattr(ob, "asset_id", None) or getattr(ob, "token_id", None)], when
    it is truthy. *)
Definition book_key (ob : OrderBook) : option string :=
  match nonempty (book_asset_id ob) with
  | Some asset_id => Some asset_id
  | None => nonempty (book_token_id ob)
  end.

(** [float(side[-1].price) if side else None] *)
Definition best_price (side : list Level) : outcome (option float) :=
  match last side with
  | Some level => price ← level_price level; mret (Some price)
  | None => mret None
  end.

(** [float(side[-1].size) if side else 0] *)
Definition best_size (side : list Level) : outcome float :=
  match last side with
  | Some level => level_size level
  | None => mret 0%float
  end.

(** The truth value of a price that may be [None]: [None] and zero are
    falsy. *)
Definition truthy (x : option float) : bool :=
  match x with
  | Some v => negb (v =? 0)%float
  | None => false
  end.

(** The body of the loop of [_fetch_orderbooks] for a book with a key. *)
Definition book_entry (ob : OrderBook) : outcome BookEntry :=
  let bids := default [] (book_bids ob) in
  let asks := default [] (book_asks ob) in
  best_bid ← best_price bids;
  best_ask ← best_price asks;
  let spread :=
    match best_bid, best_ask with
    | Some bid, Some ask =>
        if truthy best_bid && truthy best_ask then Some (ask - bid)%float
        else None
    | _, _ => None
    end in
  bid_size ← best_size bids;
  ask_size ← best_size asks;
  mret {| best_bid := best_bid; best_ask := best_ask; spread := spread;
          bid_size := bid_size; ask_size := ask_size |}.

Fixpoint index_books (orderbooks : list OrderBook)
    (result : gmap string BookEntry) : outcome (gmap string BookEntry) :=
  match orderbooks with
  | [] => Ret result
  | ob :: orderbooks' =>
      match book_key ob with
      | None => index_books orderbooks' result
      | Some asset_id =>
          entry ← book_entry ob;
          index_books orderbooks' (<[asset_id := entry]> result)
      end
  end.

(** [_fetch_orderbooks(token_ids)], given what [client.get_order_books]
    answered to the request for [token_ids]: whatever raises inside the
    [try] leaves the empty dict. *)
Definition _fetch_orderbooks (fetched : outcome (list OrderBook))
  : gmap string BookEntry :=
  match fetched ≫= (λ orderbooks, index_books orderbooks ∅) with
  | Ret result => result
  | Raise _ => ∅
  end.

(** An item of the answer of [client.get_last_trades_prices]. *)
Record Trade : Type := {
  trade_token_id : option string;  (** [item.get("token_id")] *)
  trade_price : outcome float;     (** [float(item.get("price", 0))] *)
}.

(** The loop over the last trades: the price of a token is that of its
    last item. *)
Fixpoint last_trades (yes no : string) (prices_response : list Trade)
    (price_up price_down : float) : outcome (float * float) :=
  match prices_response with
  | [] => Ret (price_up, price_down)
  | item :: prices_response' =>
      if bool_decide (trade_token_id item = Some yes) then
        price ← trade_price item;
        last_trades yes no prices_response' price price_down
      else if bool_decide (trade_token_id item = Some no) then
        price ← trade_price item;
        last_trades yes no prices_response' price_up price
      else last_trades yes no prices_response' price_up price_down
  end.

(** What the client answers at one attempt of [get_current_prices]. *)
Record Feed : Type := {
  get_last_trades_prices : outcome (list Trade);
  get_order_books : outcome (list OrderBook);
}.

(** The body of the [try] of [get_current_prices]: the six values, or
    [None] when it raises. *)
Definition quote_attempt (b : Bot) (feed : Feed) : option Prices :=
  match get_last_trades_prices feed ≫=
        (λ prices_response,
           last_trades (yes_token_id b) (no_token_id b) prices_response 0 0) with
  | Raise _ => None
  | Ret (price_up, price_down) =>
      let books := _fetch_orderbooks (get_order_books feed) in
      let orderbook_up := books !! yes_token_id b in
      let orderbook_down := books !! no_token_id b in
      Some {| price_up := Some price_up;
              price_down := Some price_down;
              size_up := Some (from_option ask_size 0%float orderbook_up);
              size_down := Some (from_option ask_size 0%float orderbook_down);
              best_up := from_option best_ask (Some 0%float) orderbook_up;
              best_down := from_option best_ask (Some 0%float) orderbook_down |}
  end.

(** What the attempts of bot [b] produce over the answers of the client. *)
Definition feed_quotes (b : Bot) (feeds : nat → Feed) : nat → option Prices :=
  λ attempt, quote_attempt b (feeds attempt).

(** [get_current_prices()] over the answers of the client, attempt by
    attempt. *)
Definition current_prices (feeds : nat → Feed) : M Prices :=
  b ← self;
  get_current_prices (feed_quotes b feeds).

End Strategy.

(** ** What importing the modules binds *)

Module Imports.

Inductive stmt : Type :=
  | Import (module : string)
  | FromImport (module : string) (names : list string).

(** A module of this repository: its import statements in order, then the
    names its own [def], [class] and assignment statements bind. *)
Record source : Type := {
  imports : list stmt;
  defines : list string;
}.

Definition mem (name : string) (names : list string) : bool :=
  existsb (String.eqb name) names.

(** One import statement, given what loading a module yields (the names of
    its namespace, or the exception its body raised): the names it binds. *)
Definition run (load : string → outcome (list string)) (st : stmt)
  : outcome (list string) :=
  match st with
  | Import module =>
      match load module with
      | Raise e => Raise e
      | Ret _ => Ret [module]
      end
  | FromImport module names =>
      match load module with
      | Raise e => Raise e
      | Ret namespace =>
          match List.find (λ name, negb (mem name namespace)) names with
          | Some name => Raise (ImportError name)
          | None => Ret names
          end
      end
  end.

Fixpoint run_all (load : string → outcome (list string)) (sts : list stmt)
  : outcome (list string) :=
  match sts with
  | [] => Ret []
  | st :: sts' =>
      match run load st with
      | Raise e => Raise e
      | Ret bound =>
          match run_all load sts' with
          | Raise e => Raise e
          | Ret bound' => Ret (bound ++ bound')
          end
      end
  end.

(** Executing a module: its imports, then its definitions. *)
Definition exec (load : string → outcome (list string)) (m : source)
  : outcome (list string) :=
  match run_all load (imports m) with
  | Raise e => Raise e
  | Ret bound => Ret (bound ++ defines m)
  end.

Definition config : source := {|
  imports := [ Import "os"; FromImport "dataclasses" ["dataclass"];
               FromImport "dotenv" ["load_dotenv"] ];
  defines := [ "Settings"; "load_settings" ];
|}.

Definition order_dto : source := {|
  imports := [ FromImport "dataclasses" ["dataclass"; "asdict"] ];
  defines := [ "OrderDto" ];
|}.

Definition market_lookup : source := {|
  imports := [ Import "json"; Import "re"; FromImport "datetime" ["datetime"];
               FromImport "typing" ["Dict"]; Import "httpx" ];
  defines := [ "fetch_market_from_slug"; "next_slug"; "parse_iso" ];
|}.

Definition trading_client : source := {|
  imports := [ Import "functools"; Import "logging";
               FromImport "typing" ["Optional"];
               FromImport "py_clob_client.client" ["ClobClient"];
               FromImport "py_clob_client.clob_types"
                 [ "BalanceAllowanceParams"; "AssetType"; "OrderArgs";
                   "OrderType"; "PostOrdersArgs" ];
               FromImport "py_clob_client.order_builder.constants"
                 [ "BUY"; "SELL" ];
               FromImport "config" ["Settings"] ];
  defines := [ "logger"; "_cached_client"; "get_client"; "get_balance";
               "place_order"; "place_orders_fast"; "get_positions" ];
|}.

Definition strategy_5min : source := {|
  imports := [ Import "asyncio"; Import "logging"; Import "re"; Import "sys";
               Import "csv"; Import "os"; Import "math";
               FromImport "datetime" ["datetime"; "timezone"; "timedelta"];
               FromImport "typing" ["Optional"; "Tuple"; "List"];
               Import "httpx";
               FromImport "src.config" ["load_settings"];
               FromImport "dto.order_dto" ["OrderDto"];
               FromImport "src.market_lookup" ["fetch_market_from_slug"];
               FromImport "src.trading_client"
                 [ "get_client"; "get_balance"; "get_positions";
                   "place_orders_fast"; "execute_market_buy" ];
               FromImport "py_clob_client.clob_types" ["BookParams"] ];
  defines := [ "logger"; "find_current_5min_market"; "SimpleArbitrageBot";
               "strategy" ];
|}.

(** Loading a module by name: the repository's own are executed, any other
    is what the installation ([installed]) makes of it. *)
Definition load (installed : string → outcome (list string)) (name : string)
  : outcome (list string) :=
  if String.eqb name "src.config" then exec installed config
  else if String.eqb name "dto.order_dto" then exec installed order_dto
  else if String.eqb name "src.market_lookup" then exec installed market_lookup
  else if String.eqb name "src.trading_client" then exec installed trading_client
  else installed name.

(** [import src.strategy_5min] *)
Definition import_strategy_5min (installed : string → outcome (list string))
  : outcome (list string) :=
  exec (load installed) strategy_5min.

End Imports.

(** ** src/trading_client.py *)

Module TradingClient.

(** [c.upper()] for an ASCII character. *)
Definition upper_ascii (c : Ascii.ascii) : Ascii.ascii :=
  let n := Ascii.N_of_ascii c in
  if ((97 <=? n) && (n <=? 122))%N then Ascii.ascii_of_N (n - 32) else c.

Fixpoint upper_letters (s : string) : string :=
  match s with
  | EmptyString => EmptyString
  | String c s' => String (upper_ascii c) (upper_letters s')
  end.

(** [s.upper()]: on an ASCII text the letters [a]..[z] become [A]..[Z];
    a text with a character outside ASCII is upper-cased by Python's
    Unicode tables, which are not written out here: [unicode s] is what they
    give (for instance ["SELL"] for ["ſell"]). *)
Definition upper (unicode : string → string) (s : string) : string :=
  if Py.isascii s then upper_letters s else unicode s.

Inductive Side : Type := BUY | SELL.

(** [OrderArgs(token_id=..., price=..., size=..., side=...)] *)
Record OrderArgs : Type := {
  args_token_id : string;
  args_price : float;
  args_size : float;
  args_side : Side;
}.

(** The client [get_client] hands out: what signing an order and posting a
    signed one answer.  A signed order is known by the arguments it was
    made from; a response is the text of the venue's answer. *)
Record Client : Type := {
  create_order : OrderArgs → outcome OrderArgs;
  post_order : OrderArgs → outcome string;
}.

(** [place_order(settings, side=..., token_id=..., price=..., size=...)];
    [cached] and [connect] are what [get_client] meets, [unicode] is
    [str.upper] outside ASCII.  The body does not read [tif]: the order is
    posted as [OrderType.GTC]. *)
Definition place_order (unicode : string → string) (cached : bool)
    (connect : outcome unit) (client : Client) (settings : Config.Settings)
    (side token_id : string) (price size : float) : outcome string :=
  if (price <=? 0)%float then Raise ValueError
  else if (size <=? 0)%float then Raise ValueError
  else if String.eqb token_id EmptyString then Raise ValueError
  else
    let side_up := upper unicode side in
    if negb (String.eqb side_up "BUY" || String.eqb side_up "SELL")
    then Raise ValueError
    else
      Strategy.get_client cached settings connect;;
      let order_args :=
        {| args_token_id := token_id; args_price := price;
           args_size := size;
           args_side := if String.eqb side_up "BUY" then BUY else SELL |} in
      match create_order client order_args ≫= post_order client with
      | Ret response => Ret response
      | Raise exc => Raise (RuntimeError "place_order failed")
      end.

(** A position of the data API: [pos.get("asset")], and what
    [float(pos.get("size", 0))] and the average-price expression evaluate
    to. *)
Record Position : Type := {
  pos_asset : option string;
  pos_size : outcome float;
  pos_avg_price : outcome float;
}.

(** An entry of the dict [get_positions] returns. *)
Record Holding : Type := {
  holding_size : float;
  holding_avg_price : float;
  holding_raw : Position;
}.

(** The loop of [get_positions] over the positions fetched. *)
Fixpoint collect (token_ids : option (list string))
    (positions : list Position) (result : gmap string Holding)
  : outcome (gmap string Holding) :=
  match positions with
  | [] => Ret result
  | pos :: positions' =>
      match Strategy.nonempty (pos_asset pos) with
      | Some token_id =>
          if match token_ids with
             | None => true
             | Some ids => bool_decide (token_id ∈ ids)
             end
          then
            size ← pos_size pos;
            avg_price ← pos_avg_price pos;
            collect token_ids positions'
              (<[token_id := {| holding_size := size;
                                holding_avg_price := avg_price;
                                holding_raw := pos |}]> result)
          else collect token_ids positions' result
      | None => collect token_ids positions' result
      end
  end.

(** [get_positions(settings, token_ids)], given what the data API answered
    for the funder's address: without a funder nothing is asked, and
    whatever raises leaves the empty dict. *)
Definition get_positions (settings : Config.Settings)
    (token_ids : option (list string)) (fetched : outcome (list Position))
  : gmap string Holding :=
  if String.eqb (Config.funder settings) EmptyString then ∅
  else
    match fetched ≫= (λ positions, collect token_ids positions ∅) with
    | Ret result => result
    | Raise _ => ∅
    end.

End TradingClient.

(** ** src/market_lookup.py *)

Module MarketLookup.

Definition newline : Ascii.ascii := Ascii.ascii_of_N 10.
Definition hyphen : Ascii.ascii := Ascii.ascii_of_N 45.

(** [\d+$] against the rest of a text: one digit or more, then the end of
    the text or the newline that ends it. *)
Fixpoint digits_to_end (seen : bool) (text : string) : bool :=
  match text with
  | EmptyString => seen
  | String c rest =>
      match Strategy.digit c with
      | Some _ => digits_to_end true rest
      | None => seen && Ascii.eqb c newline && String.eqb rest EmptyString
      end
  end.

(** [re.match(r"(.+-)(\d+)$", slug)]: group 1 and the text from group 2
    on.  [taken] is what [.+] holds so far, last character first; [.+] is
    greedy, so a longer prefix is tried before the hyphen at hand, and [.]
    matches no newline. *)
Fixpoint groups (taken text : string) : option (string * string) :=
  match text with
  | EmptyString => None
  | String c rest =>
      if Ascii.eqb c newline then None
      else
        match groups (String c taken) rest with
        | Some found => Some found
        | None =>
            if Ascii.eqb c hyphen && negb (String.eqb taken EmptyString)
               && digits_to_end false rest
            then Some (String.rev (String c taken), rest)
            else None
        end
  end.

(** [next_slug(slug)], on ASCII text: [\d] is a decimal digit [0]..[9]. *)
Definition next_slug (slug : string) : outcome string :=
  match groups EmptyString slug with
  | None => Raise ValueError
  | Some (prefix, num) =>
      Ret (prefix +:+ pretty (Strategy.digits 0 num + 900))
  end.

End MarketLookup.


(** ** Sample sessions *)

Module Sample.

Import Strategy.

(** Settings as [load_settings] builds them from an empty environment, with
    a private key and with the two attributes the bot reads beyond the
    declared fields set on the instance. *)
Definition settings_with (offset : Z) (stoploss : float) (max_trades min_minutes : Z)
    (dry : bool) : Config.Settings :=
  let s := Config.load_settings
             {| Config.getenv := λ _, None; Config.getenv_float := λ _, None;
                Config.getenv_int := λ _, None |} in
  {| Config.api_key := Config.api_key s;
     Config.api_secret := Config.api_secret s;
     Config.api_passphrase := Config.api_passphrase s;
     Config.private_key := "0xkey";
     Config.signature_type := Config.signature_type s;
     Config.funder := Config.funder s;
     Config.market_slug := Config.market_slug s;
     Config.market_id := Config.market_id s;
     Config.yes_token_id := Config.yes_token_id s;
     Config.no_token_id := Config.no_token_id s;
     Config.ws_url := Config.ws_url s;
     Config.target_pair_cost := Config.target_pair_cost s;
     Config.balance_slack := Config.balance_slack s;
     Config.order_size := Config.order_size s;
     Config.yes_buy_threshold := Config.yes_buy_threshold s;
     Config.no_buy_threshold := Config.no_buy_threshold s;
     Config.verbose := Config.verbose s;
     Config.dry_run := dry;
     Config.cooldown_seconds := Config.cooldown_seconds s;
     Config.sim_balance := Config.sim_balance s;
     Config.max_trades_per_market := max_trades;
     Config.min_time_remaining_minutes := min_minutes;
     Config.attrs := <["strategy_start_timestamp" := VInt offset]>
                       (<["stoploss" := VFloat stoploss]> ∅) |}.

(** The bot of market [btc-updown-5m-1000] with a 60 second offset: the
    strategy window starts at 1060 and the market closes at 1300. *)
Definition bot_1000 (s : Config.Settings) : Bot :=
  mkBot s false false false None "m" "yes" "no" 1060 (Some 1120) (Some 1300)
    "btc-updown-5m-1000" 0 0 0 0 [] None 0 None.

(** An accepting backend with no balance. *)
Definition accepting : Backend := {|
  execute_market_buy := λ _, Ret [None];
  place_orders_fast := λ _, Ret [None; None];
  get_balance := 0;
|}.

(** A quote source that answers at once with the given tuple. *)
Definition quoting (price_up price_down size_up size_down best_up best_down : float)
  : nat → option Prices :=
  λ _, Some {| price_up := Some price_up; price_down := Some price_down;
               size_up := Some size_up; size_down := Some size_down;
               best_up := Some best_up; best_down := Some best_down |}.

(** A quote source that raises at every attempt. *)
Definition failing : nat → option Prices := λ _, None.

Definition offline : Construction := {|
  client_cached := true;
  connect := Ret tt;
  discovery := {| page := Raise (ExternalError "offline"); utcnow := 1100 |};
  fetch_market_from_slug := λ _, Raise (ExternalError "offline");
|}.

(** One iteration at second [clock] with the given quotes. *)
Definition tick (clock : Z) (q : nat → option Prices) : Tick := {|
  now := clock;
  now_window := clock;
  quoted := q;
  scan := {| now_close := clock; now_start := clock; quotes := q;
             time_stamp := "1100.5"; backend := accepting |};
  rediscovery := discovery offline;
  reconstruction := offline;
|}.

(** The bot of [bot_1000] after it bought 50 UP shares at 0.46. *)
Definition holding_up (s : Config.Settings) : Bot :=
  set_is_performed true (set_order (Some (
    <["time_stamp" := VStr "1100.5"]> (
    <["direction" := VStr "UP"]> (
    <["entry_price" := VFloat 0.46]> (
    <["order_size" := VFloat 50]> (
    <["cost" := VFloat 23]> ∅)))))) (bot_1000 s)).

(** The bot of [bot_1000] after it bought 50 shares of the side
    [direction] at [entry]. *)
Definition position (direction : string) (entry : float)
    (s : Config.Settings) : Bot :=
  set_is_performed true (set_order (Some (
    <["time_stamp" := VStr "1100.5"]> (
    <["direction" := VStr direction]> (
    <["entry_price" := VFloat entry]> (
    <["order_size" := VFloat 50]> (
    <["cost" := VFloat (50 * Py.round2 entry)]> ∅)))))) (bot_1000 s)).

(** An installation in which every module outside the repository loads and
    offers every name asked of it. *)
Definition installed : string → outcome (list string) :=
  λ _, Ret [ "dataclass"; "asdict"; "load_dotenv"; "datetime"; "timezone";
             "timedelta"; "Dict"; "Optional"; "Tuple"; "List"; "ClobClient";
             "BalanceAllowanceParams"; "AssetType"; "OrderArgs"; "OrderType";
             "PostOrdersArgs"; "BUY"; "SELL"; "Settings"; "BookParams" ].

(** The market [btc-updown-5m-1000] is listed, resolves, and the venue
    hands out credentials. *)
Definition online : Construction := {|
  client_cached := false;
  connect := Ret tt;
  discovery := {| page := Ret "<a href=/event/btc-updown-5m-1000>";
                  utcnow := 1100 |};
  fetch_market_from_slug := λ _,
    Ret {| info_market_id := "m"; info_yes_token_id := "yes";
           info_no_token_id := "no" |};
|}.

(** An environment that sets the private key only. *)
Definition environ : Config.Environ := {|
  Config.getenv := λ name,
    if String.eqb name "POLYMARKET_PRIVATE_KEY" then Some "0xkey" else None;
  Config.getenv_float := λ _, None;
  Config.getenv_int := λ _, None;
|}.

(** The default settings but for a pair-cost target of 1.5. *)
Definition loose_target : Config.Settings :=
  Config.load_settings
    {| Config.getenv := Config.getenv environ;
       Config.getenv_float := λ name,
         if String.eqb name "TARGET_PAIR_COST" then Some 1.5%float else None;
       Config.getenv_int := λ _, None |}.

End Sample.

(** ** Vocabulary of the proofs *)

Module Import Vocabulary.

Import Strategy.

(** Bodies that leave [self] as it was. *)
Definition keeps_self {A} (m : M A) : Prop := ∀ b, (m b).1.2 = b.


(** Bodies that emit nothing. *)
Definition silent {A} (m : M A) : Prop := ∀ b, (m b).2 = [].

(** The result of a body that ran after the events [before]. *)
Definition after {A} (before : list event) (x : outcome A * Bot * list event)
  : outcome A * Bot * list event :=
  (x.1.1, x.1.2, before ++ x.2).

(** What [adjust_size] does at [k] cents, checked by evaluation. *)
Definition sizing_ok (k : Z) : bool :=
  let price := Py.nearest k 100 in
  match Py.round (price * 100)%float, adjust_size price with
  | Ret price_cents, Ret size =>
      match Py.round (size * 100)%float with
      | Ret s =>
        (price_cents =? k)
        && PrimFloat.Leibniz.eqb size (Py.nearest s 100)
        && (10000 <=? s * k) && ((s * k) mod 100 =? 0)
        && (1 <=? size * price)%float
      | _ => false
      end
  | _, _ => false
  end.

(** Rounding a positive mantissa at an exponent of the format gives a
    positive number or the positive infinity, never a zero. *)
Definition positive_result (x : spec_float) : Prop :=
  match x with
  | S754_finite false _ _ | S754_infinity false => True
  | _ => False
  end.

(** The number one, as [Prim2SF] gives it. *)
Definition one64 : spec_float := S754_finite false 4503599627370496 (-52).

(** Line 280 of [check_arbitrage] does not reject the quotes: not both
    last-trade/best-ask gaps above 0.03, and their sum not above 0.05. *)
Definition within_tolerance (price_up price_down best_up best_down : float)
  : bool :=
  let up_diff := abs (price_up - best_up) in
  let down_diff := abs (price_down - best_down) in
  negb ((0.03 <? up_diff) && (0.03 <? down_diff)
        || (0.05 <? up_diff + down_diff))%float.

End Vocabulary.

(** * Predicates and scenarios of the further properties *)

Import Strategy.

Module Import Checks.

(** [math.ceil(10000 / k)] is the integer ceiling, checked by evaluation. *)
Definition ceil_ok (k : Z) : bool :=
  match Py.idiv 10000 k ≫= Py.ceil with
  | Ret min_s => min_s =? - ((- 10000) / k)
  | Raise _ => false
  end.

(** [round(k / 100, 2)] is [k / 100] again, checked by evaluation. *)
Definition grid_ok (k : Z) : bool :=
  PrimFloat.Leibniz.eqb (Py.round2 (Py.nearest k 100)) (Py.nearest k 100).

End Checks.

Module Import Shapes.

(** The dict [check_arbitrage] returns for a pair of prices and sizes. *)
Definition opportunity_of (s : Config.Settings) (now_iso : string)
    (pu pd su sd : float) : gmap string pyval :=
  let total_cost := (pu + pd)%float in
  let profit := (1 - total_cost)%float in
  let investment := (total_cost * Config.order_size s)%float in
  let expected_payout := (1 * Config.order_size s)%float in
  <["price_up" := VFloat pu]> (
  <["price_down" := VFloat pd]> (
  <["total_cost" := VFloat total_cost]> (
  <["profit_per_share" := VFloat profit]> (
  <["profit_pct" := VFloat (profit / total_cost * 100)]> (
  <["order_size" := VFloat (Config.order_size s)]> (
  <["total_investment" := VFloat investment]> (
  <["expected_payout" := VFloat expected_payout]> (
  <["expected_profit" := VFloat (expected_payout - investment)]> (
  <["size_up" := VFloat su]> (
  <["size_down" := VFloat sd]> (
  <["timestamp" := VStr now_iso]> ∅))))))))))).

End Shapes.

Module Import Steps.

(** What [d[key]] read as a number evaluates to. *)
Definition item_value (d : gmap string pyval) (key : string) : outcome float :=
  match d !! key with
  | Some (VFloat x) => Ret x
  | Some (VInt z) => Ret (Py.of_int z)
  | Some _ => Raise TypeError
  | None => Raise (KeyError key)
  end.

(** The three tracking assignments [execute_arbitrage] makes for a trade. *)
Definition tracked (opportunity : gmap string pyval)
    (order_size total_investment : float) (b : Bot) : Bot :=
  set_positions (positions b ++ [opportunity])
    (set_total_shares_bought (total_shares_bought b + order_size * 2)%float
       (set_total_invested (total_invested b + total_investment)%float b)).

(** The cap test of [execute_arbitrage]. *)
Definition capped (b : Bot) : bool :=
  (0 <? Config.max_trades_per_market (settings b))
  && (Config.max_trades_per_market (settings b) <=? current_market_trades b).

End Steps.

Module Scenario.

(** A backend that reports an error for the first leg and for every market
    buy. *)
Definition rejecting : Backend := {|
  execute_market_buy := λ _, Ret [Some "not enough balance"];
  place_orders_fast := λ _, Ret [Some "not enough balance"; None];
  get_balance := 0;
|}.

(** The settings of [Sample.settings_with], with a configured slug. *)
Definition with_slug (slug : string) : Config.Settings :=
  let s := Sample.settings_with 60 0.10 0 0 false in
  {| Config.api_key := Config.api_key s;
     Config.api_secret := Config.api_secret s;
     Config.api_passphrase := Config.api_passphrase s;
     Config.private_key := Config.private_key s;
     Config.signature_type := Config.signature_type s;
     Config.funder := Config.funder s;
     Config.market_slug := slug;
     Config.market_id := Config.market_id s;
     Config.yes_token_id := Config.yes_token_id s;
     Config.no_token_id := Config.no_token_id s;
     Config.ws_url := Config.ws_url s;
     Config.target_pair_cost := Config.target_pair_cost s;
     Config.balance_slack := Config.balance_slack s;
     Config.order_size := Config.order_size s;
     Config.yes_buy_threshold := Config.yes_buy_threshold s;
     Config.no_buy_threshold := Config.no_buy_threshold s;
     Config.verbose := Config.verbose s;
     Config.dry_run := Config.dry_run s;
     Config.cooldown_seconds := Config.cooldown_seconds s;
     Config.sim_balance := Config.sim_balance s;
     Config.max_trades_per_market := Config.max_trades_per_market s;
     Config.min_time_remaining_minutes := Config.min_time_remaining_minutes s;
     Config.attrs := Config.attrs s |}.

(** The same settings with a funder address. *)
Definition funded (address : string) : Config.Settings :=
  let s := Sample.settings_with 60 0.10 0 0 false in
  {| Config.api_key := Config.api_key s;
     Config.api_secret := Config.api_secret s;
     Config.api_passphrase := Config.api_passphrase s;
     Config.private_key := Config.private_key s;
     Config.signature_type := Config.signature_type s;
     Config.funder := address;
     Config.market_slug := Config.market_slug s;
     Config.market_id := Config.market_id s;
     Config.yes_token_id := Config.yes_token_id s;
     Config.no_token_id := Config.no_token_id s;
     Config.ws_url := Config.ws_url s;
     Config.target_pair_cost := Config.target_pair_cost s;
     Config.balance_slack := Config.balance_slack s;
     Config.order_size := Config.order_size s;
     Config.yes_buy_threshold := Config.yes_buy_threshold s;
     Config.no_buy_threshold := Config.no_buy_threshold s;
     Config.verbose := Config.verbose s;
     Config.dry_run := Config.dry_run s;
     Config.cooldown_seconds := Config.cooldown_seconds s;
     Config.sim_balance := Config.sim_balance s;
     Config.max_trades_per_market := Config.max_trades_per_market s;
     Config.min_time_remaining_minutes := Config.min_time_remaining_minutes s;
     Config.attrs := Config.attrs s |}.


(** An iteration at second [clock] in which the listing page shows the
    market of the symbol, but does not load again inside [__init__]; any
    slug resolves, to a market with ids of its own. *)
Definition half_rotated (clock : Z) (q : nat → option Prices) : Tick := {|
  now := clock;
  now_window := clock;
  quoted := q;
  scan := scan (Sample.tick clock q);
  rediscovery := {| page := Ret "<a href=/event/btc-updown-5m-1300>";
                    utcnow := clock |};
  reconstruction := {|
    client_cached := true;
    connect := Ret tt;
    discovery := {| page := Raise (ExternalError "timeout"); utcnow := clock |};
    fetch_market_from_slug := λ _,
      Ret {| info_market_id := "m2"; info_yes_token_id := "yes2";
             info_no_token_id := "no2" |};
  |};
|}.

(** What a scan reads at second [clock] when the backend refuses. *)
Definition refused (clock : Z) (q : nat → option Prices) : Scan := {|
  now_close := clock; now_start := clock; quotes := q;
  time_stamp := "1100.5"; backend := rejecting;
|}.

(** An answer of the client with the last trades of both tokens at 0.50
    and no order books. *)
Definition bookless : Feed := {|
  get_last_trades_prices :=
    Ret [ {| trade_token_id := Some "yes"; trade_price := Ret 0.5%float |};
          {| trade_token_id := Some "no"; trade_price := Ret 0.5%float |} ];
  get_order_books := Raise (ExternalError "timeout");
|}.

End Scenario.

Module Import Frames.

(** Bodies that take [self] to a bot related to it by [R]. *)
Definition frame (R : Bot → Bot → Prop) {A} (m : M A) : Prop :=
  ∀ b, R b (m b).1.2.

(** Bodies all of whose events satisfy [P]. *)
Definition emits (P : event → Prop) {A} (m : M A) : Prop :=
  ∀ b e, e ∈ (m b).2 → P e.

(** Two states of a bot that differ at most in the position: in [order],
    [is_performed], [is_performed_informed] and [is_finished]. *)
Definition same_market (b b' : Bot) : Prop :=
  settings b' = settings b
  ∧ market_id b' = market_id b
  ∧ yes_token_id b' = yes_token_id b
  ∧ no_token_id b' = no_token_id b
  ∧ strategy_start_timestamp b' = strategy_start_timestamp b
  ∧ strategy_end_timestamp b' = strategy_end_timestamp b
  ∧ market_end_timestamp b' = market_end_timestamp b
  ∧ market_slug b' = market_slug b
  ∧ opportunities_found b' = opportunities_found b
  ∧ trades_executed b' = trades_executed b
  ∧ total_invested b' = total_invested b
  ∧ total_shares_bought b' = total_shares_bought b
  ∧ positions b' = positions b
  ∧ cached_balance b' = cached_balance b
  ∧ current_market_trades b' = current_market_trades b
  ∧ last_price_info b' = last_price_info b.

(** An event that is no pause, unless it is the one-second pause after a
    failed attempt to read the quotes. *)
Definition retry_sleep (e : event) : Prop :=
  match e with Slept seconds => seconds = 1 | _ => True end.

(** The pause an iteration of [monitor] ends with: [asyncio.sleep(30)]
    when it waits for the next market, [asyncio.sleep(interval_seconds)]
    after a scan. *)
Definition loop_pause (interval : Z) (taken : outcome branch) : list event :=
  match taken with
  | Ret AwaitingMarket => [Slept 30]
  | Ret (Scanned _) => [Slept interval]
  | _ => []
  end.

(** A branch of an iteration that holds a position. *)
Definition holding (taken : branch) : Prop :=
  taken = Stopped ∨ taken = Watching.

(** Settings whose [strategy_start_timestamp] is no float (an int, another
    value, or no attribute at all): as far as [init] follows line 121. *)
Definition whole_offset (s : Config.Settings) : bool :=
  match Config.attrs s !! "strategy_start_timestamp" with
  | Some (VFloat _) => false
  | _ => true
  end.

(** The bot once the position is cleared, as lines 87-90 and 662-665 do. *)
Definition without_position (b : Bot) : Bot :=
  set_order None (set_is_finished false
    (set_is_performed_informed false (set_is_performed false b))).

(** The bot with the ids of a fetched market, as lines 107-109 assign
    them. *)
Definition with_ids (info : MarketInfo) (b : Bot) : Bot :=
  set_no_token_id (info_no_token_id info)
    (set_yes_token_id (info_yes_token_id info)
       (set_market_id (info_market_id info) b)).

End Frames.

Module Import Rows.

(** The dict [run_once] assigns to [self.order] when it picks a side. *)
Definition entry_row (time_stamp direction : string) (quote : float)
  : gmap string pyval :=
  <["time_stamp" := VStr time_stamp]> (
  <["direction" := VStr direction]> (
  <["entry_price" := VFloat quote]> ∅)).

(** The side [run_once] buys for a pair of signals, and its best ask. *)
Definition picked (b : Bot) (q : Prices) (up : bool)
  : string * string * option float :=
  if up then ("UP", yes_token_id b, best_up q)
  else ("DOWN", no_token_id b, best_down q).

(** The signals of line 563. *)
Definition signal_up (b : Bot) (price_up : float) : bool :=
  ((Config.yes_buy_threshold (settings b) <=? price_up)
   && (price_up <=? 0.95))%float.

Definition signal_down (b : Bot) (price_down : float) : bool :=
  ((Config.no_buy_threshold (settings b) <=? price_down)
   && (price_down <=? 0.95))%float.

End Rows.

Module Import Texts.

(** A text of decimal digits only. *)
Fixpoint all_digits (text : string) : bool :=
  match text with
  | EmptyString => true
  | String c rest => bool_decide (is_Some (digit c)) && all_digits rest
  end.

(** A text without a newline. *)
Fixpoint one_line (text : string) : bool :=
  match text with
  | EmptyString => true
  | String c rest => negb (Ascii.eqb c MarketLookup.newline) && one_line rest
  end.

(** The characters with a meaning of their own in a regular expression. *)
Definition special (c : Ascii.ascii) : bool :=
  existsb (Ascii.eqb c) (String.list_ascii_of_string ".^$*+?{}[]\|()").

(** A symbol that stands for itself in the patterns of lines 53 and 119:
    its characters are ASCII and none is special, so that the pattern
    matches the texts that hold [<symbol>-updown-5m-] and a digit, as
    [search_number] does. *)
Fixpoint plain (symbol : string) : bool :=
  match symbol with
  | EmptyString => true
  | String c rest =>
      (Ascii.N_of_ascii c <? 128)%N && negb (special c) && plain rest
  end.

End Texts.

(** * Properties *)

Import Strategy.

(** ** Python's numbers, on values CPython is known for *)

Example round2_values :
  Py.round2 2.675 = 2.67%float ∧ Py.round2 0.125 = 0.12%float
  ∧ Py.round2 0.005 = 0.01%float ∧ Py.round2 0.46 = 0.46%float
  ∧ Py.round2 0.003 = 0%float ∧ Py.round2 123456789.125 = 123456789.12%float.
Proof. vm_compute. done. Qed.

Example round_values :
  Py.round 0.5 = Ret 0 ∧ Py.round 1.5 = Ret 2 ∧ Py.round 2.5 = Ret 2
  ∧ Py.round (0.29 * 100) = Ret 29 ∧ Py.ceil (10000 / 3) = Ret 3334
  ∧ Py.ceil (-1.5) = Ret (-1).
Proof. vm_compute. done. Qed.

Example nearest_values :
  Py.nearest 46 100 = 0.46%float ∧ Py.nearest 1 3 = (1 / 3)%float
  ∧ Py.nearest 3400 100 = 34%float ∧ Py.of_int 9007199254740993 = 9007199254740992%float
  ∧ (0.46 - 0.35)%float = 0.11000000000000004%float.
Proof. vm_compute. done. Qed.

(** ** Remaining time to the strategy start *)

Lemma minutes_seconds_not_closed (remaining : Z) :
  minutes_seconds remaining ≠ "CLOSED".
Proof.
  unfold minutes_seconds.
  generalize (pretty (remaining / 60)) as m, (pretty (remaining mod 60)) as sec.
  intros m sec H.
  do 6 (destruct m as [|? m]; simpl in H; [discriminate H|];
        injection H as _ H).
  destruct m; discriminate H.
Qed.

Lemma remaining_to_start_closed (b : Bot) (now : Z) :
  strategy_start_timestamp b ≠ 0 →
  get_strategy_remaining_to_start b now = "CLOSED" ↔
  now ≤ strategy_start_timestamp b.
Proof.
  intros Hset. unfold get_strategy_remaining_to_start.
  destruct (Z.eqb_spec (strategy_start_timestamp b) 0) as [|_]; [done|].
  destruct (Z.leb_spec 0 (strategy_start_timestamp b - now)) as [Hle|Hlt].
  - split; [lia|done].
  - split; [|lia]. intros Hc%minutes_seconds_not_closed. done.
Qed.


Lemma eqb_closed_false (text : string) :
  text ≠ "CLOSED" → String.eqb text "CLOSED" = false.
Proof. intros H. by apply String.eqb_neq. Qed.

Lemma bind_self {A} (k : Bot → M A) (b : Bot) : (self ≫= k) b = k b b.
Proof.
  unfold mbind, M_bind, self. by destruct (k b b) as [[r b'] ev].
Qed.

(** A call of [get_current_prices] hands on the values it read, after its
    pauses. *)
Lemma bind_quotes {A} (quotes : nat → option Prices) (k : Prices → M A)
    (b : Bot) :
  (get_current_prices quotes ≫= k) b
  = after (pauses_of quotes) (k (prices_of quotes) b).
Proof.
  unfold mbind, M_bind, get_current_prices, after.
  by destruct (k (prices_of quotes) b) as [[r b'] ev].
Qed.

Lemma after_outcome {A} (before : list event)
    (x : outcome A * Bot * list event) :
  (after before x).1.1 = x.1.1.
Proof. reflexivity. Qed.

Lemma after_state {A} (before : list event)
    (x : outcome A * Bot * list event) :
  (after before x).1.2 = x.1.2.
Proof. reflexivity. Qed.

Lemma after_events {A} (before : list event)
    (x : outcome A * Bot * list event) :
  (after before x).2 = before ++ x.2.
Proof. reflexivity. Qed.

Lemma after_triple {A} (before : list event) (r : outcome A) (b : Bot)
    (ev : list event) :
  after before (r, b, ev) = (r, b, before ++ ev).
Proof. reflexivity. Qed.

(** The pauses of a call are one-second sleeps, two at most. *)
Lemma pauses_of_cases (quotes : nat → option Prices) :
  pauses_of quotes = [] ∨ pauses_of quotes = [Slept 1]
  ∨ pauses_of quotes = [Slept 1; Slept 1].
Proof.
  unfold pauses_of. simpl.
  destruct (quotes 1%nat); [by left|].
  destruct (attempts quotes [2%nat; 3%nat]) as [q slept] eqn:Hrest.
  simpl in Hrest. destruct (quotes 2%nat); [injection Hrest as _ <-; auto|].
  destruct (quotes 3%nat); injection Hrest as _ <-; auto.
Qed.

Lemma pauses_of_slept (quotes : nat → option Prices) (e : event) :
  e ∈ pauses_of quotes → e = Slept 1.
Proof.
  destruct (pauses_of_cases quotes) as [->|[->| ->]]; intros H;
    repeat (apply elem_of_cons in H as [->|H]; [done|]);
    by apply elem_of_nil in H.
Qed.

(** A quote source that answers at the first attempt makes no pause. *)
Lemma pauses_of_first (quotes : nat → option Prices) (q : Prices) :
  quotes 1%nat = Some q → prices_of quotes = q ∧ pauses_of quotes = [].
Proof. intros H. unfold prices_of, pauses_of. simpl. by rewrite H. Qed.

(** Unfolding of the sequencing of method bodies. *)
Ltac run_body :=
  unfold mbind, mret, M_bind, M_ret, assign, self, emit, lift, raise; simpl.

(** C1, as stated, fails: one second after the strategy start the query
    answers ["-1m 59s"], not the sentinel. *)
Lemma remaining_to_start_not_closed_after_start :
  ¬ (∀ (b : Bot) (now : Z),
       strategy_start_timestamp b ≠ 0 →
       get_strategy_remaining_to_start b now = "CLOSED" ↔
       strategy_start_timestamp b ≤ now).
Proof.
  intros H.
  specialize (H (Sample.bot_1000 (Sample.settings_with 60 0.1 0 0 false)) 1061).
  simpl in H. destruct H as [_ H]; [lia|]. 
  specialize (H ltac:(lia)). vm_compute in H. discriminate H.
Qed.

(** C1 (amended): with [strategy_start_timestamp] set, the query answers
    ["CLOSED"] exactly while the clock has not passed the strategy start
    ([now ≤ strategy_start]); an iteration of [monitor] on an open market
    without a position keeps waiting on that answer, and scans ([run_once])
    as soon as the clock is past the start. *)
Theorem remaining_to_start_closed_iff_not_started
    (b : Bot) (symbol : string) (interval : Z) (t : Tick) :
  strategy_start_timestamp b ≠ 0 →
  get_time_remaining b (now t) ≠ "CLOSED" →
  is_finished b = false →
  is_performed b = false →
  (∀ clock, get_strategy_remaining_to_start b clock = "CLOSED" ↔
            clock ≤ strategy_start_timestamp b)
  ∧ (now_window t ≤ strategy_start_timestamp b →
     monitor_step symbol interval t b =
     (Ret AwaitingWindow, set_is_performed_informed true b, []))
  ∧ (strategy_start_timestamp b < now_window t →
     monitor_step symbol interval t b =
     (opened ← run_once (scan t);
      emit (Slept interval);; mret (Scanned opened)) b).
Proof.
  intros Hset Hopen Hfin Hperf.
  pose proof (remaining_to_start_closed b) as Hiff.
  split; [intros clock; by apply Hiff|].
  assert (Hstep :
    monitor_step symbol interval t b =
    (if String.eqb (get_strategy_remaining_to_start b (now_window t)) "CLOSED"
     then (Ret AwaitingWindow, set_is_performed_informed true b, [])
     else (opened ← run_once (scan t);
           emit (Slept interval);; mret (Scanned opened)) b)).
  { unfold monitor_step. rewrite bind_self.
    rewrite (eqb_closed_false _ Hopen), Hfin, Hperf.
    destruct (String.eqb _ "CLOSED"); reflexivity. }
  split; intros Hclock; rewrite Hstep.
  - apply Hiff in Hclock; [|done]. by rewrite Hclock.
  - rewrite eqb_closed_false; [done|]. rewrite Hiff; [lia|done].
Qed.

Lemma remaining_to_start_closed_iff_not_started_witness :
  let b := Sample.bot_1000 (Sample.settings_with 60 0.1 0 0 false) in
  strategy_start_timestamp b = 1060
  ∧ get_strategy_remaining_to_start b 1000 = "CLOSED"
  ∧ get_strategy_remaining_to_start b 1060 = "CLOSED"
  ∧ get_strategy_remaining_to_start b 1061 = "-1m 59s"
  ∧ monitor_step "btc" 0 (Sample.tick 1060 Sample.failing) b
    = (Ret AwaitingWindow, set_is_performed_informed true b, [])
  ∧ (monitor_step "btc" 0
       (Sample.tick 1061 (Sample.quoting 0.50 0.50 100 100 0.50 0.50)) b).1.1
    = Ret (Scanned true).
Proof.
  intros b.
  destruct (remaining_to_start_closed_iff_not_started b "btc" 0
              (Sample.tick 1060 Sample.failing)) as (Hiff & Hwait & _);
    [done|vm_compute; discriminate|done|done|].
  destruct (remaining_to_start_closed_iff_not_started b "btc" 0
              (Sample.tick 1061 (Sample.quoting 0.50 0.50 100 100 0.50 0.50)))
    as (_ & _ & Hscan);
    [done|vm_compute; discriminate|done|done|].
  split; [done|]. split; [by apply Hiff|]. split; [by apply Hiff|].
  split; [reflexivity|]. split; [by apply Hwait|].
  rewrite Hscan by done. vm_compute. reflexivity.
Defined.

(** ** Stop-loss *)




(** With the settings [load_settings] builds there is no margin to compare
    with: the same iteration raises where it reads [settings.stoploss]. *)
Example stoploss_undeclared :
  (monitor_step "btc" 0
     (Sample.tick 1100 (Sample.quoting 0.35 0.66 100 100 0.36 0.67))
     (Sample.holding_up (Config.load_settings Sample.environ))).1.1
  = Raise (AttributeError "stoploss").
Proof. vm_compute. reflexivity. Qed.

(** ** Importing the strategy *)

(** The names a list of import statements binds when all of them succeed. *)
Lemma run_all_binds (load : string → outcome (list string))
    (sts : list Imports.stmt) (bound : list string) :
  Imports.run_all load sts = Ret bound →
  bound = concat (map (λ st, match st with
                             | Imports.Import module => [module]
                             | Imports.FromImport _ names => names
                             end) sts).
Proof.
  revert bound. induction sts as [|st sts IH]; intros bound; simpl.
  - by intros [= <-].
  - destruct (Imports.run load st) as [names|e] eqn:Hst; [|done].
    destruct (Imports.run_all load sts) as [bound'|e]; [|done].
    intros [= <-]. rewrite (IH bound' eq_refl). f_equal.
    destruct st as [module|module names']; simpl in Hst;
      destruct (load module); try done.
    + by injection Hst as <-.
    + destruct (List.find _ names'); [done|]. by injection Hst as <-.
Qed.

(** The namespace of [src.trading_client], when it loads. *)
Lemma trading_client_loaded (installed : string → outcome (list string))
    (namespace : list string) :
  Imports.load installed "src.trading_client" = Ret namespace →
  namespace =
  [ "functools"; "logging"; "Optional"; "ClobClient";
    "BalanceAllowanceParams"; "AssetType"; "OrderArgs"; "OrderType";
    "PostOrdersArgs"; "BUY"; "SELL"; "Settings"; "logger"; "_cached_client";
    "get_client"; "get_balance"; "place_order"; "place_orders_fast";
    "get_positions" ].
Proof.
  unfold Imports.load. simpl. unfold Imports.exec.
  destruct (Imports.run_all installed _) as [bound|e] eqn:Hrun; [|done].
  intros [= <-]. apply run_all_binds in Hrun as ->. reflexivity.
Qed.

Lemma trading_client_namespace (installed : string → outcome (list string))
    (namespace : list string) :
  Imports.load installed "src.trading_client" = Ret namespace →
  Imports.mem "execute_market_buy" namespace = false.
Proof. by intros ->%trading_client_loaded. Qed.

Lemma run_all_stops (load : string → outcome (list string))
    (before after : list Imports.stmt) (st : Imports.stmt) :
  (∀ names, Imports.run load st ≠ Ret names) →
  ∃ e, Imports.run_all load (before ++ st :: after) = Raise e.
Proof.
  intros Hst. induction before as [|st' before IH]; simpl.
  - destruct (Imports.run load st) as [names|e] eqn:H; [by destruct (Hst names)|].
    by exists e.
  - destruct (Imports.run load st') as [names|e]; [|by exists e].
    destruct IH as [e ->]. by exists e.
Qed.

(** C8: [src.trading_client] binds no [execute_market_buy] (neither among
    its definitions nor in the namespace it has once loaded), so whatever is
    installed, [import src.strategy_5min] raises; when the imports before
    line 23 succeed and [src.trading_client] loads, what it raises is the
    [ImportError] for that name.  The module never gets a namespace, so the
    call in [run_once] has no definition to reach. *)
Theorem strategy_import_fails (installed : string → outcome (list string)) :
  Imports.mem "execute_market_buy" (Imports.defines Imports.trading_client)
    = false
  ∧ (∀ namespace,
       Imports.load installed "src.trading_client" = Ret namespace →
       Imports.mem "execute_market_buy" namespace = false)
  ∧ (∃ e, Imports.import_strategy_5min installed = Raise e)
  ∧ (∀ bound namespace,
       Imports.run_all (Imports.load installed)
         (take 13 (Imports.imports Imports.strategy_5min)) = Ret bound →
       Imports.load installed "src.trading_client" = Ret namespace →
       Imports.import_strategy_5min installed
       = Raise (ImportError "execute_market_buy")).
Proof.
  assert (Hstmt : ∀ names,
    Imports.run (Imports.load installed)
      (Imports.FromImport "src.trading_client"
         [ "get_client"; "get_balance"; "get_positions";
           "place_orders_fast"; "execute_market_buy" ]) ≠ Ret names).
  { intros names. unfold Imports.run.
    destruct (Imports.load installed "src.trading_client")
      as [namespace|e] eqn:Hload; [|done].
    by apply trading_client_loaded in Hload as ->. }
  split; [reflexivity|]. split; [apply trading_client_namespace|]. split.
  - unfold Imports.import_strategy_5min, Imports.exec.
    destruct (run_all_stops (Imports.load installed)
                (take 13 (Imports.imports Imports.strategy_5min))
                (drop 14 (Imports.imports Imports.strategy_5min)) _ Hstmt)
      as [e He].
    exists e. simpl in He. simpl. by rewrite He.
  - intros bound namespace Hbefore Hload.
    unfold Imports.import_strategy_5min, Imports.exec.
    change (Imports.imports Imports.strategy_5min)
      with (take 13 (Imports.imports Imports.strategy_5min)
            ++ drop 13 (Imports.imports Imports.strategy_5min)).
    assert (Happ : ∀ l1 l2 r,
      Imports.run_all (Imports.load installed) l1 = Ret r →
      Imports.run_all (Imports.load installed) (l1 ++ l2) =
      match Imports.run_all (Imports.load installed) l2 with
      | Ret r' => Ret (r ++ r')
      | Raise e => Raise e
      end).
    { induction l1 as [|st l1 IH]; intros l2 r; simpl.
      - intros [= <-]. by destruct (Imports.run_all _ l2).
      - destruct (Imports.run _ st) as [n|e]; [|done].
        destruct (Imports.run_all _ l1) as [r1|e] eqn:H1; [|done].
        intros [= <-]. rewrite (IH l2 r1 eq_refl).
        destruct (Imports.run_all _ l2); [|done]. by rewrite app_assoc. }
    rewrite (Happ _ _ _ Hbefore).
    pose proof (trading_client_loaded _ _ Hload) as Hns.
    cbn [drop Imports.imports Imports.strategy_5min Imports.run_all Imports.run].
    rewrite Hload, Hns. reflexivity.
Qed.

Lemma strategy_import_fails_witness :
  Imports.import_strategy_5min Sample.installed
  = Raise (ImportError "execute_market_buy").
Proof.
  destruct (strategy_import_fails Sample.installed) as (_ & _ & _ & H).
  eapply H; reflexivity.
Defined.

(** ** Construction *)

Lemma keeps_bind {A B} (m : M A) (k : A → M B) :
  keeps_self m → (∀ a, keeps_self (k a)) → keeps_self (m ≫= k).
Proof.
  intros Hm Hk b. unfold mbind, M_bind.
  specialize (Hm b).
  destruct (m b) as [[[a|e] b'] ev]; simpl in Hm; subst; [|done].
  specialize (Hk a b). by destruct (k a b) as [[r b'] ev'].
Qed.

Lemma keeps_mret {A} (a : A) : keeps_self (mret a).
Proof. done. Qed.

Lemma keeps_raise {A} (e : exn) : keeps_self (@raise A e).
Proof. done. Qed.

Lemma keeps_lift {A} (o : outcome A) : keeps_self (lift o).
Proof. done. Qed.

Lemma keeps_emit (e : event) : keeps_self (emit e).
Proof. done. Qed.

Lemma keeps_the_self : keeps_self self.
Proof. done. Qed.

Ltac keeps :=
  repeat first
    [ apply keeps_bind; [|intros ?] | apply keeps_mret | apply keeps_raise
    | apply keeps_lift | apply keeps_emit | apply keeps_the_self
    | progress unfold get_number, item, number | case_match ].

Lemma show_final_summary_self (quoted : nat → option Prices) :
  keeps_self (show_final_summary quoted).
Proof. unfold show_final_summary. keeps. Qed.









(** ** Quote failures *)

Lemma get_current_prices_failing (quotes : nat → option Prices) :
  quotes 1%nat = None → quotes 2%nat = None → quotes 3%nat = None →
  prices_of quotes = no_prices ∧ pauses_of quotes = [Slept 1; Slept 1].
Proof.
  intros H1 H2 H3. unfold prices_of, pauses_of. simpl. by rewrite H1, H2, H3.
Qed.

(** C7 on the code: when the quote source raises at each of the three
    attempts, [get_current_prices] returns six [None]s, after the two
    one-second pauses between the attempts; [check_arbitrage] then returns
    [None], but [run_once], on an open market whose window has opened,
    raises [TypeError] where it formats [price_up] for the log: it does not
    return [False]. *)
Theorem run_once_raises_without_quotes (b : Bot) (io : Scan)
    (now_iso : string) :
  quotes io 1%nat = None → quotes io 2%nat = None → quotes io 3%nat = None →
  get_time_remaining b (now_close io) ≠ "CLOSED" →
  get_strategy_remaining_to_start b (now_start io) ≠ "CLOSED" →
  get_current_prices (quotes io) b = (Ret no_prices, b, [Slept 1; Slept 1])
  ∧ check_arbitrage (quotes io) now_iso b
    = (Ret None, set_last_price_info (Some no_prices) b, [Slept 1; Slept 1])
  ∧ run_once io b = (Raise TypeError, b, [Slept 1; Slept 1]).
Proof.
  intros H1 H2 H3 Hopen Hwindow.
  destruct (get_current_prices_failing _ H1 H2 H3) as [Hq Hslept].
  split; [|split].
  - unfold get_current_prices. by rewrite Hq, Hslept.
  - unfold check_arbitrage. rewrite bind_quotes, Hq, Hslept. reflexivity.
  - unfold run_once. rewrite bind_self.
    rewrite (eqb_closed_false _ Hopen), (eqb_closed_false _ Hwindow).
    rewrite bind_quotes, Hq, Hslept. reflexivity.
Qed.

Lemma run_once_raises_without_quotes_witness :
  let b := Sample.bot_1000 (Sample.settings_with 60 0.10 0 0 false) in
  let io := scan (Sample.tick 1100 Sample.failing) in
  run_once io b = (Raise TypeError, b, [Slept 1; Slept 1]).
Proof.
  intros b io.
  destruct (run_once_raises_without_quotes b io "1970-01-01T00:18:20")
    as (_ & _ & H); try reflexivity; vm_compute; discriminate.
Defined.

(** ** Guards of the directional path *)

(** C6 on the code: with [min_time_remaining_minutes = 2] and 30 seconds
    left, [run_once] still submits the order and opens the position; it
    does the same with [max_trades_per_market = 1] already reached.  In
    that state [execute_arbitrage], handed an opportunity, submits
    nothing. *)
Theorem run_once_ignores_guards :
  let s := Sample.settings_with 60 0.10 1 2 false in
  let fresh := Sample.bot_1000 s in
  let capped := set_current_market_trades 1 fresh in
  let t := Sample.tick 1270 (Sample.quoting 0.50 0.50 100 100 0.50 0.50) in
  let o := OrderDto.mk "yes" 0.5 50 in
  get_time_remaining fresh 1270 = "0m 30s"
  ∧ (run_once (scan t) fresh).1.1 = Ret true
  ∧ (run_once (scan t) fresh).2 = [MarketBuy o]
  ∧ is_performed (run_once (scan t) fresh).1.2 = true
  ∧ (run_once (scan t) capped).1.1 = Ret true
  ∧ (run_once (scan t) capped).2 = [MarketBuy o]
  ∧ is_performed (run_once (scan t) capped).1.2 = true
  ∧ match (check_arbitrage (Sample.quoting 0.40 0.55 100 100 0.40 0.55)
             "1970-01-01T00:21:10" capped).1.1 with
    | Ret (Some opportunity) =>
        execute_arbitrage Sample.accepting 1270 opportunity capped
        = (Ret tt, set_opportunities_found 1 capped, [])
        ∧ execute_arbitrage Sample.accepting 1270 opportunity fresh
          = (Ret tt, set_opportunities_found 1 fresh, [])
    | _ => False
    end.
Proof. vm_compute. done. Qed.

(** ** Orders *)

Lemma log_errors (errors : list string) (b : Bot) :
  mapM (λ msg, emit (ErrorLogged msg)) errors b
  = (Ret (map (λ _, tt) errors), b, map ErrorLogged errors).
Proof.
  induction errors as [|msg errors IH]; [done|].
  simpl. unfold mbind at 1, M_bind at 1. simpl.
  unfold mbind at 1, M_bind at 1. rewrite IH. simpl. by rewrite app_nil_r.
Qed.

(** Where an event of a sequence comes from. *)
Lemma bind_event_inv {A B} (m : M A) (k : A → M B) (b : Bot) (e : event) :
  e ∈ ((m ≫= k) b).2 →
  e ∈ (m b).2 ∨ ∃ a b' ev, m b = (Ret a, b', ev) ∧ e ∈ (k a b').2.
Proof.
  unfold mbind, M_bind.
  destruct (m b) as [[[a|x] b'] ev]; [|by left].
  destruct (k a b') as [[r b''] ev'] eqn:Hk. simpl.
  intros [H|H]%elem_of_app; [by left|].
  right. exists a, b', ev. by rewrite Hk.
Qed.

Lemma silent_bind {A B} (m : M A) (k : A → M B) :
  silent m → (∀ a, silent (k a)) → silent (m ≫= k).
Proof.
  intros Hm Hk b. unfold mbind, M_bind. specialize (Hm b).
  destruct (m b) as [[[a|e] b'] ev]; simpl in Hm; subst; [|done].
  specialize (Hk a b'). by destruct (k a b') as [[r b''] ev'].
Qed.

Lemma silent_mret {A} (a : A) : silent (mret a).
Proof. done. Qed.

Lemma silent_raise {A} (e : exn) : silent (@raise A e).
Proof. done. Qed.

Lemma silent_lift {A} (o : outcome A) : silent (lift o).
Proof. done. Qed.

Lemma silent_assign (f : Bot → Bot) : silent (assign f).
Proof. done. Qed.

Lemma silent_self : silent self.
Proof. done. Qed.

Ltac silence :=
  repeat first
    [ apply silent_bind; [|intros ?] | apply silent_mret | apply silent_raise
    | apply silent_lift | apply silent_assign | apply silent_self
    | progress unfold order_setitem, number | case_match ].

Lemma choose_side_silent io q up down : silent (choose_side io q up down).
Proof. unfold choose_side. silence. Qed.

Lemma size_order_silent order : silent (size_order order).
Proof. unfold size_order. silence. Qed.

(** The order [choose_side] returns is [OrderDto]'s of a best ask. *)
Lemma choose_side_order (io : Scan) (q : Prices) (up down : bool) (b b' : Bot)
    (ev : list event) (o : OrderDto.t) :
  choose_side io q up down b = (Ret (Some o), b', ev) →
  settings b' = settings b
  ∧ ∃ quote,
      (best_up q = Some quote ∧ OrderDto.token_id o = yes_token_id b
       ∨ best_down q = Some quote ∧ OrderDto.token_id o = no_token_id b)
      ∧ o = OrderDto.mk (OrderDto.token_id o) (Py.round2 quote)
              (Config.order_size (settings b)).
Proof.
  unfold choose_side. rewrite bind_self. run_body.
  destruct up; [|destruct down; [|done]].
  - destruct (best_up q) as [quote|]; simpl; [|done].
    intros [= <- <- _]. split; [done|]. exists quote. split; [by left|done].
  - destruct (best_down q) as [quote|]; simpl; [|done].
    intros [= <- <- _]. split; [done|]. exists quote. split; [by right|done].
Qed.

(** Sizing keeps the token and the price, and the size it leaves is
    [submitted_size]'s. *)
Lemma size_order_order (o o' : OrderDto.t) (b b' : Bot) (ev : list event) :
  size_order o b = (Ret o', b', ev) →
  settings b' = settings b
  ∧ OrderDto.token_id o' = OrderDto.token_id o
  ∧ OrderDto.price o' = OrderDto.price o
  ∧ (if (OrderDto.price o * OrderDto.size o <? 1)%float
     then adjust_size (OrderDto.price o) else Ret (OrderDto.size o))
    = Ret (OrderDto.size o').
Proof.
  unfold size_order. rewrite bind_self. unfold order_setitem. run_body.
  destruct (order b) as [row|]; simpl; [|done].
  destruct (_ <? 1)%float; simpl.
  - destruct (adjust_size (OrderDto.price o)) as [size|]; simpl; [|done].
    by intros [= <- <- _].
  - by intros [= <- <- _].
Qed.

Lemma submit_order_events (io : Scan) (o o' : OrderDto.t) (b : Bot) :
  MarketBuy o' ∈ (submit_order io o b).2 → o' = o.
Proof.
  unfold submit_order. rewrite bind_self.
  destruct (negb _); [|by intros ?%elem_of_nil].
  intros [H|(? & b1 & ? & [= <- <- <-] & H)]%bind_event_inv.
  { by apply list_elem_of_singleton in H as [= ->]. }
  apply bind_event_inv in H as [H|(results & b2 & ? & [= _ <- _] & H)].
  { by destruct (execute_market_buy _ _); apply elem_of_nil in H. }
  destruct (omap id results) as [|msg errors]; [by apply elem_of_nil in H|].
  apply bind_event_inv in H as [H|(? & ? & ? & _ & H)];
    [|by apply elem_of_nil in H].
  rewrite log_errors in H. simpl in H.
  apply elem_of_cons in H as [[=]|H].
  by apply list_elem_of_fmap in H as (? & [=] & _).
Qed.

Lemma run_once_market_buy (io : Scan) (b : Bot) (o : OrderDto.t) :
  MarketBuy o ∈ (run_once io b).2 →
  let q := prices_of (quotes io) in
  ∃ quote,
    (best_up q = Some quote ∧ OrderDto.token_id o = yes_token_id b
     ∨ best_down q = Some quote ∧ OrderDto.token_id o = no_token_id b)
    ∧ OrderDto.price o = Py.round2 quote
    ∧ submitted_size quote (Config.order_size (settings b))
      = Ret (OrderDto.size o).
Proof.
  unfold run_once. rewrite bind_self.
  destruct (String.eqb _ "CLOSED"); [by intros ?%elem_of_nil|].
  destruct (String.eqb _ "CLOSED"); [by intros ?%elem_of_nil|].
  intros [H|(? & ? & ? & [= <- <- <-] & H)]%bind_event_inv;
    [by apply pauses_of_slept in H|].
  revert H. generalize (prices_of (quotes io)) as q. intros q.
  unfold number.
  destruct (price_up q) as [pu|]; [|by intros ?%elem_of_nil].
  destruct (price_down q) as [pd|]; [|by intros ?%elem_of_nil].
  intros [H|(? & ? & ? & [= <- <- <-] & H)]%bind_event_inv;
    [by apply elem_of_nil in H|].
  apply bind_event_inv in H as [H|(? & ? & ? & [= <- <- <-] & H)];
    [by apply elem_of_nil in H|].
  destruct (_ || _); [|by apply elem_of_nil in H].
  apply bind_event_inv in H as [H|(chosen & b1 & ev1 & Hchoose & H)].
  { by rewrite choose_side_silent in H; apply elem_of_nil in H. }
  destruct chosen as [o1|]; [|by apply elem_of_nil in H].
  apply choose_side_order in Hchoose as (Hs1 & quote & Hside & Ho1).
  apply bind_event_inv in H as [H|(o2 & b2 & ev2 & Hsize & H)].
  { by rewrite size_order_silent in H; apply elem_of_nil in H. }
  apply size_order_order in Hsize as (Hs2 & Htoken & Hprice & Hsized).
  apply submit_order_events in H as ->.
  exists quote. rewrite Htoken, Hprice. rewrite Ho1 in Hsized |- *.
  simpl in *. split; [done|]. split; [done|].
  unfold submitted_size. simpl. done.
Qed.

(** C10: [OrderDto] stores [round(price, 2)], never the price it is given;
    resizing keeps that price; hence every order [run_once] hands to the
    execution backend is for the token of one side, at the best ask of that
    side rounded to two decimals (for instance 0.46 for a quote of 0.456),
    whatever the sizing did. *)
Theorem order_price_is_quote_rounded_to_cents :
  (∀ token price size o,
     OrderDto.new token price size = Ret o →
     ∃ quote, price = Some quote
              ∧ o = OrderDto.mk token (Py.round2 quote) size)
  ∧ (∀ o size, OrderDto.price (OrderDto.set_size o size) = OrderDto.price o)
  ∧ (∀ o o' b b' ev,
       size_order o b = (Ret o', b', ev) →
       OrderDto.price o' = OrderDto.price o)
  ∧ (∀ io b o,
       MarketBuy o ∈ (run_once io b).2 →
       ∃ quote,
         (best_up (prices_of (quotes io)) = Some quote
          ∧ OrderDto.token_id o = yes_token_id b
          ∨ best_down (prices_of (quotes io)) = Some quote
            ∧ OrderDto.token_id o = no_token_id b)
         ∧ OrderDto.price o = Py.round2 quote)
  ∧ Py.round2 0.456 = 0.46%float.
Proof.
  split; [|split; [|split; [|split]]].
  - intros token [quote|] size o; [|done]. intros [= <-]. by exists quote.
  - done.
  - intros o o' b b' ev H. by apply size_order_order in H as (_ & _ & H & _).
  - intros io b o H.
    apply run_once_market_buy in H as (quote & Hside & Hprice & _).
    by exists quote.
  - reflexivity.
Qed.

Lemma order_price_is_quote_rounded_to_cents_witness :
  let b := Sample.bot_1000 (Sample.settings_with 60 0.10 0 0 false) in
  let t := Sample.tick 1100 (Sample.quoting 0.50 0.50 100 100 0.456 0.55) in
  (run_once (scan t) b).2 = [MarketBuy (OrderDto.mk "yes" 0.46 50)]
  ∧ ∃ quote, quote = 0.456%float
             ∧ OrderDto.price (OrderDto.mk "yes" 0.46 50) = Py.round2 quote.
Proof.
  intros b t.
  assert (Hev : (run_once (scan t) b).2 = [MarketBuy (OrderDto.mk "yes" 0.46 50)])
    by (vm_compute; reflexivity).
  split; [exact Hev|].
  destruct order_price_is_quote_rounded_to_cents as (_ & _ & _ & H & _).
  destruct (H (scan t) b (OrderDto.mk "yes" 0.46 50)) as (quote & Hside & Hq).
  { rewrite Hev. apply list_elem_of_singleton. reflexivity. }
  exists 0.456%float. split; reflexivity.
Defined.

(** ** Order sizing *)

(** C3, as stated, fails: a best ask of 0.016 with 10 shares has a raw cost
    of 0.16; the order carries 0.02 a share, so the adjustment settles on 50
    shares, which cost exactly $1 at 0.02 but are worth 0.80 at the quote. *)
Lemma sizing_below_floor_at_raw_price :
  ¬ (∀ p order_size : float,
       (0 <? p)%float = true → (p <? 1)%float = true →
       (p * order_size <? 1)%float = true →
       ∃ s, submitted_size p order_size = Ret s
            ∧ (1 <=? s * p)%float = true
            ∧ exact_cent (s * p) = true).
Proof.
  intros H. destruct (H 0.016 10)%float as (s & Hs & Hfloor & _);
    try reflexivity.
  vm_compute in Hs. injection Hs as <-. vm_compute in Hfloor. discriminate.
Qed.

(** The same with the default 50 shares at a best ask of 0.017: the order
    costs exactly $1 at 0.02, is left alone, and is worth 0.85 at the quote. *)
Example sizing_untouched_at_one_dollar :
  submitted_size 0.017 50 = Ret 50%float
  ∧ (0.017 * 50 <? 1)%float = true
  ∧ (1 <=? 50 * 0.017)%float = false.
Proof. vm_compute. done. Qed.

Lemma sizing_ok_cents : forallb sizing_ok (seqZ 1 99) = true.
Proof. vm_compute. reflexivity. Qed.

Lemma adjust_size_on_cent (k : Z) :
  1 ≤ k ≤ 99 →
  let price := Py.nearest k 100 in
  Py.round (price * 100)%float = Ret k
  ∧ ∃ S, adjust_size price = Ret (Py.nearest S 100)
         ∧ 10000 ≤ S * k
         ∧ (S * k) mod 100 = 0
         ∧ (1 <=? Py.nearest S 100 * price)%float = true.
Proof.
  intros Hk price.
  pose proof sizing_ok_cents as Hall.
  rewrite forallb_forall in Hall.
  specialize (Hall k). unfold sizing_ok in Hall. fold price in Hall.
  destruct (Py.round (price * 100)%float) as [price_cents|];
    [|by discriminate Hall; apply list_elem_of_In, elem_of_seqZ; lia].
  destruct (adjust_size price) as [size|];
    [|by discriminate Hall; apply list_elem_of_In, elem_of_seqZ; lia].
  destruct (Py.round (size * 100)%float) as [S|];
    [|by discriminate Hall; apply list_elem_of_In, elem_of_seqZ; lia].
  rewrite !andb_true_iff in Hall.
  destruct Hall as ((((Hc & Hsize) & Hfloor) & Hmod) & Hfloat).
  { apply list_elem_of_In, elem_of_seqZ. lia. }
  apply FloatAxioms.Leibniz.eqb_spec in Hsize as ->.
  apply Z.eqb_eq in Hc as ->. split; [done|].
  exists S. split; [done|]. split; [lia|]. split; [by apply Z.eqb_eq|done].
Qed.

(** C3 (amended): for every order price of a whole number of cents
    [k / 100], [1 ≤ k ≤ 99], the adjustment returns a size [S / 100] with
    [S * k ≥ 10000] and [S * k] a multiple of 100: in decimal arithmetic the
    cost [S/100 * k/100] is at least $1 and a whole number of cents; the
    product as the floats compute it is at least 1 too.  An order that
    [run_once] submits at such a price, when the configured size costs less
    than $1 at it, has that size. *)
Theorem adjusted_size_clears_floor_on_cent (k : Z) :
  1 ≤ k ≤ 99 →
  let price := Py.nearest k 100 in
  Py.round (price * 100)%float = Ret k
  ∧ (∃ S, adjust_size price = Ret (Py.nearest S 100)
          ∧ 10000 ≤ S * k
          ∧ (S * k) mod 100 = 0
          ∧ (1 <=? Py.nearest S 100 * price)%float = true)
  ∧ ∀ io b o,
      MarketBuy o ∈ (run_once io b).2 →
      OrderDto.price o = price →
      (price * Config.order_size (settings b) <? 1)%float = true →
      ∃ S, OrderDto.size o = Py.nearest S 100
           ∧ 10000 ≤ S * k
           ∧ (S * k) mod 100 = 0
           ∧ (1 <=? OrderDto.size o * OrderDto.price o)%float = true.
Proof.
  intros Hk price.
  destruct (adjust_size_on_cent k Hk) as (Hcents & S & Hsize & Hfloor & Hmod & Hfloat).
  fold price in Hcents, Hsize, Hfloat.
  split; [done|]. split; [by exists S|].
  intros io b o Hbuy Hprice Hcost.
  apply run_once_market_buy in Hbuy as (quote & _ & Hquote & Hsubmitted).
  unfold submitted_size in Hsubmitted. simpl in Hsubmitted.
  rewrite <- Hquote, Hprice, Hcost, Hsize in Hsubmitted.
  injection Hsubmitted as Hs. exists S. by rewrite <- Hs, Hprice.
Qed.

Lemma adjusted_size_clears_floor_on_cent_witness :
  adjust_size 0.11 = Ret 10%float
  ∧ (1 <=? 10 * 0.11)%float = true.
Proof.
  destruct (adjusted_size_clears_floor_on_cent 11) as (_ & (S & Hs & _) & _);
    [lia|].
  split; [reflexivity|]. reflexivity.
Defined.

(** The float product of the pair above is not a whole number of cents as
    Python computes it: [10.0 * 0.11 * 100 = 110.00000000000001]. *)
Example float_cost_off_the_cent : exact_cent (10 * 0.11) = false.
Proof. reflexivity. Qed.

(** C4 on the code: a best ask of 0.003 is an order price of 0.0, that is
    0 cents, and the adjustment raises [ZeroDivisionError] at
    [10000 / price_cents]; [run_once] raises with it and no size comes back,
    where [ceil(1 / 0.003)] is 334. *)
Theorem sizing_divides_by_zero :
  let b := Sample.bot_1000 (Sample.settings_with 60 0.10 0 0 false) in
  let t := Sample.tick 1100 (Sample.quoting 0.50 0.50 100 100 0.003 0.50) in
  OrderDto.new "yes" (Some 0.003%float) 50 = Ret (OrderDto.mk "yes" 0 50)
  ∧ adjust_size 0 = Raise ZeroDivisionError
  ∧ submitted_size 0.003 50 = Raise ZeroDivisionError
  ∧ (run_once (scan t) b).1.1 = Raise ZeroDivisionError
  ∧ (run_once (scan t) b).2 = []
  ∧ (r ← Py.fdiv 1 0.003; Py.ceil r) = Ret 334.
Proof. vm_compute. done. Qed.

(** ** Order facts of binary64 *)

Lemma digits2_pos_le (p : positive) : 2 ^ (Zpos (digits2_pos p) - 1) ≤ Zpos p.
Proof.
  induction p as [p IH|p IH|]; simpl digits2_pos; [| |done].
  - rewrite Pos2Z.inj_succ.
    replace (Z.succ (Zpos (digits2_pos p)) - 1)
      with (Z.succ (Zpos (digits2_pos p) - 1)) by lia.
    rewrite Z.pow_succ_r by lia. lia.
  - rewrite Pos2Z.inj_succ.
    replace (Z.succ (Zpos (digits2_pos p)) - 1)
      with (Z.succ (Zpos (digits2_pos p) - 1)) by lia.
    rewrite Z.pow_succ_r by lia. lia.
Qed.

Lemma digits2_pos_gt (p : positive) : Zpos p < 2 ^ Zpos (digits2_pos p).
Proof.
  induction p as [p IH|p IH|]; simpl digits2_pos; [| |done].
  - rewrite Pos2Z.inj_succ, Z.pow_succ_r by lia. lia.
  - rewrite Pos2Z.inj_succ, Z.pow_succ_r by lia. lia.
Qed.

Lemma shr_1_m (mrs : shr_record) :
  0 ≤ shr_m mrs → shr_m (shr_1 mrs) = shr_m mrs / 2.
Proof.
  destruct mrs as [m r s]. simpl. intros Hm.
  destruct m as [|[p|p|]|p]; cbn [shr_m]; [done| | |done|lia].
  - apply Z.div_unique with 1; lia.
  - apply Z.div_unique with 0; lia.
Qed.

Lemma iter_shr_1_m (n : positive) (mrs : shr_record) :
  0 ≤ shr_m mrs →
  shr_m (SpecFloat.iter_pos shr_1 n mrs) = shr_m mrs / 2 ^ Zpos n.
Proof.
  revert mrs. induction n as [n IH|n IH|]; intros mrs Hm; simpl SpecFloat.iter_pos.
  - assert (H1 : 0 ≤ shr_m (shr_1 mrs)).
    { rewrite shr_1_m by done. by apply Z.div_pos. }
    assert (H2 : 0 ≤ shr_m (SpecFloat.iter_pos shr_1 n (shr_1 mrs))).
    { rewrite IH by done. apply Z.div_pos; lia. }
    rewrite IH, IH, shr_1_m by done.
    rewrite !Z.div_div by lia. f_equal.
    replace (Zpos n~1) with (1 + Zpos n + Zpos n) by lia.
    rewrite !Z.pow_add_r by lia. lia.
  - assert (H2 : 0 ≤ shr_m (SpecFloat.iter_pos shr_1 n mrs)).
    { rewrite IH by done. apply Z.div_pos; lia. }
    rewrite IH, IH by done.
    rewrite !Z.div_div by lia. f_equal.
    replace (Zpos n~0) with (Zpos n + Zpos n) by lia.
    rewrite !Z.pow_add_r by lia. lia.
  - by rewrite shr_1_m.
Qed.

Lemma fexp_ge_emin (e : Z) : -1074 ≤ fexp prec emax e.
Proof. unfold fexp, SpecFloat.emin, prec, emax. lia. Qed.

(** Shifting a positive mantissa down to its format exponent leaves it
    positive: at most all but one of its digits go. *)
Lemma shr_fexp_pos (m e : Z) (l : location) :
  0 < m → -1074 ≤ e →
  0 < shr_m (shr_fexp prec emax m e l).1
  ∧ -1074 ≤ (shr_fexp prec emax m e l).2.
Proof.
  intros Hm He. unfold shr_fexp, shr.
  assert (Hrec : shr_m (shr_record_of_loc m l) = m)
    by (by destruct l as [|[]]).
  destruct (fexp prec emax (Zdigits2 m + e) - e) as [|n|n] eqn:Hn; simpl;
    rewrite ?Hrec; try done.
  split; [|pose proof (fexp_ge_emin (Zdigits2 m + e)); lia].
  rewrite iter_shr_1_m by (rewrite Hrec; lia). rewrite Hrec.
  destruct m as [|p|p]; try done. simpl in Hn.
  pose proof (digits2_pos_le p) as Hle.
  assert (Hlt : Zpos n ≤ Zpos (digits2_pos p) - 1).
  { unfold fexp, SpecFloat.emin, prec, emax in Hn, He. lia. }
  apply Z.div_str_pos. split; [lia|].
  etrans; [|exact Hle]. apply Z.pow_le_mono_r; lia.
Qed.

Lemma round_nearest_even_pos (m : Z) (l : location) :
  0 < m → 0 < round_nearest_even m l.
Proof.
  intros Hm. destruct l as [|[]]; simpl; try done; [|lia].
  destruct (Z.even m); lia.
Qed.

Lemma binary_round_aux_pos (m e : Z) (l : location) :
  0 < m → -1074 ≤ e →
  positive_result (binary_round_aux prec emax false m e l).
Proof.
  intros Hm He. unfold binary_round_aux.
  destruct (shr_fexp_pos m e l Hm He) as [Hm1 He1].
  destruct (shr_fexp prec emax m e l) as [mrs1 e1]. simpl in Hm1, He1.
  pose proof (round_nearest_even_pos (shr_m mrs1) (loc_of_shr_record mrs1) Hm1)
    as Hm2.
  destruct (shr_fexp_pos _ e1 loc_Exact Hm2 He1) as [Hm3 He3].
  destruct (shr_fexp prec emax _ e1 loc_Exact) as [mrs2 e2]. simpl in Hm3.
  destruct (shr_m mrs2) as [|p|p]; try done. by destruct (_ <=? _).
Qed.

Lemma binary_normalize_pos (m e : Z) :
  0 < m → -1074 ≤ e →
  positive_result (binary_normalize prec emax m e false).
Proof.
  intros Hm He. destruct m as [|p|p]; try done. simpl.
  unfold binary_round, shl_align.
  destruct (fexp prec emax (Zpos (digits2_pos p) + e) - e) as [|d|d] eqn:Hd;
    apply binary_round_aux_pos; try done.
  apply fexp_ge_emin.
Qed.

Lemma shl_align_value (m : positive) (e e' : Z) :
  e' ≤ e → Zpos (shl_align m e e').1 = Zpos m * 2 ^ (e - e').
Proof.
  intros He. unfold shl_align.
  destruct (e' - e) as [|d|d] eqn:Hd; simpl; try lia.
  - replace (e - e') with 0 by lia. lia.
  - change (Pos.iter xO m d) with (shift_pos d m).
    rewrite shift_pos_correct. change (Z.pow_pos 2 d) with (2 ^ Zpos d).
    replace (e - e') with (Zpos d) by lia. lia.
Qed.

Lemma valid_binary_exponent (s : bool) (m : positive) (e : Z) :
  valid_binary (S754_finite s m e) = true →
  -1074 ≤ e ∧ Zpos (digits2_pos m) + e - prec ≤ e.
Proof.
  unfold SpecFloat.valid_binary, bounded, canonical_mantissa, fexp,
    SpecFloat.emin, prec, emax.
  intros [H _]%andb_prop. apply Z.eqb_eq in H. lia.
Qed.

Lemma aligned_difference_pos (m : positive) (e : Z) :
  -1074 ≤ e →
  Zpos (digits2_pos m) + e - prec ≤ e →
  (e ?= -52) = Lt ∨ (e = -52 ∧ (m < 4503599627370496)%positive) →
  0 < 4503599627370496 * 2 ^ (-52 - Z.min (-52) e)
      - Zpos m * 2 ^ (e - Z.min (-52) e).
Proof.
  intros He Hdigits [He52|[-> Hm52]].
  - rewrite Z.compare_lt_iff in He52.
    rewrite Z.min_r by (clear -He52; lia). rewrite Z.sub_diag, Z.pow_0_r.
    pose proof (digits2_pos_gt m) as Hm.
    assert (Hm53 : Zpos m < 2 ^ 53).
    { eapply Z.lt_le_trans; [exact Hm|]. apply Z.pow_le_mono_r; [lia|].
      unfold prec in Hdigits. clear -Hdigits. lia. }
    assert (Hone : 2 ^ 53 ≤ 2 ^ 52 * 2 ^ (-52 - e)).
    { rewrite <- Z.pow_add_r by lia. apply Z.pow_le_mono_r; lia. }
    replace 4503599627370496 with (2 ^ 52) by reflexivity.
    generalize dependent (2 ^ 53). generalize (2 ^ 52 * 2 ^ (-52 - e)).
    intros. clear -Hm53 Hone. lia.
  - rewrite Z.min_id, Z.sub_diag, Z.pow_0_r.
    apply Pos2Z.pos_lt_pos in Hm52. clear -Hm52. rewrite !Z.mul_1_r. lia.
Qed.


Lemma aligned_sum_pos (m : positive) (e : Z) :
  0 < 4503599627370496 * 2 ^ (-52 - Z.min (-52) e)
      - - (Zpos m * 2 ^ (e - Z.min (-52) e)).
Proof.
  assert (0 < 2 ^ (-52 - Z.min (-52) e)) by (apply Z.pow_pos_nonneg; lia).
  assert (0 < 2 ^ (e - Z.min (-52) e)) by (apply Z.pow_pos_nonneg; lia).
  nia.
Qed.

Lemma SFsub_one_positive_result (s : bool) (m : positive) (e : Z) :
  -1074 ≤ e →
  0 < 4503599627370496 * 2 ^ (-52 - Z.min (-52) e)
      - cond_Zopp s (Zpos m * 2 ^ (e - Z.min (-52) e)) →
  positive_result (SF64sub one64 (S754_finite s m e)).
Proof.
  intros He H. unfold SF64sub, SFsub, one64.
  apply binary_normalize_pos; [|unfold prec, emax in *; lia].
  rewrite (shl_align_value 4503599627370496), (shl_align_value m) by lia.
  exact H.
Qed.

Lemma below_one_cases (m : positive) (e : Z) :
  SFltb (S754_finite false m e) one64 = true →
  (e ?= -52) = Lt ∨ (e = -52 ∧ (m < 4503599627370496)%positive).
Proof.
  unfold SFltb, SFcompare, one64.
  destruct (e ?= -52) eqn:He52; [|by left|done].
  intros Hlt.
  right. split; [by apply Z.compare_eq|].
  unfold Pos.lt, Pos.compare.
  by destruct (Pos.compare_cont Eq m 4503599627370496).
Qed.

(** [x < 1] gives [0 < 1 - x]. *)
Lemma SFsub_one_pos (x : spec_float) :
  valid_binary x = true →
  SFltb x one64 = true →
  SFltb (S754_zero false) (SF64sub one64 x) = true.
Proof.
  intros Hvalid Hlt.
  assert (Hpos : ∀ y, positive_result y → SFltb (S754_zero false) y = true).
  { by intros [| [] | |[] ? ?]. }
  destruct x as [s|[]| |s m e]; try done.
  apply Hpos.
  apply valid_binary_exponent in Hvalid as [He Hdigits].
  apply SFsub_one_positive_result; [done|].
  destruct s; [apply aligned_sum_pos|].
  apply aligned_difference_pos; [done..|].
  by apply below_one_cases.
Qed.

(** The comparison read from the other side. *)
Lemma SFcompare_swap (x y : spec_float) :
  SFcompare y x = CompOpp <$> SFcompare x y.
Proof.
  destruct x as [[]|[]| |[] m e], y as [[]|[]| |[] m' e']; try done; simpl.
  - rewrite (Z.compare_antisym e e').
    destruct (e ?= e') eqn:He; simpl; try done.
    change (PosDef.Pos.compare_cont Eq m' m) with (Pos.compare m' m).
    change (PosDef.Pos.compare_cont Eq m m') with (Pos.compare m m').
    by rewrite (Pos.compare_antisym m m'), CompOpp_involutive.
  - rewrite (Z.compare_antisym e e').
    destruct (e ?= e') eqn:He; simpl; try done.
    change (PosDef.Pos.compare_cont Eq m' m) with (Pos.compare m' m).
    change (PosDef.Pos.compare_cont Eq m m') with (Pos.compare m m').
    by rewrite (Pos.compare_antisym m m').
Qed.

Lemma SFltb_not_leb (x y : spec_float) :
  SFltb x y = true → SFleb y x = false.
Proof.
  unfold SFltb, SFleb. rewrite (SFcompare_swap x y).
  by destruct (SFcompare x y) as [[]|].
Qed.

Lemma SFleb_not_ltb (x y : spec_float) :
  SFleb x y = true → SFltb y x = false.
Proof.
  unfold SFltb, SFleb. rewrite (SFcompare_swap x y).
  by destruct (SFcompare x y) as [[]|].
Qed.

Lemma at_most_one_cases (m : positive) (e : Z) :
  SFleb (S754_finite false m e) one64 = true →
  (e ?= -52) = Lt ∨ (e = -52 ∧ (m <= 4503599627370496)%positive).
Proof.
  unfold SFleb, SFcompare, one64.
  destruct (e ?= -52) eqn:He52; [|by left|done].
  intros Hle. right. split; [by apply Z.compare_eq|].
  unfold Pos.le, Pos.compare.
  by destruct (Pos.compare_cont Eq m 4503599627370496).
Qed.

Lemma below_one_of_cases (m : positive) (e : Z) :
  (e ?= -52) = Lt ∨ (e = -52 ∧ (m < 4503599627370496)%positive) →
  SFltb (S754_finite false m e) one64 = true.
Proof.
  unfold SFltb, SFcompare, one64, Pos.lt, Pos.compare.
  intros [He|[He Hm]].
  - by rewrite He.
  - subst e. change (-52 ?= -52) with Eq. cbv iota. by rewrite Hm.
Qed.

(** Below a bound that is at most one is below one. *)
Lemma SFltb_leb_one (x t : spec_float) :
  SFltb x t = true → SFleb t one64 = true → SFltb x one64 = true.
Proof.
  intros Hx Ht.  destruct x as [[]|[]| |[] m e], t as [[]|[]| |[] m' e']; try done.
  apply at_most_one_cases in Ht.  apply below_one_of_cases.  unfold SFltb, SFcompare in Hx.
  destruct (e ?= e') eqn:He; try done.
  - apply Z.compare_eq in He as ->.
    destruct Ht as [Ht|[-> Ht]]; [by left|right]. split; [done|].
    eapply Pos.lt_le_trans; [|exact Ht].
    unfold Pos.lt, Pos.compare.
    by destruct (Pos.compare_cont Eq m m').
  - left. rewrite Z.compare_lt_iff in He |- *.
    destruct Ht as [Ht|[-> _]]; [|done].
    rewrite Z.compare_lt_iff in Ht. by etrans.
Qed.

(** The same on the kernel's floats. *)

Lemma ltb_not_leb (x y : float) :
  (x <? y)%float = true → (y <=? x)%float = false.
Proof. rewrite ltb_spec, leb_spec. apply SFltb_not_leb. Qed.

Lemma leb_not_ltb (x y : float) :
  (x <=? y)%float = true → (y <? x)%float = false.
Proof. rewrite ltb_spec, leb_spec. apply SFleb_not_ltb. Qed.

Lemma one_minus_below_one_pos (x t : float) :
  (x <? t)%float = true → (t <=? 1)%float = true →
  (0 <? 1 - x)%float = true.
Proof.
  rewrite !ltb_spec, leb_spec, sub_spec.
  change (Prim2SF 1) with one64. change (Prim2SF 0) with (S754_zero false).
  intros Hx Ht. apply SFsub_one_pos; [apply Prim2SF_valid|].
  by eapply SFltb_leb_one.
Qed.

(** ** Arbitrage mode *)

(** C5, as stated, fails: a leg priced exactly 0.75 is rejected. *)
Lemma arbitrage_rejects_price_at_bound :
  ¬ (∀ (b : Bot) (quotes : nat → option Prices) (now_iso : string)
       (pu pd su sd bu bd : float),
       prices_of quotes
       = {| price_up := Some pu; price_down := Some pd; size_up := Some su;
            size_down := Some sd; best_up := Some bu; best_down := Some bd |} →
       (pu <=? 0.75)%float = true → (pd <=? 0.75)%float = true →
       within_tolerance pu pd bu bd = true →
       (pu + pd <? Config.target_pair_cost (settings b))%float = true →
       (Config.order_size (settings b) <=? su - 5)%float = true →
       (Config.order_size (settings b) <=? sd - 5)%float = true →
       ∃ opportunity,
         (check_arbitrage quotes now_iso b).1.1 = Ret (Some opportunity)
         ∧ opportunity !! "profit_per_share" = Some (VFloat (1 - (pu + pd)))
         ∧ (0 <? 1 - (pu + pd))%float = true).
Proof.
  intros H.
  destruct (H (Sample.bot_1000 (Sample.settings_with 60 0.10 0 0 false))
              (Sample.quoting 0.75 0.20 100 100 0.75 0.20)
              "1970-01-01T00:18:20" 0.75 0.20 100 100 0.75 0.20)%float
    as (opportunity & Hopp & _); try reflexivity.
  vm_compute in Hopp. discriminate Hopp.
Qed.

(** C5 (amended): for a snapshot whose two last-trade prices are strictly
    below 0.75, whose gaps to the best asks pass the tolerance test, whose
    total cost is non-zero and below a [target_pair_cost] of at most 1.0,
    and whose ask sizes less the margin of 5 are at least [order_size],
    [check_arbitrage] returns an opportunity with
    [profit_per_share = 1.0 - total_cost], strictly positive. *)
Theorem arbitrage_opportunity_found (b : Bot) (quotes : nat → option Prices)
    (now_iso : string) (pu pd su sd bu bd : float) :
  let q := {| price_up := Some pu; price_down := Some pd; size_up := Some su;
              size_down := Some sd; best_up := Some bu; best_down := Some bd |} in
  prices_of quotes = q →
  (pu <? 0.75)%float = true → (pd <? 0.75)%float = true →
  within_tolerance pu pd bu bd = true →
  (pu + pd <? Config.target_pair_cost (settings b))%float = true →
  (Config.target_pair_cost (settings b) <=? 1)%float = true →
  (pu + pd =? 0)%float = false →
  (Config.order_size (settings b) <=? su - 5)%float = true →
  (Config.order_size (settings b) <=? sd - 5)%float = true →
  ∃ opportunity,
    check_arbitrage quotes now_iso b
    = (Ret (Some opportunity), set_last_price_info (Some q) b,
       pauses_of quotes)
    ∧ opportunity !! "total_cost" = Some (VFloat (pu + pd))
    ∧ opportunity !! "profit_per_share" = Some (VFloat (1 - (pu + pd)))
    ∧ (0 <? 1 - (pu + pd))%float = true.
Proof.
  intros q Hq Hpu Hpd Htol Hcost Htarget Hnonzero Hup Hdown.
  apply ltb_not_leb in Hpu, Hpd. apply leb_not_ltb in Hup, Hdown.
  unfold within_tolerance in Htol. apply negb_true_iff in Htol.
  unfold check_arbitrage. rewrite bind_quotes, Hq. unfold after. run_body.
  rewrite Hpu, Hpd. simpl. rewrite Htol, Hcost. unfold safety_margin.
  rewrite Hup, Hdown. simpl. unfold Py.fdiv. rewrite Hnonzero. simpl.
  rewrite app_nil_r.
  eexists. split; [reflexivity|]. split; [reflexivity|].
  split; [reflexivity|]. by eapply one_minus_below_one_pos.
Qed.

Lemma arbitrage_opportunity_found_witness :
  let b := Sample.bot_1000 (Sample.settings_with 60 0.10 0 0 false) in
  ∃ opportunity,
    (check_arbitrage (Sample.quoting 0.40 0.55 100 100 0.40 0.55)
       "1970-01-01T00:18:20" b).1.1 = Ret (Some opportunity)
    ∧ opportunity !! "total_cost" = Some (VFloat (0.40 + 0.55))
    ∧ opportunity !! "profit_per_share" = Some (VFloat (1 - (0.40 + 0.55)))
    ∧ (0 <? 1 - (0.40 + 0.55))%float = true.
Proof.
  intros b.
  destruct (arbitrage_opportunity_found b
              (Sample.quoting 0.40 0.55 100 100 0.40 0.55)
              "1970-01-01T00:18:20" 0.40 0.55 100 100 0.40 0.55)
    as (opportunity & Hcheck & Hcost & Hprofit & Hpos); try reflexivity.
  exists opportunity. rewrite Hcheck. by repeat split.
Defined.

(** Two more ways out of C5 as stated.  With both last-trade prices at 0.0
    the total cost is 0.0 and [profit / total_cost] raises; with a target
    above 1.0 an accepted pair can cost more than it pays. *)
Example arbitrage_raises_on_zero_cost :
  (check_arbitrage (Sample.quoting 0 0 100 100 0.01 0.01) "1970-01-01T00:18:20"
     (Sample.bot_1000 (Sample.settings_with 60 0.10 0 0 false))).1.1
  = Raise ZeroDivisionError.
Proof. vm_compute. reflexivity. Qed.

Example arbitrage_loss_above_target_one :
  match (check_arbitrage (Sample.quoting 0.70 0.70 100 100 0.70 0.70)
           "1970-01-01T00:18:20" (Sample.bot_1000 Sample.loose_target)).1.1 with
  | Ret (Some opportunity) =>
      match opportunity !! "profit_per_share" with
      | Some (VFloat profit) => (profit <? 0)%float = true
      | _ => False
      end
  | _ => False
  end.
Proof. vm_compute. reflexivity. Qed.

(** * Further properties *)

(** ** The scan of the order sizing *)

(** What [List.find] returns on a range is its first element that passes. *)
Lemma find_seqZ_first (f : Z → bool) (n : nat) (m s : Z) :
  List.find f (seqZ m (Z.of_nat n)) = Some s →
  m ≤ s < m + Z.of_nat n ∧ f s = true ∧ ∀ s', m ≤ s' < s → f s' = false.
Proof.
  revert m. induction n as [|n IH]; intros m.
  - by rewrite seqZ_nil.
  - rewrite seqZ_cons by lia.
    replace (Z.pred (Z.of_nat (S n))) with (Z.of_nat n) by lia.
    simpl. destruct (f m) eqn:Hm.
    + intros [= <-]. split; [lia|]. split; [done|]. lia.
    + intros (Hs & Hf & Hfirst)%IH. split; [lia|]. split; [done|].
      intros s' Hs'. destruct (decide (s' = m)) as [->|]; [done|].
      apply Hfirst. lia.
Qed.

(** A range of a hundred sizes holds one that is a whole number of hundreds,
    and its cost at any price is a whole number of cents. *)
Lemma hundred_in_range (min_s price_cents : Z) :
  let s0 := min_s + (- min_s) mod 100 in
  min_s ≤ s0 < min_s + 100 ∧ (s0 * price_cents) mod 100 = 0.
Proof.
  intros s0. pose proof (Z.mod_pos_bound (- min_s) 100 ltac:(lia)).
  split; [unfold s0; lia|].
  rewrite <- Z.mul_mod_idemp_l by lia.
  replace (s0 mod 100) with 0; [done|].
  unfold s0. rewrite Z.add_mod_idemp_r by lia.
  by replace (min_s + - min_s) with 0 by lia.
Qed.

Lemma outcome_bind_ret {A B} (a : A) (k : A → outcome B) : Ret a ≫= k = k a.
Proof. reflexivity. Qed.

Lemma outcome_bind_raise {A B} (e : exn) (k : A → outcome B) :
  Raise e ≫= k = Raise e.
Proof. reflexivity. Qed.

(** What [adjust_size] went through when it returns. *)
Lemma adjust_size_inv (price size : float) :
  adjust_size price = Ret size →
  ∃ price_cents min_s s,
    Py.round (price * 100)%float = Ret price_cents
    ∧ price_cents ≠ 0
    ∧ (Py.idiv 10000 price_cents ≫= Py.ceil) = Ret min_s
    ∧ min_s ≤ s < min_s + 100
    ∧ (s * price_cents) mod 100 = 0
    ∧ (∀ s', min_s ≤ s' < s → (s' * price_cents) mod 100 ≠ 0)
    ∧ size = Py.nearest s 100.
Proof.
  unfold adjust_size.
  destruct (Py.round (price * 100)%float) as [price_cents|] eqn:Hcents;
    [rewrite outcome_bind_ret|by rewrite outcome_bind_raise].
  destruct (Py.idiv 10000 price_cents) as [quotient|] eqn:Hquotient;
    [rewrite outcome_bind_ret|by rewrite outcome_bind_raise].
  assert (Hnz : price_cents ≠ 0).
  { intros ->. discriminate Hquotient. }
  destruct (Py.ceil quotient) as [min_s|] eqn:Hmin;
    [rewrite outcome_bind_ret|by rewrite outcome_bind_raise].
  destruct (hundred_in_range min_s price_cents) as [Hs0 Hmod0].
  set (s0 := min_s + (- min_s) mod 100) in *.
  destruct (List.find _ (seqZ min_s 200)) as [s|] eqn:Hfind.
  - change 200 with (Z.of_nat 200) in Hfind.
    apply find_seqZ_first in Hfind as (Hs & Hmod & Hfirst).
    apply Z.eqb_eq in Hmod.
    change (Py.idiv s 100) with (Ret (Py.nearest s 100)). intros [= <-].
    exists price_cents, min_s, s. split; [done|]. split; [done|].
    rewrite Hquotient, outcome_bind_ret.
    split; [done|]. split.
    { split; [lia|]. destruct (decide (s < min_s + 100)); [done|].
      specialize (Hfirst s0 ltac:(lia)). apply Z.eqb_neq in Hfirst. done. }
    split; [done|]. split; [|done].
    intros s' Hs'. apply Z.eqb_neq. by apply Hfirst.
  - assert (Hin : In s0 (seqZ min_s 200))
      by (apply list_elem_of_In, elem_of_seqZ; lia).
    apply (List.find_none _ _ Hfind) in Hin. cbv beta in Hin.
    rewrite Hmod0 in Hin. discriminate Hin.
Qed.

(** X1: whenever the size adjustment of [run_once] returns, the size is
    [s / 100] for the first [s] from [min_s = ceil(10000 / price_cents)] on
    whose cost [s * price_cents] is a multiple of 100, and that [s] lies
    within a hundred of [min_s]: the scan of 200 candidates always finds
    one, so the fallback [ceil(1.0 / order.price)] is never the size. *)
Theorem adjust_size_first_whole_cent (price size : float) :
  adjust_size price = Ret size →
  ∃ price_cents min_s s,
    Py.round (price * 100)%float = Ret price_cents
    ∧ price_cents ≠ 0
    ∧ (Py.idiv 10000 price_cents ≫= Py.ceil) = Ret min_s
    ∧ min_s ≤ s < min_s + 100
    ∧ (s * price_cents) mod 100 = 0
    ∧ (∀ s', min_s ≤ s' < s → (s' * price_cents) mod 100 ≠ 0)
    ∧ size = Py.nearest s 100.
Proof. apply adjust_size_inv. Qed.

Lemma adjust_size_first_whole_cent_witness :
  ∃ price_cents min_s s,
    Py.round (0.11 * 100)%float = Ret price_cents
    ∧ price_cents ≠ 0
    ∧ (Py.idiv 10000 price_cents ≫= Py.ceil) = Ret min_s
    ∧ min_s ≤ s < min_s + 100
    ∧ (s * price_cents) mod 100 = 0
    ∧ (∀ s', min_s ≤ s' < s → (s' * price_cents) mod 100 ≠ 0)
    ∧ 10%float = Py.nearest s 100.
Proof. apply (adjust_size_first_whole_cent 0.11 10). reflexivity. Defined.

(** *** The least size on the cent grid *)

Lemma ceil_ok_cents : forallb ceil_ok (seqZ 1 99) = true.
Proof. vm_compute. reflexivity. Qed.

Lemma ceil_on_cent (k : Z) :
  1 ≤ k ≤ 99 → (Py.idiv 10000 k ≫= Py.ceil) = Ret (- ((- 10000) / k)).
Proof.
  intros Hk. pose proof ceil_ok_cents as Hall.
  rewrite forallb_forall in Hall. specialize (Hall k).
  unfold ceil_ok in Hall.
  destruct (Py.idiv 10000 k ≫= Py.ceil) as [min_s|];
    [|by discriminate Hall; apply list_elem_of_In, elem_of_seqZ; lia].
  f_equal. apply Z.eqb_eq, Hall, list_elem_of_In, elem_of_seqZ. lia.
Qed.

(** X2: at an order price of [k] cents, [1 ≤ k ≤ 99], the adjusted size is
    [S / 100] for the least [S] whose cost [S * k / 10000] is a whole
    number of cents of at least $1; that cost is below $2. *)
Theorem adjusted_size_is_least (k : Z) :
  1 ≤ k ≤ 99 →
  ∃ S, adjust_size (Py.nearest k 100) = Ret (Py.nearest S 100)
       ∧ 10000 ≤ S * k < 20000
       ∧ (S * k) mod 100 = 0
       ∧ ∀ S', 10000 ≤ S' * k → (S' * k) mod 100 = 0 → S ≤ S'.
Proof.
  intros Hk.
  destruct (adjust_size_on_cent k Hk) as (Hcents & S0 & Hsize & _).
  destruct (adjust_size_inv _ _ Hsize)
    as (price_cents & min_s & S & Hcents' & _ & Hmin & HS & Hmod & Hfirst & HS0).
  rewrite Hcents in Hcents'. injection Hcents' as <-.
  rewrite (ceil_on_cent k Hk) in Hmin. injection Hmin as <-.
  pose proof (Z.div_mod (- 10000) k ltac:(lia)) as Hdiv.
  pose proof (Z.mod_pos_bound (- 10000) k ltac:(lia)) as Hrem.
  set (q := (- 10000) / k) in *. set (r := (- 10000) mod k) in *.
  exists S. split; [by rewrite Hsize, HS0|]. split; [nia|]. split; [done|].
  intros S' Hfloor Hcent.
  destruct (decide (S ≤ S')) as [|Hlt]; [done|].
  destruct (Hfirst S'); [nia|done].
Qed.

Lemma adjusted_size_is_least_witness :
  ∃ S, adjust_size (Py.nearest 99 100) = Ret (Py.nearest S 100)
       ∧ 10000 ≤ S * 99 < 20000
       ∧ (S * 99) mod 100 = 0
       ∧ ∀ S', 10000 ≤ S' * 99 → (S' * 99) mod 100 = 0 → S ≤ S'.
Proof. apply (adjusted_size_is_least 99). lia. Defined.

(** ** Prices on the cent grid *)

Lemma grid_ok_cents : forallb grid_ok (seqZ 0 101) = true.
Proof. vm_compute. reflexivity. Qed.

(** X3: a price that is already a whole number of cents from 0.00 to 1.00
    is the price [OrderDto] stores: rounding to two decimals changes only
    prices off the grid. *)
Theorem order_keeps_price_on_cent (k : Z) (token : string) (size : float) :
  0 ≤ k ≤ 100 →
  OrderDto.new token (Some (Py.nearest k 100)) size
  = Ret (OrderDto.mk token (Py.nearest k 100) size).
Proof.
  intros Hk. pose proof grid_ok_cents as Hall.
  rewrite forallb_forall in Hall. specialize (Hall k).
  unfold OrderDto.new. do 2 f_equal.
  apply FloatAxioms.Leibniz.eqb_spec, Hall, list_elem_of_In, elem_of_seqZ. lia.
Qed.

Lemma order_keeps_price_on_cent_witness :
  OrderDto.new "yes" (Some 0.46%float) 50 = Ret (OrderDto.mk "yes" 0.46 50).
Proof. apply (order_keeps_price_on_cent 46 "yes" 50). lia. Defined.

(** ** What an opportunity vouches for *)

Lemma check_arbitrage_inv (quotes : nat → option Prices) (now_iso : string)
    (b b' : Bot) (ev : list event) (opportunity : gmap string pyval) :
  check_arbitrage quotes now_iso b = (Ret (Some opportunity), b', ev) →
  ∃ pu pd su sd bu bd,
    prices_of quotes
    = {| price_up := Some pu; price_down := Some pd; size_up := Some su;
         size_down := Some sd; best_up := Some bu; best_down := Some bd |}
    ∧ (0.75 <=? pu)%float = false ∧ (0.75 <=? pd)%float = false
    ∧ within_tolerance pu pd bu bd = true
    ∧ (pu + pd <? Config.target_pair_cost (settings b))%float = true
    ∧ (su - 5 <? Config.order_size (settings b))%float = false
    ∧ (sd - 5 <? Config.order_size (settings b))%float = false
    ∧ (pu + pd =? 0)%float = false
    ∧ opportunity = opportunity_of (settings b) now_iso pu pd su sd
    ∧ b' = set_last_price_info (Some (prices_of quotes)) b
    ∧ ev = pauses_of quotes.
Proof.
  unfold check_arbitrage. rewrite bind_quotes. unfold after.
  destruct (prices_of quotes) as [pu pd su sd bu bd].
  run_body.
  destruct pu as [pu|]; [|done]. destruct pd as [pd|]; [|done].
  destruct (0.75 <=? pu)%float eqn:Hpu; [done|].
  destruct (0.75 <=? pd)%float eqn:Hpd; [done|]. simpl.
  destruct bu as [bu|]; [|done]. destruct bd as [bd|]; [|done]. simpl.
  destruct ((0.03 <? abs (pu - bu)) && (0.03 <? abs (pd - bd))
            || (0.05 <? abs (pu - bu) + abs (pd - bd)))%float eqn:Htol;
    [done|].
  destruct (pu + pd <? _)%float eqn:Hcost; [|done].
  destruct su as [su|]; [|done]. destruct sd as [sd|]; [|done]. simpl.
  unfold safety_margin.
  destruct (su - 5 <? _)%float eqn:Hup; [done|].
  destruct (sd - 5 <? _)%float eqn:Hdown; [done|]. simpl.
  unfold Py.fdiv. destruct (pu + pd =? 0)%float eqn:Hzero; [done|]. simpl.
  rewrite app_nil_r. intros [= <- <- <-].
  exists pu, pd, su, sd, bu, bd. unfold within_tolerance. rewrite Htol.
  done.
Qed.

(** X4: every opportunity [check_arbitrage] returns passed its filters:
    both last-trade prices are not at or above 0.75, the gaps to the best
    asks are within the tolerance, the pair costs less than
    [target_pair_cost] and not zero, and each ask size less the margin of 5
    is not below [order_size]; its entries are computed from those prices,
    and the call changed nothing but [last_price_info] and did nothing to
    the outside but pause between failed attempts to read the quotes. *)
Theorem opportunity_passed_the_filters (quotes : nat → option Prices)
    (now_iso : string) (b b' : Bot) (ev : list event)
    (opportunity : gmap string pyval) :
  check_arbitrage quotes now_iso b = (Ret (Some opportunity), b', ev) →
  ∃ pu pd su sd bu bd,
    prices_of quotes
    = {| price_up := Some pu; price_down := Some pd; size_up := Some su;
         size_down := Some sd; best_up := Some bu; best_down := Some bd |}
    ∧ (0.75 <=? pu)%float = false ∧ (0.75 <=? pd)%float = false
    ∧ within_tolerance pu pd bu bd = true
    ∧ (pu + pd <? Config.target_pair_cost (settings b))%float = true
    ∧ (pu + pd =? 0)%float = false
    ∧ (su - 5 <? Config.order_size (settings b))%float = false
    ∧ (sd - 5 <? Config.order_size (settings b))%float = false
    ∧ opportunity !! "price_up" = Some (VFloat pu)
    ∧ opportunity !! "price_down" = Some (VFloat pd)
    ∧ opportunity !! "total_cost" = Some (VFloat (pu + pd))
    ∧ opportunity !! "profit_per_share" = Some (VFloat (1 - (pu + pd)))
    ∧ opportunity !! "order_size"
      = Some (VFloat (Config.order_size (settings b)))
    ∧ opportunity !! "total_investment"
      = Some (VFloat ((pu + pd) * Config.order_size (settings b)))
    ∧ b' = set_last_price_info (Some (prices_of quotes)) b
    ∧ ev = pauses_of quotes.
Proof.
  intros (pu & pd & su & sd & bu & bd & Hq & Hpu & Hpd & Htol & Hcost & Hup
          & Hdown & Hzero & -> & -> & ->)%check_arbitrage_inv.
  exists pu, pd, su, sd, bu, bd. by repeat split.
Qed.

Lemma opportunity_passed_the_filters_witness :
  let b := Sample.bot_1000 (Sample.settings_with 60 0.10 0 0 false) in
  let opportunity := opportunity_of (settings b) "1970-01-01T00:18:20"
                       0.40 0.55 100 100 in
  (check_arbitrage (Sample.quoting 0.40 0.55 100 100 0.40 0.55)
     "1970-01-01T00:18:20" b).1.1 = Ret (Some opportunity)
  ∧ (0.40 + 0.55 <? 0.99)%float = true
  ∧ opportunity !! "total_investment" = Some (VFloat ((0.40 + 0.55) * 50)).
Proof.
  intros b opportunity.
  assert (Hcheck :
    check_arbitrage (Sample.quoting 0.40 0.55 100 100 0.40 0.55)
      "1970-01-01T00:18:20" b
    = (Ret (Some opportunity),
       set_last_price_info
         (Some (prices_of
                  (Sample.quoting 0.40 0.55 100 100 0.40 0.55))) b, []))
    by reflexivity.
  destruct (opportunity_passed_the_filters _ _ _ _ _ _ Hcheck)
    as (pu & pd & su & sd & bu & bd & Hq & _ & _ & _ & Hcost & _ & _ & _ & _
        & _ & _ & _ & _ & Hinv & _).
  injection Hq as <- <- _ _ _ _.
  split; [by rewrite Hcheck|]. split; [exact Hcost|exact Hinv].
Defined.

(** ** Stepping through method bodies *)

Lemma bind_assign {A} (f : Bot → Bot) (k : unit → M A) (b : Bot) :
  (assign f ≫= k) b = k tt (f b).
Proof. unfold mbind, M_bind, assign. by destruct (k tt (f b)) as [[r b'] ev]. Qed.

Lemma bind_lift {A B} (o : outcome A) (k : A → M B) (b : Bot) :
  (lift o ≫= k) b
  = match o with Ret a => k a b | Raise e => (Raise e, b, []) end.
Proof.
  unfold mbind, M_bind, lift. destruct o as [a|e]; [|done].
  by destruct (k a b) as [[r b'] ev].
Qed.

Lemma bind_emit {A} (e : event) (k : unit → M A) (b : Bot) :
  (emit e ≫= k) b = let '(r, b', ev) := k tt b in (r, b', e :: ev).
Proof. unfold mbind, M_bind, emit. by destruct (k tt b) as [[r b'] ev]. Qed.

Lemma bind_mret {A B} (a : A) (k : A → M B) (b : Bot) :
  (mret a ≫= k) b = k a b.
Proof. unfold mbind, mret, M_bind, M_ret. by destruct (k a b) as [[r b'] ev]. Qed.

Lemma bind_raise {A B} (e : exn) (k : A → M B) (b : Bot) :
  (raise e ≫= k) b = (Raise e, b, []).
Proof. done. Qed.

Lemma item_lift (d : gmap string pyval) (key : string) :
  item d key = lift (item_value d key).
Proof. unfold item, item_value. by repeat case_match. Qed.

(** ** The trade counters of the arbitrage path *)

(** Where [execute_arbitrage] leaves the bot: with the opportunity counted
    and nothing else, or, when the cap test let it through, with the trade
    tracked as the mode has it. *)
Lemma execute_arbitrage_state (be : Backend) (now : Z)
    (opportunity : gmap string pyval) (b : Bot) :
  let b1 := set_opportunities_found (opportunities_found b + 1) b in
  let b' := (execute_arbitrage be now opportunity b).1.2 in
  b' = b1
  ∨ capped b = false
    ∧ ∃ order_size total_investment,
        Config.dry_run (settings b) = true
        ∧ b' = set_current_market_trades (current_market_trades b + 1)
                 (tracked opportunity order_size total_investment b1)
        ∨ Config.dry_run (settings b) = false
          ∧ b' = set_cached_balance (Some (get_balance be))
                   (tracked opportunity order_size total_investment
                      (set_current_market_trades (current_market_trades b + 1)
                         (set_trades_executed (trades_executed b + 1) b1))).
Proof.
  intros b1 b'. subst b'. unfold execute_arbitrage.
  rewrite bind_self, bind_assign. fold b1.
  rewrite !item_lift.
  destruct (item_value opportunity "price_up") as [up_price|] eqn:Hup;
    rewrite bind_lift; [|by left].
  destruct (item_value opportunity "price_down") as [down_price|] eqn:Hdown;
    rewrite bind_lift; [|by left].
  destruct (item_value opportunity "total_cost");
    rewrite bind_lift; [|by left].
  destruct (item_value opportunity "profit_per_share");
    rewrite bind_lift; [|by left].
  destruct (item_value opportunity "profit_pct");
    rewrite bind_lift; [|by left].
  destruct (item_value opportunity "order_size") as [order_size|];
    rewrite bind_lift; [|by left].
  destruct (item_value opportunity "total_investment") as [total_investment|];
    rewrite bind_lift; [|by left].
  destruct (item_value opportunity "expected_payout");
    rewrite bind_lift; [|by left].
  destruct (item_value opportunity "expected_profit");
    rewrite bind_lift; [|by left].
  match goal with |- context [if ?c then mret tt else _] =>
    destruct c; [by left|] end.
  fold (capped b). destruct (capped b) eqn:Hcap; [by left|].
  destruct (Config.dry_run (settings b)) eqn:Hdry.
  - right. split; [done|]. exists order_size, total_investment.
    left. split; [done|]. reflexivity.
  - unfold try_except. rewrite !bind_lift, bind_emit, bind_lift.
    destruct (place_orders_fast be _) as [results|e]; [|by left].
    destruct (omap id results) as [|msg errors].
    + right. split; [done|]. exists order_size, total_investment.
      right. split; [done|]. reflexivity.
    + left. unfold mbind at 1, M_bind at 1. rewrite log_errors. reflexivity.
Qed.

(** X5: [execute_arbitrage] counts every opportunity, keeps the settings,
    counts at most one trade for the market, and never takes the bot past
    the cap: with [max_trades_per_market > 0], a bot that is within the cap
    stays within it.  [trades_executed] moves only with a trade that the
    market counter records too, and never in a dry run. *)
Theorem execute_arbitrage_keeps_the_cap (be : Backend) (now : Z)
    (opportunity : gmap string pyval) (b : Bot) :
  let b' := (execute_arbitrage be now opportunity b).1.2 in
  let cap := Config.max_trades_per_market (settings b) in
  opportunities_found b' = opportunities_found b + 1
  ∧ settings b' = settings b
  ∧ (current_market_trades b' = current_market_trades b
     ∨ current_market_trades b' = current_market_trades b + 1)
  ∧ (0 < cap → current_market_trades b ≤ cap →
     current_market_trades b' ≤ cap)
  ∧ (trades_executed b' = trades_executed b
     ∨ trades_executed b' = trades_executed b + 1
       ∧ current_market_trades b' = current_market_trades b + 1
       ∧ Config.dry_run (settings b) = false).
Proof.
  intros b' cap.
  destruct (execute_arbitrage_state be now opportunity b)
    as [Hb'|(Hcap & order_size & total_investment & [[Hdry Hb']|[Hdry Hb']])];
    fold b' in Hb'; rewrite Hb'; simpl.
  - repeat split; auto with lia.
  - unfold capped in Hcap. fold cap in Hcap. repeat split; auto with lia.
  - unfold capped in Hcap. fold cap in Hcap. repeat split; auto with lia.
Qed.

(** ** Submissions that fail *)

Lemma opportunity_items (s : Config.Settings) (now_iso : string)
    (pu pd su sd : float) :
  let opportunity := opportunity_of s now_iso pu pd su sd in
  item_value opportunity "price_up" = Ret pu
  ∧ item_value opportunity "price_down" = Ret pd
  ∧ (∃ x, item_value opportunity "total_cost" = Ret x)
  ∧ (∃ x, item_value opportunity "profit_per_share" = Ret x)
  ∧ (∃ x, item_value opportunity "profit_pct" = Ret x)
  ∧ item_value opportunity "order_size" = Ret (Config.order_size s)
  ∧ item_value opportunity "total_investment"
    = Ret ((pu + pd) * Config.order_size s)%float
  ∧ (∃ x, item_value opportunity "expected_payout" = Ret x)
  ∧ (∃ x, item_value opportunity "expected_profit" = Ret x).
Proof. intros opportunity. repeat split; try by eexists. Qed.

(** X6: in live mode, when the backend raises or reports an error for any
    leg, [execute_arbitrage] on an opportunity of [check_arbitrage] returns
    normally with the bot as it was but for the opportunity counted: no
    trade is counted, nothing is invested, no position recorded; what it
    emitted is the submission and the error log. *)
Theorem failed_submission_is_untracked (be : Backend) (now : Z)
    (quotes : nat → option Prices) (now_iso : string) (b0 b : Bot)
    (ev0 : list event) (opportunity : gmap string pyval) :
  check_arbitrage quotes now_iso b0 = (Ret (Some opportunity), b, ev0) →
  Config.dry_run (settings b) = false →
  (∀ legs results,
     place_orders_fast be legs = Ret results → omap id results ≠ []) →
  ∃ ev,
    execute_arbitrage be now opportunity b
    = (Ret tt, set_opportunities_found (opportunities_found b + 1) b, ev)
    ∧ ∀ e, e ∈ ev → (∃ legs, e = PlaceOrders legs) ∨ ∃ msg, e = ErrorLogged msg.
Proof.
  intros (pu & pd & su & sd & bu & bd & _ & _ & _ & _ & _ & _ & _ & _ & ->
          & Hb & _)%check_arbitrage_inv Hdry Hfail.
  assert (Hs : settings b0 = settings b) by by rewrite Hb.
  rewrite Hs. clear Hb Hs b0.
  destruct (opportunity_items (settings b) now_iso pu pd su sd)
    as (H1 & H2 & [? H3] & [? H4] & [? H5] & H6 & H7 & [? H8] & [? H9]).
  unfold execute_arbitrage.
  rewrite bind_self, bind_assign, !item_lift.
  rewrite H1, bind_lift, H2, bind_lift, H3, bind_lift, H4, bind_lift, H5,
    bind_lift, H6, bind_lift, H7, bind_lift, H8, bind_lift, H9, bind_lift.
  match goal with |- context [if ?c then mret tt else _] =>
    destruct c; [by exists []; split; [|intros ? ?%elem_of_nil]|] end.
  match goal with |- context [if ?c then mret tt else _] =>
    destruct c; [by exists []; split; [|intros ? ?%elem_of_nil]|] end.
  rewrite Hdry. unfold try_except. rewrite !bind_lift, bind_emit, bind_lift.
  destruct (place_orders_fast be _) as [results|e] eqn:Hplace.
  - apply Hfail in Hplace.
    destruct (omap id results) as [|msg errors]; [done|].
    unfold mbind at 1, M_bind at 1. rewrite log_errors.
    eexists. split; [reflexivity|].
    intros e [->|He]%elem_of_cons; [by left; eexists|].
    rewrite app_nil_r in He. right.
    apply elem_of_cons in He as [->|He]; [by eexists|].
    apply list_elem_of_fmap in He as (msg' & -> & _). by eexists.
  - eexists. split; [reflexivity|].
    intros e' [->|He]%elem_of_cons; [by left; eexists|].
    by apply elem_of_nil in He.
Qed.

Lemma failed_submission_is_untracked_witness :
  let b := Sample.bot_1000 (Sample.settings_with 60 0.10 0 0 false) in
  let q := Sample.quoting 0.40 0.55 100 100 0.40 0.55 in
  let b1 := set_last_price_info (Some (prices_of q)) b in
  ∃ ev,
    execute_arbitrage Scenario.rejecting 1100
      (opportunity_of (settings b) "1970-01-01T00:18:20" 0.40 0.55 100 100) b1
    = (Ret tt, set_opportunities_found 1 b1, ev).
Proof.
  intros b q b1.
  destruct (failed_submission_is_untracked Scenario.rejecting 1100 q
              "1970-01-01T00:18:20" b b1 []
              (opportunity_of (settings b) "1970-01-01T00:18:20"
                 0.40 0.55 100 100)) as (ev & Hrun & _).
  - reflexivity.
  - reflexivity.
  - intros legs results [= <-]. done.
  - by exists ev.
Defined.

(** ** Dry runs *)

Lemma bind_step {A B} (m : M A) (k : A → M B) (b b1 : Bot) (a : A)
    (ev : list event) :
  m b = (Ret a, b1, ev) →
  (m ≫= k) b = let '(r, b2, ev2) := k a b1 in (r, b2, ev ++ ev2).
Proof. intros H. unfold mbind, M_bind. by rewrite H. Qed.

Lemma bind_step_raise {A B} (m : M A) (k : A → M B) (b b1 : Bot) (e : exn)
    (ev : list event) :
  m b = (Raise e, b1, ev) → (m ≫= k) b = (Raise e, b1, ev).
Proof. intros H. unfold mbind, M_bind. by rewrite H. Qed.

Lemma number_lift (v : option float) :
  number v = lift (match v with Some x => Ret x | None => Raise TypeError end).
Proof. by destruct v. Qed.

(** The pauses of a call: one second after each failed attempt but the
    last, none when the first attempt answers. *)
Lemma pauses_of_count (quotes : nat → option Prices) :
  ∃ n : nat, (n ≤ 2)%nat ∧ pauses_of quotes = replicate n (Slept 1)
             ∧ (quotes 1%nat ≠ None → n = 0%nat).
Proof.
  unfold pauses_of. simpl.
  destruct (quotes 1%nat); [exists 0%nat; split; [lia|]; by split|].
  destruct (quotes 2%nat); simpl.
  { exists 1%nat. split; [lia|]. by split. }
  destruct (quotes 3%nat); simpl; exists 2%nat; (split; [lia|]); by split.
Qed.

(** X7: with [dry_run] set, neither [run_once] nor [execute_arbitrage]
    hands an order to the backend or logs an order error.  All [run_once]
    does to the outside is to sleep one second after a failed attempt to
    read the quotes, twice at most and not at all when the first attempt
    answers; [execute_arbitrage] does nothing to the outside. *)
Theorem dry_run_submits_nothing (b : Bot) :
  Config.dry_run (settings b) = true →
  (∀ io, ∃ n : nat,
     (n ≤ 2)%nat ∧ (run_once io b).2 = replicate n (Slept 1)
     ∧ (quotes io 1%nat ≠ None → n = 0%nat))
  ∧ (∀ be now opportunity, (execute_arbitrage be now opportunity b).2 = []).
Proof.
  intros Hdry. split.
  - intros io. unfold run_once. rewrite bind_self.
    destruct (String.eqb _ "CLOSED"); [exists 0%nat; split; [lia|]; by split|].
    destruct (String.eqb _ "CLOSED"); [exists 0%nat; split; [lia|]; by split|].
    rewrite bind_quotes.
    match goal with |- context [after _ ?rest] =>
      assert (Hrest : rest.2 = []);
      [|unfold after; rewrite Hrest; simpl; rewrite app_nil_r;
        apply pauses_of_count]
    end.
    rewrite !number_lift, bind_lift.
    destruct (price_up _) as [pu|]; [|done].
    rewrite bind_lift. destruct (price_down _) as [pd|]; [|done].
    destruct (_ || _); [|done].
    match goal with |- context [choose_side io ?q ?up ?down] =>
      pose proof (choose_side_silent io q up down b) as Hs;
      destruct (choose_side io q up down b) as [[[chosen|e] b1] ev1] eqn:Hchoose
    end; simpl in Hs; subst ev1.
    2:{ by rewrite (bind_step_raise _ _ _ _ _ _ Hchoose). }
    rewrite (bind_step _ _ _ _ _ _ Hchoose).
    destruct chosen as [o|]; [|done].
    apply choose_side_order in Hchoose as (Hs1 & _).
    pose proof (size_order_silent o b1) as Hs.
    destruct (size_order o b1) as [[[o2|e] b2] ev2] eqn:Hsize;
      simpl in Hs; subst ev2.
    2:{ by rewrite (bind_step_raise _ _ _ _ _ _ Hsize). }
    rewrite (bind_step _ _ _ _ _ _ Hsize).
    apply size_order_order in Hsize as (Hs2 & _).
    unfold submit_order. rewrite bind_self, Hs2, Hs1, Hdry. reflexivity.
  - intros be now opportunity. unfold execute_arbitrage.
    rewrite bind_self, bind_assign, !item_lift.
    do 9 (rewrite bind_lift; destruct (item_value opportunity _); [|done]).
    match goal with |- context [if ?c then mret tt else _] =>
      destruct c; [done|] end.
    match goal with |- context [if ?c then mret tt else _] =>
      destruct c; [done|] end.
    simpl. rewrite Hdry. reflexivity.
Qed.

Lemma dry_run_submits_nothing_witness :
  let b := Sample.bot_1000 (Sample.settings_with 60 0.10 0 0 true) in
  let t := Sample.tick 1100 (Sample.quoting 0.50 0.50 100 100 0.50 0.50) in
  let slow := λ attempt : nat,
    if (attempt <? 3)%nat then None
    else Sample.quoting 0.50 0.50 100 100 0.50 0.50 attempt in
  let b' := set_is_performed true (set_order (Some (
       <["cost" := VFloat 25]> (
       <["order_size" := VFloat 50]> (
       <["time_stamp" := VStr "1100.5"]> (
       <["direction" := VStr "UP"]> (
       <["entry_price" := VFloat 0.5]> ∅)))))) b) in
  run_once (scan t) b = (Ret true, b', [])
  ∧ run_once (scan (Sample.tick 1100 slow)) b
    = (Ret true, b', [Slept 1; Slept 1]).
Proof.
  intros b t slow b'.
  destruct (dry_run_submits_nothing b) as [Hrun _]; [reflexivity|].
  split.
  - destruct (Hrun (scan t)) as (n & _ & Hev & Hfirst).
    rewrite (Hfirst ltac:(done)) in Hev.
    destruct (run_once (scan t) b) as [[r b1] ev] eqn:Hr.
    simpl in Hev. subst ev. rewrite <- Hr. reflexivity.
  - reflexivity.
Defined.

(** ** Slugs and the numbers in them *)

Lemma digit_pretty_N_char (n : N) :
  (n < 10)%N → digit (pretty_N_char n) = Some (Z.of_N n).
Proof.
  intros Hn.
  assert (n = 0 ∨ n = 1 ∨ n = 2 ∨ n = 3 ∨ n = 4 ∨ n = 5 ∨ n = 6 ∨ n = 7
          ∨ n = 8 ∨ n = 9)%N as Hcases by lia.
  repeat (destruct Hcases as [->|Hcases]; [reflexivity|]). by subst.
Qed.

(** Reading back the decimal digits [pretty] wrote. *)
Lemma digits_pretty_N_go (x : N) (s : string) :
  digits 0 (pretty_N_go x s) = digits (Z.of_N x) s.
Proof.
  revert s. induction (N.lt_wf_0 x) as [x _ IH]; intros s.
  destruct (decide (x = 0)%N) as [->|Hx]; [by rewrite pretty_N_go_0|].
  rewrite pretty_N_go_step by lia.
  rewrite IH by (apply N.div_lt; lia). simpl.
  rewrite digit_pretty_N_char by (apply N.mod_lt; lia).
  f_equal. pose proof (N.div_mod x 10 ltac:(lia)) as Hx10. lia.
Qed.

(** What [pretty] writes for a positive number starts with a digit. *)
Lemma pretty_N_go_head (x : N) (s : string) :
  (0 < x)%N →
  ∃ c rest d, pretty_N_go x s = String c rest ∧ digit c = Some d.
Proof.
  revert s. induction (N.lt_wf_0 x) as [x _ IH]; intros s Hx.
  rewrite pretty_N_go_step by done.
  destruct (decide (x `div` 10 = 0)%N) as [->|Hdiv].
  - rewrite pretty_N_go_0. eexists _, _, _. split; [done|].
    apply digit_pretty_N_char, N.mod_lt. lia.
  - apply IH; [apply N.div_lt; lia|by apply N.neq_0_lt_0].
Qed.

Lemma pretty_Z_head (t : Z) :
  0 ≤ t → ∃ c rest d, pretty t = String c rest ∧ digit c = Some d.
Proof.
  intros Ht. destruct t as [|p|p]; [by eexists _, _, _; split| |lia].
  unfold pretty, pretty_Z, pretty, pretty_positive, pretty, pretty_N.
  destruct (decide (N.pos p = 0)%N); [done|].
  apply pretty_N_go_head. lia.
Qed.

Lemma digits_pretty_Z (t : Z) : 0 ≤ t → digits 0 (pretty t) = t.
Proof.
  intros Ht. destruct t as [|p|p]; [done| |lia].
  unfold pretty, pretty_Z, pretty, pretty_positive, pretty, pretty_N.
  destruct (decide (N.pos p = 0)%N); [done|].
  by rewrite digits_pretty_N_go.
Qed.

Lemma after_prefix_app (pattern rest : string) :
  after_prefix pattern (pattern +:+ rest) = Some rest.
Proof.
  induction pattern as [|c pattern IH]; [by destruct rest|].
  simpl. by rewrite Ascii.eqb_refl.
Qed.

Lemma string_app_assoc (s1 s2 s3 : string) :
  (s1 +:+ s2) +:+ s3 = s1 +:+ (s2 +:+ s3).
Proof.
  induction s1 as [|c s1 IH]; [done|].
  change (String c ((s1 +:+ s2) +:+ s3) = String c (s1 +:+ (s2 +:+ s3))).
  by rewrite IH.
Qed.

(** The number after a pattern is read back from the text that [pretty]
    made of it. *)
Lemma search_number_pretty (pattern : string) (t : Z) :
  0 ≤ t → search_number pattern (pattern +:+ pretty t) = Some t.
Proof.
  intros Ht.
  assert (Hhere : number_here pattern (pattern +:+ pretty t) = Some t).
  { unfold number_here. rewrite after_prefix_app.
    destruct (pretty_Z_head t Ht) as (c & rest & d & Hp & Hd).
    pose proof (digits_pretty_Z t Ht) as Hdigits.
    rewrite Hp in Hdigits |- *. simpl in Hdigits. rewrite Hd in Hdigits |- *.
    replace (10 * 0 + d) with d in Hdigits by lia. by rewrite Hdigits. }
  destruct (pattern +:+ pretty t); simpl; by rewrite Hhere.
Qed.

Lemma find_current_5min_market_inv (symbol : string) (d : Discovery)
    (slug : string) :
  0 ≤ utcnow d →
  find_current_5min_market symbol d = Ret slug →
  ∃ t, slug = symbol +:+ "-updown-5m-" +:+ pretty t
       ∧ t = utcnow d - utcnow d mod 300
       ∧ search_number (symbol +:+ "-updown-5m-") slug = Some t.
Proof.
  intros Hnow. unfold find_current_5min_market.
  destruct (page d) as [text|]; [|done].
  destruct (search_number _ text); [|done].
  intros [= <-].
  pose proof (Z.mod_pos_bound (utcnow d) 300 ltac:(lia)) as Hrem.
  exists (utcnow d - utcnow d mod 300). split; [done|]. split; [done|].
  rewrite <- string_app_assoc. apply search_number_pretty.
  pose proof (Z.mod_le (utcnow d) 300 Hnow ltac:(lia)). lia.
Qed.

(** The symbols the patterns of lines 53 and 119 take literally: [btc] is
    one; [a+] and [.tc], which a regular expression reads otherwise, are
    not. *)
Example plain_symbols :
  plain "btc" = true ∧ plain "a+" = false ∧ plain ".tc" = false.
Proof. by repeat split. Qed.

(** X8: for a symbol of plain characters (ASCII, none with a meaning in a
    regular expression), the slug [find_current_5min_market] returns names
    the five-minute window the clock is in: its number [t] is a multiple of
    300 with [t ≤ now < t + 300], whatever timestamps the page lists, and
    the pattern [__init__] searches the slug with reads that [t] back. *)
Theorem discovered_slug_reads_back (symbol : string) (d : Discovery)
    (slug : string) :
  plain symbol = true →
  0 ≤ utcnow d →
  find_current_5min_market symbol d = Ret slug →
  ∃ t, slug = symbol +:+ "-updown-5m-" +:+ pretty t
       ∧ t mod 300 = 0
       ∧ t ≤ utcnow d < t + 300
       ∧ search_number (symbol +:+ "-updown-5m-") slug = Some t.
Proof.
  intros _ Hnow (t & Hslug & Ht & Hread)%find_current_5min_market_inv;
    [|done].
  pose proof (Z.mod_pos_bound (utcnow d) 300 ltac:(lia)) as Hrem.
  exists t. split; [done|]. split; [|split; [lia|done]].
  rewrite Ht, Zminus_mod_idemp_r. by replace (utcnow d - utcnow d) with 0 by lia.
Qed.

Lemma discovered_slug_reads_back_witness :
  ∃ t, "btc-updown-5m-900" = "btc" +:+ "-updown-5m-" +:+ pretty t
       ∧ t mod 300 = 0
       ∧ t ≤ 1100 < t + 300
       ∧ search_number ("btc" +:+ "-updown-5m-") "btc-updown-5m-900" = Some t.
Proof.
  apply (discovered_slug_reads_back "btc" (discovery Sample.online));
    [reflexivity|done|reflexivity].
Defined.

(** ** What construction leaves *)

(** What [__init__] went through when it returns, and the bot it leaves. *)
Lemma init_inv (settings : Config.Settings) (symbol : string)
    (w : Construction) (b b' : Bot) (ev : list event) :
  init settings symbol w b = (Ret tt, b', ev) →
  ∃ slug info t z,
    get_client (client_cached w) settings (connect w) = Ret tt
    ∧ resolve_slug settings symbol (discovery w) = Ret slug
    ∧ fetch_market_from_slug w slug = Ret info
    ∧ search_number (symbol +:+ "-updown-5m-") slug = Some t
    ∧ Config.attrs settings !! "strategy_start_timestamp" = Some (VInt z)
    ∧ b' = mkBot settings false false false None (info_market_id info)
             (info_yes_token_id info) (info_no_token_id info) (t + z)
             (if t =? 0 then None else Some (t + 120))
             (if t =? 0 then None else Some (t + 300))
             slug 0 0 0 0 [] None 0 (last_price_info b)
    ∧ ev = [].
Proof.
  unfold init. rewrite bind_assign, bind_lift.
  destruct (get_client _ settings _) as [[]|] eqn:Hclient; [|done].
  rewrite !bind_assign, bind_lift.
  destruct (resolve_slug settings symbol _) as [slug|] eqn:Hslug; [|done].
  rewrite bind_lift.
  destruct (fetch_market_from_slug w slug) as [info|] eqn:Hfetch; [|done].
  rewrite !bind_assign, bind_lift. unfold Config.getattr.
  destruct (Config.attrs settings !! "strategy_start_timestamp")
    as [offset|] eqn:Hoffset; [|done].
  destruct (search_number _ slug) as [t|] eqn:Ht, offset as [|?|z|?];
    try done.
  rewrite bind_mret, !bind_assign. intros [= <- <-].
  exists slug, info, t, z. do 5 (split; [done|]). split; [|done].
  by destruct t.
Qed.

(** X9: when [__init__] returns, on a new object or on a bot that [monitor]
    re-initialises, everything about the market is new: the flags are
    cleared, no order is held, the counters and totals are zero (among them
    [current_market_trades]), the strategy window opens [offset] seconds
    after the timestamp [t] of the slug, and for [t ≠ 0] it and the market
    close 120 and 300 seconds after [t].  Of the bot before the call only
    [last_price_info] is left. *)
Theorem init_starts_the_market_afresh (settings : Config.Settings)
    (symbol : string) (w : Construction) (b b' : Bot) (ev : list event) :
  init settings symbol w b = (Ret tt, b', ev) →
  ∃ slug t offset,
    resolve_slug settings symbol (discovery w) = Ret slug
    ∧ search_number (symbol +:+ "-updown-5m-") slug = Some t
    ∧ Config.attrs settings !! "strategy_start_timestamp" = Some (VInt offset)
    ∧ market_slug b' = slug
    ∧ strategy_start_timestamp b' = t + offset
    ∧ (t ≠ 0 → strategy_end_timestamp b' = Some (t + 120)
               ∧ market_end_timestamp b' = Some (t + 300))
    ∧ is_performed b' = false ∧ is_performed_informed b' = false
    ∧ is_finished b' = false ∧ order b' = None
    ∧ current_market_trades b' = 0 ∧ trades_executed b' = 0
    ∧ opportunities_found b' = 0 ∧ positions b' = []
    ∧ total_invested b' = 0%float ∧ total_shares_bought b' = 0%float
    ∧ cached_balance b' = None
    ∧ Strategy.settings b' = settings
    ∧ last_price_info b' = last_price_info b
    ∧ ev = [].
Proof.
  intros (slug & info & t & z & _ & Hslug & _ & Ht & Hz & -> & ->)%init_inv.
  exists slug, t, z. simpl. do 5 (split; [done|]). split; [|done].
  intros Hnz. by rewrite (proj2 (Z.eqb_neq _ _) Hnz).
Qed.

Lemma init_starts_the_market_afresh_witness :
  let s := Sample.settings_with 60 0.10 0 0 false in
  let b := set_current_market_trades 3 (Sample.holding_up s) in
  let b' := mkBot s false false false None "m" "yes" "no" 960 (Some 1020)
              (Some 1200) "btc-updown-5m-900" 0 0 0 0 [] None 0 None in
  current_market_trades b = 3
  ∧ init s "btc" Sample.online b = (Ret tt, b', [])
  ∧ current_market_trades b' = 0
  ∧ order b' = None.
Proof.
  intros s b b'.
  assert (Hinit : init s "btc" Sample.online b = (Ret tt, b', []))
    by reflexivity.
  destruct (init_starts_the_market_afresh s "btc" Sample.online b b' [] Hinit)
    as (slug & t & offset & _ & _ & _ & _ & _ & _ & _ & _ & _ & Horder
        & Htrades & _).
  done.
Defined.

(** ** The market a new bot trades *)

Lemma time_remaining_closed (b : Bot) (t now : Z) :
  market_end_timestamp b = Some t → t ≠ 0 →
  get_time_remaining b now = "CLOSED" ↔ t ≤ now.
Proof.
  intros Hend Hnz. unfold get_time_remaining. rewrite Hend.
  destruct t as [|p|p]; [done|..];
    match goal with |- context [?r <=? 0] =>
      destruct (Z.leb_spec r 0) as [Hle|Hlt];
      [split; [lia|done]
      |split; [by intros ?%minutes_seconds_not_closed|lia]]
    end.
Qed.

(** X10: for a symbol of plain characters (ASCII, none with a meaning in a
    regular expression), a bot constructed on the market
    [find_current_5min_market] found trades the window the clock is in:
    with [t] the last multiple of 300 at or before the clock, the strategy
    window ends at [t + 120], the market ends at [t + 300],
    [get_time_remaining] answers ["CLOSED"] exactly from [t + 300] on, and
    not yet at the time of discovery. *)
Theorem discovered_market_is_open (settings : Config.Settings)
    (symbol : string) (w : Construction) (b : Bot) (slug : string) :
  plain symbol = true →
  300 ≤ utcnow (discovery w) →
  find_current_5min_market symbol (discovery w) = Ret slug →
  new settings symbol w = Ret b →
  let t := utcnow (discovery w) - utcnow (discovery w) mod 300 in
  market_slug b = slug
  ∧ strategy_end_timestamp b = Some (t + 120)
  ∧ market_end_timestamp b = Some (t + 300)
  ∧ (∀ now, get_time_remaining b now = "CLOSED" ↔ t + 300 ≤ now)
  ∧ get_time_remaining b (utcnow (discovery w)) ≠ "CLOSED".
Proof.
  intros _ Hnow Hfind Hnew t.
  pose proof (Z.mod_pos_bound (utcnow (discovery w)) 300 ltac:(lia)) as Hrem.
  unfold new in Hnew.
  destruct (init settings symbol w (blank settings)) as [[[[]|] b'] ev]
    eqn:Hinit; [|done].
  injection Hnew as ->.
  apply init_inv in Hinit
    as (slug' & info & t' & z & _ & Hslug & _ & Ht' & _ & -> & _).
  unfold resolve_slug in Hslug. rewrite Hfind in Hslug.
  injection Hslug as <-.
  apply find_current_5min_market_inv in Hfind as (t0 & _ & Ht0 & Hread);
    [|lia].
  rewrite Hread in Ht'. injection Ht' as <-. fold t in Ht0. subst t0.
  assert (Hnz : t ≠ 0) by (unfold t; lia).
  simpl. rewrite (proj2 (Z.eqb_neq _ _) Hnz).
  split; [done|]. split; [done|]. split; [done|].
  assert (Hclosed : ∀ now b0,
    market_end_timestamp b0 = Some (t + 300) →
    get_time_remaining b0 now = "CLOSED" ↔ t + 300 ≤ now).
  { intros now b0 Hend. apply time_remaining_closed; [done|unfold t; lia]. }
  split.
  - intros now. by apply Hclosed.
  - intros Hc. apply Hclosed in Hc; [unfold t in Hc; lia|done].
Qed.

Lemma discovered_market_is_open_witness :
  let s := Sample.settings_with 60 0.10 0 0 false in
  ∃ b, new s "btc" Sample.online = Ret b
       ∧ market_end_timestamp b = Some 1200
       ∧ get_time_remaining b 1100 ≠ "CLOSED"
       ∧ get_time_remaining b 1200 = "CLOSED".
Proof.
  intros s.
  destruct (new s "btc" Sample.online) as [b|] eqn:Hnew;
    [|by vm_compute in Hnew].
  destruct (discovered_market_is_open s "btc" Sample.online b
              "btc-updown-5m-900") as (_ & _ & Hend & Hiff & Hopen);
    [reflexivity|simpl; lia|reflexivity|done|].
  exists b. split; [done|]. split; [exact Hend|]. split; [exact Hopen|].
  apply Hiff. by vm_compute.
Defined.

(** ** Construction on the configured slug *)



(** ** Frames *)

Global Instance same_market_refl : Reflexive same_market.
Proof. intros b. by repeat split. Qed.

Global Instance same_market_trans : Transitive same_market.
Proof.
  intros b1 b2 b3 H12 H23. unfold same_market in *.
  destruct_and!. repeat split; congruence.
Qed.

Lemma frame_bind {A B} (R : Bot → Bot → Prop) `{!Transitive R}
    (m : M A) (k : A → M B) :
  frame R m → (∀ a, frame R (k a)) → frame R (m ≫= k).
Proof.
  intros Hm Hk b. unfold mbind, M_bind. specialize (Hm b).
  destruct (m b) as [[[a|e] b1] ev]; [|done].
  specialize (Hk a b1). destruct (k a b1) as [[r b2] ev2]. simpl in *.
  by etrans.
Qed.

Lemma frame_keeps {A} (R : Bot → Bot → Prop) `{!Reflexive R} (m : M A) :
  keeps_self m → frame R m.
Proof. intros Hm b. by rewrite Hm. Qed.

Lemma frame_assign (R : Bot → Bot → Prop) (f : Bot → Bot) :
  (∀ b, R b (f b)) → frame R (assign f).
Proof. intros Hf b. apply Hf. Qed.

Lemma keeps_log_errors (errors : list string) :
  keeps_self (mapM (λ msg, emit (ErrorLogged msg)) errors).
Proof. intros b. by rewrite log_errors. Qed.

Lemma keeps_number (v : option float) : keeps_self (number v).
Proof. by destruct v. Qed.

Lemma keeps_get_number (d : gmap string pyval) (key : string) :
  keeps_self (get_number d key).
Proof. unfold get_number. by repeat case_match. Qed.

Ltac framing :=
  repeat first
    [ apply frame_bind; [apply _| |intros ?]
    | apply frame_assign; intros ?; by repeat split
    | apply frame_keeps; [apply _|];
      first [ apply keeps_mret | apply keeps_raise | apply keeps_lift
            | apply keeps_emit | apply keeps_the_self | apply keeps_log_errors
            | apply keeps_number | apply keeps_get_number ]
    | progress unfold order_setitem
    | case_match ].

Lemma run_once_same_market (io : Scan) : frame same_market (run_once io).
Proof.
  unfold run_once, choose_side, size_order, submit_order. framing.
Qed.

Lemma watch_stoploss_same_market (quoted : nat → option Prices) :
  frame same_market (watch_stoploss quoted).
Proof. unfold watch_stoploss. framing. Qed.

(** ** What an iteration on an open market can change *)

Lemma open_step_same_market (symbol : string) (interval : Z) (t : Tick)
    (b : Bot) :
  get_time_remaining b (now t) ≠ "CLOSED" →
  same_market b (monitor_step symbol interval t b).1.2.
Proof.
  intros Hopen. unfold monitor_step. rewrite bind_self.
  rewrite (eqb_closed_false _ Hopen).
  destruct (is_finished b); [done|].
  destruct (is_performed b).
  { apply (frame_bind same_market); [apply watch_stoploss_same_market|].
    intros ?. framing. }
  destruct (String.eqb _ "CLOSED").
  { apply (frame_bind same_market); [|intros ?]; framing. }
  apply (frame_bind same_market); [apply run_once_same_market|].
  intros ?. framing.
Qed.

(** X12: while the market is open, an iteration of [monitor] changes at
    most the position ([order], [is_performed], [is_performed_informed],
    [is_finished]): the market and its timestamps stay, and so do the
    settings, [opportunities_found], [trades_executed],
    [current_market_trades], the invested totals and the recorded
    positions; the polling loop never counts a trade. *)
Theorem open_iteration_changes_only_the_position (symbol : string)
    (interval : Z) (t : Tick) (b : Bot) :
  get_time_remaining b (now t) ≠ "CLOSED" →
  same_market b (monitor_step symbol interval t b).1.2.
Proof. apply open_step_same_market. Qed.

Lemma open_iteration_changes_only_the_position_witness :
  let b := Sample.bot_1000 (Sample.settings_with 60 0.10 1 0 false) in
  let t := Sample.tick 1100 (Sample.quoting 0.50 0.50 100 100 0.50 0.50) in
  let r := monitor_step "btc" 0 t b in
  r.1.1 = Ret (Scanned true)
  ∧ r.2 = [MarketBuy (OrderDto.mk "yes" 0.5 50); Slept 0]
  ∧ current_market_trades r.1.2 = 0
  ∧ trades_executed r.1.2 = 0.
Proof.
  intros b t r.
  pose proof (open_iteration_changes_only_the_position "btc" 0 t b) as H.
  destruct H as (_ & _ & _ & _ & _ & _ & _ & _ & _ & Htrades & _ & _ & _ & _
                 & Hcount & _).
  { vm_compute. discriminate. }
  split; [by vm_compute|]. split; [by vm_compute|].
  split; [exact Hcount|exact Htrades].
Defined.

(** ** What a scan leaves *)

Lemma bind_inv {A B} (m : M A) (k : A → M B) (b b' : Bot) (r : B)
    (ev : list event) :
  (m ≫= k) b = (Ret r, b', ev) →
  ∃ a b1 ev1 ev2,
    m b = (Ret a, b1, ev1) ∧ k a b1 = (Ret r, b', ev2) ∧ ev = ev1 ++ ev2.
Proof.
  unfold mbind, M_bind.
  destruct (m b) as [[[a|e] b1] ev1]; [|done].
  destruct (k a b1) as [[r2 b2] ev2] eqn:Hk.
  intros [= -> <- <-]. by exists a, b1, ev1, ev2.
Qed.

Lemma choose_side_inv (io : Scan) (q : Prices) (up down : bool) (b b1 : Bot)
    (o : OrderDto.t) (ev : list event) :
  choose_side io q up down b = (Ret (Some o), b1, ev) →
  ∃ quote,
    up || down = true
    ∧ (picked b q up).2 = Some quote
    ∧ b1 = set_order (Some (entry_row (time_stamp io) (picked b q up).1.1
                              quote)) b
    ∧ o = OrderDto.mk (picked b q up).1.2 (Py.round2 quote)
            (Config.order_size (settings b))
    ∧ ev = [].
Proof.
  unfold choose_side, picked. rewrite bind_self.
  destruct up; [|destruct down; [|done]].
  - rewrite bind_assign, bind_lift.
    destruct (best_up q) as [quote|]; [|done].
    intros [= <- <- <-]. by exists quote.
  - rewrite bind_assign, bind_lift.
    destruct (best_down q) as [quote|]; [|done].
    intros [= <- <- <-]. by exists quote.
Qed.

Lemma bind_assoc {A B C} (m : M A) (k1 : A → M B) (k2 : B → M C) (b : Bot) :
  ((m ≫= k1) ≫= k2) b = (m ≫= (λ a, k1 a ≫= k2)) b.
Proof.
  unfold mbind, M_bind.
  destruct (m b) as [[[a|e] b1] ev1]; [|done].
  destruct (k1 a b1) as [[[x|e] b2] ev2]; [|done].
  destruct (k2 x b2) as [[r b3] ev3]. by rewrite app_assoc.
Qed.

Lemma bind_step_silent {A B} (m : M A) (k : A → M B) (b b1 : Bot) (a : A) :
  m b = (Ret a, b1, []) → (m ≫= k) b = k a b1.
Proof.
  intros H. rewrite (bind_step _ _ _ _ _ _ H).
  by destruct (k a b1) as [[r b2] ev2].
Qed.

Lemma order_setitem_run (key : string) (v : pyval) (b : Bot)
    (row : gmap string pyval) :
  order b = Some row →
  order_setitem key v b = (Ret tt, set_order (Some (<[key := v]> row)) b, []).
Proof. intros H. unfold order_setitem. by rewrite bind_self, H. Qed.

Lemma order_setitem_set (key : string) (v : pyval) (b : Bot)
    (row : gmap string pyval) :
  order_setitem key v (set_order (Some row) b)
  = (Ret tt, set_order (Some (<[key := v]> row)) (set_order (Some row) b), []).
Proof. by apply order_setitem_run. Qed.

Lemma size_order_inv (o o' : OrderDto.t) (b1 b2 : Bot) (ev : list event) :
  size_order o b1 = (Ret o', b2, ev) →
  ∃ row row',
    order b1 = Some row
    ∧ b2 = set_order (Some row') b1
    ∧ o' = OrderDto.set_size o (OrderDto.size o')
    ∧ (if (OrderDto.price o * OrderDto.size o <? 1)%float
       then adjust_size (OrderDto.price o) = Ret (OrderDto.size o')
            ∧ row' !! "order_size" = Some (VFloat (OrderDto.size o'))
       else OrderDto.size o' = OrderDto.size o
            ∧ row' !! "order_size"
              = Some (VFloat (Config.order_size (settings b1))))
    ∧ row' !! "cost"
      = Some (VFloat (OrderDto.size o' * OrderDto.price o))
    ∧ (∀ key, key ≠ "order_size" → key ≠ "cost" → row' !! key = row !! key)
    ∧ ev = [].
Proof.
  unfold size_order. rewrite bind_self.
  destruct (order b1) as [row|] eqn:Horder.
  2:{ unfold order_setitem. by rewrite bind_assoc, bind_self, Horder. }
  rewrite (bind_step_silent _ _ _ _ _ (order_setitem_run _ _ _ _ Horder)).
  destruct o as [token price size0]. simpl.
  destruct (_ <? 1)%float.
  - rewrite !bind_assoc, bind_lift.
    destruct (adjust_size price) as [size|]; [|done].
    rewrite bind_assoc.
    rewrite (bind_step_silent _ _ _ _ _ (order_setitem_set _ _ _ _)).
    rewrite bind_mret.
    rewrite (bind_step_silent _ _ _ _ _ (order_setitem_set _ _ _ _)).
    intros [= <- <- <-]. simpl.
    eexists row, _. split; [done|]. split; [reflexivity|].
    split; [done|]. split; [split; [done|]|].
    { by rewrite lookup_insert_ne, lookup_insert_eq. }
    split; [by rewrite lookup_insert_eq|]. split; [|done].
    intros key Hsize Hcost. by rewrite !lookup_insert_ne.
  - rewrite bind_mret.
    rewrite (bind_step_silent _ _ _ _ _ (order_setitem_set _ _ _ _)).
    intros [= <- <- <-]. simpl.
    eexists row, _. split; [done|]. split; [reflexivity|].
    split; [done|]. split; [split; [done|]|].
    { by rewrite lookup_insert_ne, lookup_insert_eq. }
    split; [by rewrite lookup_insert_eq|]. split; [|done].
    intros key Hsize Hcost. by rewrite !lookup_insert_ne.
Qed.

Lemma submit_order_inv (io : Scan) (o : OrderDto.t) (b b' : Bot) (r : bool)
    (ev : list event) :
  submit_order io o b = (Ret r, b', ev) →
  Config.dry_run (settings b) = true
  ∧ r = true ∧ b' = set_is_performed true b ∧ ev = []
  ∨ Config.dry_run (settings b) = false
    ∧ ∃ results,
        execute_market_buy (backend io) o = Ret results
        ∧ (omap id results = []
           ∧ r = true ∧ b' = set_is_performed true b ∧ ev = [MarketBuy o]
           ∨ omap id results ≠ []
             ∧ r = false ∧ b' = b
             ∧ ev = MarketBuy o :: map ErrorLogged (omap id results)).
Proof.
  unfold submit_order. rewrite bind_self.
  destruct (Config.dry_run (settings b)); simpl.
  - rewrite bind_assign. intros [= <- <- <-]. by left.
  - rewrite bind_emit, bind_lift.
    destruct (execute_market_buy (backend io) o) as [results|]; [|done].
    intros H. right. split; [done|]. exists results. split; [done|].
    destruct (omap id results) as [|msg errors] eqn:Herrors.
    + rewrite bind_assign in H. injection H as <- <- <-. by left.
    + unfold mbind at 1, M_bind at 1 in H. rewrite log_errors in H.
      injection H as <- <- <-. right. by rewrite app_nil_r.
Qed.

Lemma choose_side_none (io : Scan) (q : Prices) (up down : bool) (b b1 : Bot)
    (ev : list event) :
  choose_side io q up down b = (Ret None, b1, ev) →
  up = false ∧ down = false.
Proof.
  unfold choose_side. rewrite bind_self.
  destruct up; [|destruct down; [|done]];
    rewrite bind_assign, bind_lift;
    by match goal with |- context [OrderDto.new _ ?p _] => destruct p end.
Qed.

(** What a scan that returns went through: it stopped before choosing a
    side and changed nothing (before it read the quotes, or after their
    pauses), or it chose one, wrote the row of the order and handed the
    order to [submit_order]. *)
Lemma run_once_inv (io : Scan) (b b' : Bot) (r : bool) (ev : list event) :
  run_once io b = (Ret r, b', ev) →
  r = false ∧ b' = b ∧ (ev = [] ∨ ev = pauses_of (quotes io))
  ∨ ∃ pu pd quote o row ev',
      let q := prices_of (quotes io) in
      let side := picked b q (signal_up b pu) in
      price_up q = Some pu ∧ price_down q = Some pd
      ∧ signal_up b pu || signal_down b pd = true
      ∧ side.2 = Some quote
      ∧ OrderDto.token_id o = side.1.2
      ∧ OrderDto.price o = Py.round2 quote
      ∧ submitted_size quote (Config.order_size (settings b))
        = Ret (OrderDto.size o)
      ∧ row !! "time_stamp" = Some (VStr (time_stamp io))
      ∧ row !! "direction" = Some (VStr side.1.1)
      ∧ row !! "entry_price" = Some (VFloat quote)
      ∧ row !! "order_size" = Some (VFloat (OrderDto.size o))
      ∧ row !! "cost"
        = Some (VFloat (OrderDto.size o * OrderDto.price o))
      ∧ row !! "stoploss_price" = None
      ∧ submit_order io o (set_order (Some row) b) = (Ret r, b', ev')
      ∧ ev = pauses_of (quotes io) ++ ev'.
Proof.
  unfold run_once. rewrite bind_self.
  destruct (String.eqb _ "CLOSED"); [intros [= <- <- <-]; left; by auto|].
  destruct (String.eqb _ "CLOSED"); [intros [= <- <- <-]; left; by auto|].
  intros (? & ? & ? & ev0 & [= <- <- <-] & Hrest & ->)%bind_inv.
  revert Hrest.
  rewrite !number_lift, bind_lift.
  destruct (price_up _) as [pu|] eqn:Hpu; [|done].
  rewrite bind_lift.
  destruct (price_down _) as [pd|] eqn:Hpd; [|done].
  fold (signal_up b pu). fold (signal_down b pd).
  destruct (signal_up b pu || signal_down b pd) eqn:Hsignal;
    [|intros [= <- <- <-]; left; rewrite app_nil_r; by auto].
  intros (chosen & b1 & ev1 & ev2 & Hchoose & Hrest & ->)%bind_inv.
  destruct chosen as [o1|];
    [|apply choose_side_none in Hchoose as [Hup Hdown];
      by rewrite Hup, Hdown in Hsignal].
  apply choose_side_inv in Hchoose as (quote & _ & Hquote & -> & -> & ->).
  apply bind_inv in Hrest as (o2 & b2 & ev3 & ev4 & Hsize & Hsubmit & ->).
  apply size_order_inv in Hsize
    as (row & row' & [= <-] & -> & Ho2 & Hsized & Hcost & Hrest & ->).
  right. exists pu, pd, quote, o2, row', ev4. simpl in *.
  rewrite Ho2 in Hsubmit |- *. simpl in *.
  split; [done|]. split; [done|]. split; [done|]. split; [done|].
  split; [done|]. split; [done|].
  assert (Hsubmitted :
    submitted_size quote (Config.order_size (settings b))
    = Ret (OrderDto.size o2)
    ∧ row' !! "order_size" = Some (VFloat (OrderDto.size o2))).
  { unfold submitted_size. simpl.
    destruct (_ <? 1)%float; destruct Hsized as [Hs Hrow]; [done|].
    by rewrite Hs. }
  destruct Hsubmitted as [Hsubmitted Hrow].
  split; [done|].
  split; [by rewrite Hrest|]. split; [by rewrite Hrest|].
  split; [by rewrite Hrest|]. split; [done|]. split; [done|].
  split; [by rewrite Hrest|]. split; [exact Hsubmit|done].
Qed.

(** The row a scan wrote is one [show_final_summary] can write out: the
    profit column is [order_size * (1 - entry_price)] while no stop-loss
    price is in the row. *)
Lemma show_final_summary_row (quoted : nat → option Prices) (b : Bot)
    (row : gmap string pyval) (quote size cost : float) :
  order b = Some row →
  row !! "entry_price" = Some (VFloat quote) →
  row !! "order_size" = Some (VFloat size) →
  row !! "cost" = Some (VFloat cost) →
  row !! "stoploss_price" = None →
  show_final_summary quoted b
  = (Ret tt, b,
     pauses_of quoted
     ++ [Summary (market_slug b) (winner (prices_of quoted)) row
           (size * (1 - quote))]).
Proof.
  intros Horder Hentry Hsize Hcost Hstop.
  unfold show_final_summary, get_market_result.
  rewrite bind_self, bind_assoc, bind_quotes, bind_mret, Horder.
  unfold after, get_number. by rewrite Hcost, Hsize, Hentry, Hstop.
Qed.

(** X13: when [run_once] returns [True] a position is open and its row is
    complete: [is_performed] is set and [self.order] holds the best ask of
    the side bought as [entry_price] (not rounded), the size submitted as
    [order_size], and their cost at the price rounded to cents; at the
    close [show_final_summary] writes that row without raising (after the
    pauses of reading the final prices), with
    [order_size * (1 - entry_price)] for the profit whatever side won. *)
Theorem opened_position_reaches_the_ledger (io : Scan) (b b' : Bot)
    (ev : list event) :
  run_once io b = (Ret true, b', ev) →
  ∃ row quote size,
    is_performed b' = true
    ∧ order b' = Some row
    ∧ (best_up (prices_of (quotes io)) = Some quote
       ∨ best_down (prices_of (quotes io)) = Some quote)
    ∧ submitted_size quote (Config.order_size (settings b)) = Ret size
    ∧ row !! "entry_price" = Some (VFloat quote)
    ∧ row !! "order_size" = Some (VFloat size)
    ∧ row !! "cost" = Some (VFloat (size * Py.round2 quote))
    ∧ ∀ quoted,
        show_final_summary quoted b'
        = (Ret tt, b',
           pauses_of quoted
           ++ [Summary (market_slug b) (winner (prices_of quoted)) row
                 (size * (1 - quote))]).
Proof.
  intros [(? & _)|(pu & pd & quote & o & row & ev' & _ & _ & _ & Hquote & _
                   & Hprice & Hsize & _ & _ & Hentry & Hrow & Hcost & Hstop
                   & Hsubmit & _)]%run_once_inv; [done|].
  assert (Hb' : b' = set_is_performed true (set_order (Some row) b)).
  { apply submit_order_inv in Hsubmit
      as [(_ & _ & -> & _)|(_ & results & _ & [(_ & _ & -> & _)|(_ & ? & _)])];
      done. }
  subst b'. exists row, quote, (OrderDto.size o).
  split; [done|]. split; [done|]. split.
  { unfold picked in Hquote. destruct (signal_up b pu); [by left|by right]. }
  split; [done|]. split; [done|]. split; [done|].
  split; [by rewrite <- Hprice|].
  intros quoted.
  pose proof (show_final_summary_row quoted
                (set_is_performed true (set_order (Some row) b)) row quote
                (OrderDto.size o) (OrderDto.size o * OrderDto.price o)
                eq_refl Hentry Hrow Hcost Hstop) as Hsummary.
  exact Hsummary.
Qed.

Lemma opened_position_reaches_the_ledger_witness :
  let b := Sample.bot_1000 (Sample.settings_with 60 0.10 0 0 false) in
  let t := Sample.tick 1100 (Sample.quoting 0.50 0.50 100 100 0.456 0.55) in
  let row := <["cost" := VFloat (50 * 0.46)]> (
             <["order_size" := VFloat 50]> (
             entry_row "1100.5" "UP" 0.456)) in
  let b' := set_is_performed true (set_order (Some row) b) in
  run_once (scan t) b = (Ret true, b', [MarketBuy (OrderDto.mk "yes" 0.46 50)])
  ∧ ∃ row' quote size,
      order b' = Some row'
      ∧ row' !! "entry_price" = Some (VFloat quote)
      ∧ row' !! "cost" = Some (VFloat (size * Py.round2 quote))
      ∧ show_final_summary (Sample.quoting 0.01 0.99 100 100 0.01 0.99) b'
        = (Ret tt, b',
           [Summary "btc-updown-5m-1000" (Some "DOWN") row'
              (size * (1 - quote))]).
Proof.
  intros b t row b'.
  assert (Hrun : run_once (scan t) b
                 = (Ret true, b', [MarketBuy (OrderDto.mk "yes" 0.46 50)]))
    by (vm_compute; reflexivity).
  split; [exact Hrun|].
  destruct (opened_position_reaches_the_ledger _ _ _ _ Hrun)
    as (row' & quote & size & _ & Horder & _ & _ & Hentry & _ & Hcost
        & Hsummary).
  exists row', quote, size. split; [done|]. split; [done|]. split; [done|].
  apply Hsummary.
Defined.

(** X14: a scan that returns [False] either changed nothing and did
    nothing to the outside but pause between failed attempts to read the
    quotes (market closed, window not open, or no signal), or it handed an
    order to the backend in live mode and the backend answered with errors:
    each error is logged after the submission, [is_performed] stays as it
    was, and [self.order] keeps the row of the order that was refused,
    which [show_final_summary] then writes out at the close like that of a
    position. *)
Theorem scan_that_opens_nothing (io : Scan) (b b' : Bot) (ev : list event) :
  run_once io b = (Ret false, b', ev) →
  b' = b ∧ (ev = [] ∨ ev = pauses_of (quotes io))
  ∨ Config.dry_run (settings b) = false
    ∧ same_market b b'
    ∧ is_performed b' = is_performed b
    ∧ is_finished b' = is_finished b
    ∧ ∃ o errors row,
        errors ≠ []
        ∧ ev = pauses_of (quotes io) ++ MarketBuy o :: map ErrorLogged errors
        ∧ order b' = Some row
        ∧ ∀ quoted, ∃ pnl,
            show_final_summary quoted b'
            = (Ret tt, b',
               pauses_of quoted
               ++ [Summary (market_slug b) (winner (prices_of quoted)) row
                     pnl]).
Proof.
  intros [(_ & -> & Hev)|(pu & pd & quote & o & row & ev' & _ & _ & _ & Hquote
                          & _ & Hprice & Hsize & _ & _ & Hentry & Hrow & Hcost
                          & Hstop & Hsubmit & ->)]%run_once_inv; [by left|].
  right.
  apply submit_order_inv in Hsubmit
    as [(_ & ? & _)|(Hdry & results & _ & [(_ & ? & _)|(Herr & _ & -> & ->)])];
    try done.
  split; [done|]. split; [by repeat split|]. split; [done|]. split; [done|].
  exists o, (omap id results), row. split; [done|]. split; [done|].
  split; [done|]. intros quoted. eexists.
  exact (show_final_summary_row quoted (set_order (Some row) b) row quote
           (OrderDto.size o) (OrderDto.size o * OrderDto.price o)
           eq_refl Hentry Hrow Hcost Hstop).
Qed.

Lemma scan_that_opens_nothing_witness :
  let b := Sample.bot_1000 (Sample.settings_with 60 0.10 0 0 false) in
  let io := Scenario.refused 1100 (Sample.quoting 0.50 0.50 100 100 0.50 0.50) in
  let row := <["cost" := VFloat (50 * 0.5)]> (
             <["order_size" := VFloat 50]> (
             entry_row "1100.5" "UP" 0.5)) in
  run_once io b
  = (Ret false, set_order (Some row) b,
     [MarketBuy (OrderDto.mk "yes" 0.5 50); ErrorLogged "not enough balance"])
  ∧ ∃ pnl,
      show_final_summary (Sample.quoting 0.01 0.99 100 100 0.01 0.99)
        (set_order (Some row) b)
      = (Ret tt, set_order (Some row) b,
         [Summary "btc-updown-5m-1000" (Some "DOWN") row pnl]).
Proof.
  intros b io row.
  assert (Hrun : run_once io b
    = (Ret false, set_order (Some row) b,
       [MarketBuy (OrderDto.mk "yes" 0.5 50);
        ErrorLogged "not enough balance"])) by (vm_compute; reflexivity).
  split; [exact Hrun|].
  destruct (scan_that_opens_nothing _ _ _ _ Hrun)
    as [[Hb _]|(_ & _ & _ & _ & o & errors & row' & _ & _ & Horder & Hsummary)].
  { exfalso. assert (H := f_equal order Hb). discriminate H. }
  injection Horder as <-.
  destruct (Hsummary (Sample.quoting 0.01 0.99 100 100 0.01 0.99)) as [pnl H].
  exists pnl. exact H.
Defined.

(** ** One position per market *)

Lemma watch_stoploss_performed (quoted : nat → option Prices) (b : Bot) :
  is_performed (watch_stoploss quoted b).1.2 = is_performed b.
Proof.
  unfold watch_stoploss. rewrite bind_self, bind_quotes, after_state.
  destruct (order b) as [row|] eqn:Horder; [|done].
  rewrite bind_mret.
  destruct (held_price row _) as [stoploss_price|]; [|done].
  unfold get_number.
  destruct (row !! "entry_price") as [[| |z|x]|];
    try done; rewrite bind_mret, bind_lift;
    (destruct (Config.getattr _ _) as [[| |z'|x']|]; try done;
     rewrite ?bind_raise, ?bind_mret; try done;
     (destruct (_ <=? _)%float; [|done];
      by rewrite (bind_step_silent _ _ _ _ _
                    (order_setitem_run _ _ _ _ Horder)))).
Qed.

Lemma run_once_opened (io : Scan) (b b' : Bot) (ev : list event) :
  run_once io b = (Ret true, b', ev) → is_performed b' = true.
Proof.
  intros [(? & _)|(pu & pd & quote & o & row & ev' & _ & _ & _ & _ & _ & _
                   & _ & _ & _ & _ & _ & _ & _ & Hsubmit & _)]%run_once_inv;
    [done|].
  apply submit_order_inv in Hsubmit
    as [(_ & _ & -> & _)|(_ & results & _ & [(_ & _ & -> & _)|(_ & ? & _)])];
    done.
Qed.

(** The branches of an iteration on an open market. *)
Lemma monitor_step_open (symbol : string) (interval : Z) (t : Tick)
    (b b1 : Bot) (taken : branch) (ev : list event) :
  get_time_remaining b (now t) ≠ "CLOSED" →
  monitor_step symbol interval t b = (Ret taken, b1, ev) →
  is_finished b = true ∧ taken = Stopped ∧ b1 = b ∧ ev = []
  ∨ is_finished b = false ∧ is_performed b = true ∧ taken = Watching
    ∧ watch_stoploss (quoted t) b = (Ret tt, b1, ev)
  ∨ is_finished b = false ∧ is_performed b = false
    ∧ (taken = AwaitingWindow ∧ b1 = set_is_performed_informed true b
       ∧ ev = []
       ∨ ∃ opened ev0,
           taken = Scanned opened
           ∧ run_once (scan t) b = (Ret opened, b1, ev0)
           ∧ ev = ev0 ++ [Slept interval]).
Proof.
  intros Hopen. unfold monitor_step. rewrite bind_self.
  rewrite (eqb_closed_false _ Hopen).
  destruct (is_finished b); [intros [= <- <- <-]; by left|].
  destruct (is_performed b).
  { intros ([] & b2 & ev1 & ev2 & Hwatch & [= <- <- <-] & ->)%bind_inv.
    right. left. by rewrite app_nil_r. }
  destruct (String.eqb _ "CLOSED").
  { rewrite bind_assign. intros [= <- <- <-].
    right. right. split; [done|]. split; [done|]. by left. }
  intros (opened & b2 & ev1 & ev2 & Hrun & Hrest & ->)%bind_inv.
  rewrite bind_emit in Hrest. injection Hrest as <- <- <-.
  right. right. split; [done|]. split; [done|].
  right. by exists opened, ev1.
Qed.

(** While a position is held on an open market, an iteration that returns
    watches it or is stopped, and the position stays. *)
Lemma holding_step (symbol : string) (interval : Z) (t : Tick) (b b1 : Bot)
    (taken : branch) (ev : list event) :
  get_time_remaining b (now t) ≠ "CLOSED" →
  is_performed b = true →
  monitor_step symbol interval t b = (Ret taken, b1, ev) →
  holding taken ∧ is_performed b1 = true.
Proof.
  intros Hopen Hperf Hstep.
  apply (monitor_step_open _ _ _ _ _ _ _ Hopen) in Hstep
    as [(_ & -> & -> & _)|[(_ & _ & -> & Hwatch)|(_ & Hno & _)]].
  - split; [by left|done].
  - split; [by right|].
    pose proof (watch_stoploss_performed (quoted t) b) as H.
    rewrite Hwatch in H. simpl in H. congruence.
  - congruence.
Qed.

Lemma holding_run (symbol : string) (interval : Z) (ticks : list Tick)
    (b b' : Bot) (taken : list branch) (ev : list event) (close : Z) :
  market_end_timestamp b = Some close → close ≠ 0 →
  Forall (λ t, now t < close) ticks →
  is_performed b = true →
  monitor_run symbol interval ticks b = (Ret taken, b', ev) →
  Forall holding taken.
Proof.
  intros Hend Hnz Hticks. revert b taken ev Hend.
  induction Hticks as [|t ticks Ht Hticks IH]; intros b taken ev Hend Hperf.
  { intros [= <- _ _]. constructor. }
  simpl.
  intros (first & b1 & ev1 & ev2 & Hstep & Hrest & ->)%bind_inv.
  apply bind_inv in Hrest
    as (later & b2 & ev3 & ev4 & Hrun & [= <- <- <-] & ->).
  assert (Hopen : get_time_remaining b (now t) ≠ "CLOSED").
  { rewrite (time_remaining_closed b close) by done. lia. }
  pose proof (open_step_same_market symbol interval t b Hopen) as Hsame.
  rewrite Hstep in Hsame. simpl in Hsame.
  destruct Hsame as (_ & _ & _ & _ & _ & _ & Hend1 & _).
  destruct (holding_step _ _ _ _ _ _ _ Hopen Hperf Hstep) as [Hfirst Hperf1].
  constructor; [done|].
  eapply (IH b1); [by rewrite Hend1|done|done].
Qed.

(** X15: on an open market a position is opened at most once: in any run
    of iterations of [monitor] before the close, after the scan that
    returned [True] every iteration watches the position or is stopped;
    none scans again, so no second order is submitted for that market. *)
Theorem one_position_per_market (symbol : string) (interval : Z)
    (ticks : list Tick) (b b' : Bot) (taken : list branch)
    (ev : list event) (close : Z) :
  market_end_timestamp b = Some close → close ≠ 0 →
  Forall (λ t, now t < close) ticks →
  monitor_run symbol interval ticks b = (Ret taken, b', ev) →
  ∀ before after,
    taken = before ++ Scanned true :: after → Forall holding after.
Proof.
  intros Hend Hnz Hticks. revert b taken ev Hend.
  induction Hticks as [|t ticks Ht Hticks IH]; intros b taken ev Hend.
  { intros [= <- _ _] [|??] ? ?; discriminate. }
  simpl.
  intros (first & b1 & ev1 & ev2 & Hstep & Hrest & ->)%bind_inv.
  apply bind_inv in Hrest
    as (later & b2 & ev3 & ev4 & Hrun & [= <- <- <-] & ->).
  assert (Hopen : get_time_remaining b (now t) ≠ "CLOSED").
  { rewrite (time_remaining_closed b close) by done. lia. }
  pose proof (open_step_same_market symbol interval t b Hopen) as Hsame.
  rewrite Hstep in Hsame. simpl in Hsame.
  destruct Hsame as (_ & _ & _ & _ & _ & _ & Hend1 & _).
  rewrite <- Hend1 in Hend.
  intros [|x before] after; simpl; intros [= -> ->].
  - apply (monitor_step_open _ _ _ _ _ _ _ Hopen) in Hstep
      as [(_ & ? & _)|[(_ & _ & ? & _)|(_ & _ & [(? & _)|Hscan])]];
      [done..|].
    destruct Hscan as (opened & ev0 & [= <-] & Hscan & _).
    apply run_once_opened in Hscan.
    by eapply (holding_run symbol interval ticks b1).
  - by eapply (IH b1).
Qed.

Lemma one_position_per_market_witness :
  let b := Sample.bot_1000 (Sample.settings_with 60 0.10 0 0 false) in
  let q := Sample.quoting 0.50 0.50 100 100 0.50 0.50 in
  let ticks := [Sample.tick 1100 q; Sample.tick 1110 q; Sample.tick 1120 q] in
  (monitor_run "btc" 10 ticks b).1.1
  = Ret [Scanned true; Watching; Watching]
  ∧ (monitor_run "btc" 10 ticks b).2
    = [MarketBuy (OrderDto.mk "yes" 0.5 50); Slept 10]
  ∧ Forall holding [Watching; Watching].
Proof.
  intros b q ticks.
  destruct (monitor_run "btc" 10 ticks b) as [[r b'] ev] eqn:Hrun.
  assert (Hr : r = Ret [Scanned true; Watching; Watching]
               ∧ ev = [MarketBuy (OrderDto.mk "yes" 0.5 50); Slept 10]).
  { assert (H := f_equal (λ x, (x.1.1, x.2)) Hrun). simpl in H.
    vm_compute in H. by injection H as <- <-. }
  destruct Hr as [-> ->]. split; [done|]. split; [done|].
  eapply (one_position_per_market "btc" 10 ticks b b' _ _ 1300)
    with (before := []); [reflexivity|done| |exact Hrun|reflexivity].
  repeat constructor; simpl; lia.
Defined.

(** ** Pauses *)

Lemma emits_bind {A B} (P : event → Prop) (m : M A) (k : A → M B) :
  emits P m → (∀ a, emits P (k a)) → emits P (m ≫= k).
Proof.
  intros Hm Hk b e [H|(a & b1 & ev & _ & H)]%bind_event_inv.
  - by apply (Hm b).
  - by apply (Hk a b1).
Qed.

Lemma emits_silent {A} (P : event → Prop) (m : M A) : silent m → emits P m.
Proof. intros Hm b e. rewrite Hm. by intros ?%elem_of_nil. Qed.

Lemma emits_emit (P : event → Prop) (e : event) : P e → emits P (emit e).
Proof. intros He b e' ->%list_elem_of_singleton. done. Qed.

Lemma emits_log_errors (errors : list string) :
  emits retry_sleep (mapM (λ msg, emit (ErrorLogged msg)) errors).
Proof.
  intros b e. rewrite log_errors. simpl.
  by intros (msg & -> & _)%list_elem_of_fmap.
Qed.

Lemma emits_quotes (quotes : nat → option Prices) :
  emits retry_sleep (get_current_prices quotes).
Proof. intros b e ->%pauses_of_slept. reflexivity. Qed.

Ltac emitting :=
  repeat first
    [ apply emits_bind; [|intros ?]
    | apply emits_emit; exact I
    | apply emits_log_errors
    | apply emits_quotes
    | apply emits_silent;
      first [ apply silent_mret | apply silent_raise | apply silent_lift
            | apply silent_assign | apply silent_self
            | apply choose_side_silent | apply size_order_silent ]
    | progress unfold get_number, number, order_setitem
    | case_match ].

Lemma run_once_sleeps (io : Scan) : emits retry_sleep (run_once io).
Proof. unfold run_once, submit_order. emitting. Qed.

Lemma show_final_summary_sleeps (quoted : nat → option Prices) :
  emits retry_sleep (show_final_summary quoted).
Proof. unfold show_final_summary, get_market_result. emitting. Qed.

Lemma watch_stoploss_sleeps (quoted : nat → option Prices) :
  emits retry_sleep (watch_stoploss quoted).
Proof. unfold watch_stoploss. emitting. Qed.

Lemma init_silent (settings : Config.Settings) (symbol : string)
    (w : Construction) :
  silent (init settings symbol w).
Proof. unfold init. silence. Qed.

(** The search for the next market never raises and emits nothing. *)
Lemma rotate_run (symbol : string) (t : Tick) (b : Bot) :
  ∃ rotated b', rotate symbol t b = (Ret rotated, b', []).
Proof.
  unfold rotate.
  match goal with |- context [match ?m b with _ => _ end] =>
    assert (Hs : silent m);
    [|specialize (Hs b); destruct (m b) as [[[rotated|e] b'] ev];
      simpl in Hs; subst ev; by eexists _, _]
  end.
  apply silent_bind; [apply silent_lift|]. intros slug.
  destruct (String.eqb slug _); [apply silent_mret|].
  apply silent_bind; [apply init_silent|]. intros ?. apply silent_mret.
Qed.

(** X16: an iteration of [monitor] makes its own pause in two places only,
    as the last thing it does: 30 seconds when the market is closed and no
    new one was taken up, and [interval_seconds] after a scan that
    returned.  Whatever else sleeps in an iteration is the one-second
    [time.sleep] between failed attempts of [get_current_prices] (which the
    summary at the close, the stop-loss check and the scan call); the
    iterations that are stopped or wait for the strategy window do nothing
    to the outside.  (The settings' [strategy_start_timestamp] is taken to
    be no float: a re-initialisation at the close is followed that far.) *)
Theorem iteration_pauses (symbol : string) (interval : Z) (t : Tick)
    (b : Bot) :
  whole_offset (settings b) = true →
  let r := monitor_step symbol interval t b in
  (∃ body, r.2 = body ++ loop_pause interval r.1.1
           ∧ ∀ seconds, Slept seconds ∈ body → seconds = 1)
  ∧ (r.1.1 = Ret Stopped ∨ r.1.1 = Ret AwaitingWindow → r.2 = []).
Proof.
  intros _ r. subst r. unfold monitor_step. rewrite bind_self.
  destruct (String.eqb _ "CLOSED").
  - pose proof (show_final_summary_sleeps (quoted t) b) as Hsummary.
    destruct (show_final_summary (quoted t) b) as [[[[]|e] b1] ev1] eqn:Hs;
      simpl in Hsummary.
    2:{ rewrite (bind_step_raise _ _ _ _ _ _ Hs). simpl.
        split; [|by intros [|]]. exists ev1. rewrite app_nil_r.
        split; [done|]. intros seconds Hin. exact (Hsummary _ Hin). }
    rewrite (bind_step _ _ _ _ _ _ Hs), !bind_assign.
    match goal with |- context [(rotate symbol t ≫= _) ?b2] =>
      destruct (rotate_run symbol t b2) as (rotated & b3 & Hrotate) end.
    rewrite (bind_step_silent _ _ _ _ _ Hrotate).
    destruct rotated; [|rewrite bind_emit]; simpl.
    + split; [|by intros [|]]. exists ev1. rewrite !app_nil_r.
      split; [done|]. intros seconds Hin. exact (Hsummary _ Hin).
    + split; [|by intros [|]]. exists ev1.
      split; [done|]. intros seconds Hin. exact (Hsummary _ Hin).
  - destruct (is_finished b).
    { simpl. split; [|done]. exists []. split; [done|]. by intros ? ?%elem_of_nil. }
    destruct (is_performed b).
    { pose proof (watch_stoploss_sleeps (quoted t) b) as Hwatch.
      destruct (watch_stoploss (quoted t) b) as [[[[]|e] b1] ev1] eqn:Hw;
        simpl in Hwatch.
      - rewrite (bind_step _ _ _ _ _ _ Hw). simpl.
        split; [|by intros [|]]. exists ev1. rewrite !app_nil_r.
        split; [done|]. intros seconds Hin. exact (Hwatch _ Hin).
      - rewrite (bind_step_raise _ _ _ _ _ _ Hw). simpl.
        split; [|by intros [|]]. exists ev1. rewrite app_nil_r.
        split; [done|]. intros seconds Hin. exact (Hwatch _ Hin). }
    destruct (String.eqb _ "CLOSED").
    { rewrite bind_assign. simpl. split; [|done]. exists [].
      split; [done|]. by intros ? ?%elem_of_nil. }
    pose proof (run_once_sleeps (scan t) b) as Hscan.
    destruct (run_once (scan t) b) as [[[opened|e] b1] ev1] eqn:Hrun;
      simpl in Hscan.
    + rewrite (bind_step _ _ _ _ _ _ Hrun), bind_emit. simpl.
      split; [|by intros [|]]. exists ev1.
      split; [done|]. intros seconds Hin. exact (Hscan _ Hin).
    + rewrite (bind_step_raise _ _ _ _ _ _ Hrun). simpl.
      split; [|by intros [|]]. exists ev1. rewrite app_nil_r.
      split; [done|]. intros seconds Hin. exact (Hscan _ Hin).
Qed.

Lemma iteration_pauses_witness :
  let b := Sample.holding_up (Sample.settings_with 60 0.10 0 0 false) in
  let q := Sample.quoting 0.50 0.50 100 100 0.50 0.50 in
  let slow := λ attempt : nat, if (attempt <? 2)%nat then None else q attempt in
  (monitor_step "btc" 10 (Sample.tick 1100 q) b).2 = []
  ∧ (monitor_step "btc" 10 (Sample.tick 1100 slow) b).2 = [Slept 1]
  ∧ (monitor_step "btc" 10 (Sample.tick 1300 q) b).1.1 = Ret AwaitingMarket
  ∧ ∃ body, (monitor_step "btc" 10 (Sample.tick 1300 slow) b).2
            = body ++ [Slept 30]
            ∧ ∀ seconds, Slept seconds ∈ body → seconds = 1.
Proof.
  intros b q slow.
  destruct (iteration_pauses "btc" 10 (Sample.tick 1300 slow) b)
    as [(body & Hbody & Hshort) _]; [reflexivity|].
  split; [by vm_compute|]. split; [by vm_compute|]. split; [by vm_compute|].
  exists body. split; [exact Hbody|exact Hshort].
Defined.

(** ** The iteration at the close *)

(** Where an [__init__] that raises leaves the bot: with the settings
    stored, and then, as far as it got, the position cleared and the ids of
    the market it fetched. *)
Lemma init_raise_state (settings : Config.Settings) (symbol : string)
    (w : Construction) (b b' : Bot) (e : exn) (ev : list event) :
  init settings symbol w b = (Raise e, b', ev) →
  let stored := set_settings settings b in
  b' = stored ∨ b' = without_position stored
  ∨ ∃ slug info,
      resolve_slug settings symbol (discovery w) = Ret slug
      ∧ fetch_market_from_slug w slug = Ret info
      ∧ b' = with_ids info (without_position stored).
Proof.
  unfold init. rewrite bind_assign, bind_lift.
  destruct (get_client _ settings _) as [[]|];
    [|intros [= _ <- _]; by left].
  rewrite !bind_assign, bind_lift.
  destruct (resolve_slug settings symbol _) as [slug|];
    [|intros [= _ <- _]; right; by left].
  rewrite bind_lift.
  destruct (fetch_market_from_slug w slug) as [info|] eqn:Hfetch;
    [|intros [= _ <- _]; right; by left].
  rewrite !bind_assign, bind_lift.
  destruct (Config.getattr settings _) as [offset|];
    [|intros [= _ <- _]; right; right; by exists slug, info].
  destruct (search_number _ slug) as [start|], offset as [|?|z|?];
    rewrite ?bind_raise, ?bind_mret, ?bind_assign;
    intros [= _ <- _]; right; right; by exists slug, info.
Qed.

Lemma set_settings_same (b : Bot) : set_settings (settings b) b = b.
Proof. by destruct b. Qed.

Lemma without_position_idemp (b : Bot) :
  without_position (without_position b) = without_position b.
Proof. by destruct b. Qed.

(** What the search for the next market leaves: the bot re-initialised, or
    the bot as it was, or the position cleared, or the position cleared and
    the ids of the market a failing [__init__] fetched. *)
Lemma rotate_state (symbol : string) (t : Tick) (b b' : Bot) (rotated : bool)
    (ev : list event) :
  rotate symbol t b = (Ret rotated, b', ev) →
  if rotated
  then init (settings b) symbol (reconstruction t) b = (Ret tt, b', [])
  else b' = b ∨ b' = without_position b
       ∨ ∃ slug info,
           resolve_slug (settings b) symbol (discovery (reconstruction t))
           = Ret slug
           ∧ fetch_market_from_slug (reconstruction t) slug = Ret info
           ∧ b' = with_ids info (without_position b).
Proof.
  unfold rotate. rewrite bind_lift.
  destruct (find_current_5min_market symbol _) as [slug|];
    [|intros [= <- <- _]; by left].
  destruct (String.eqb slug (market_slug b));
    [intros [= <- <- _]; by left|].
  pose proof (init_silent (settings b) symbol (reconstruction t) b) as Hs.
  destruct (init _ symbol _ b) as [[[[]|e] b1] ev1] eqn:Hinit;
    simpl in Hs; subst ev1.
  - rewrite (bind_step_silent _ _ _ _ _ Hinit). by intros [= <- <- _].
  - rewrite (bind_step_raise _ _ _ _ _ _ Hinit). intros [= <- <- _].
    apply init_raise_state in Hinit. rewrite set_settings_same in Hinit.
    destruct Hinit as [->|[->|(slug' & info & Hslug & Hfetch & ->)]];
      [by left|right; by left|].
    right; right. by exists slug', info.
Qed.

(** X17: an iteration on a closed market that returns has written the
    ledger row (if an order was held) and left no position: [is_performed],
    [is_performed_informed] and [is_finished] are cleared and [self.order]
    is [None].  It either re-initialised the bot on another slug
    ([__init__] returned), or it paused 30 seconds under the slug and the
    end timestamp of the closed market, so that the next iteration finds the
    market closed too.  In that case the bot is the one before the
    iteration without its position, but for one thing: a re-initialisation
    that fetched a market and raised after it (at line 121) has left the
    ids of the market it fetched, under the old slug.  (The settings'
    [strategy_start_timestamp] is taken to be no float: a re-initialisation
    is followed that far.) *)
Theorem close_clears_the_position (symbol : string) (interval : Z) (t : Tick)
    (b b' : Bot) (taken : branch) (ev : list event) :
  whole_offset (settings b) = true →
  get_time_remaining b (now t) = "CLOSED" →
  monitor_step symbol interval t b = (Ret taken, b', ev) →
  is_performed b' = false ∧ is_performed_informed b' = false
  ∧ is_finished b' = false ∧ order b' = None
  ∧ (taken = Rotated
     ∧ (∃ b0, init (settings b) symbol (reconstruction t) b0 = (Ret tt, b', []))
     ∧ ev = (show_final_summary (quoted t) b).2
     ∨ taken = AwaitingMarket
       ∧ market_slug b' = market_slug b
       ∧ market_end_timestamp b' = market_end_timestamp b
       ∧ ev = (show_final_summary (quoted t) b).2 ++ [Slept 30]
       ∧ (b' = without_position b
          ∨ ∃ slug info,
              resolve_slug (settings b) symbol (discovery (reconstruction t))
              = Ret slug
              ∧ fetch_market_from_slug (reconstruction t) slug = Ret info
              ∧ b' = with_ids info (without_position b))).
Proof.
  intros _ Hclosed. unfold monitor_step. rewrite bind_self, Hclosed. simpl.
  pose proof (show_final_summary_self (quoted t) b) as Hself.
  destruct (show_final_summary (quoted t) b) as [[[[]|e] b1] ev1] eqn:Hs;
    simpl in Hself; subst b1.
  2:{ by rewrite (bind_step_raise _ _ _ _ _ _ Hs). }
  rewrite (bind_step _ _ _ _ _ _ Hs), !bind_assign.
  fold (without_position b).
  destruct (rotate_run symbol t (without_position b))
    as (rotated & b3 & Hrotate).
  pose proof (rotate_state _ _ _ _ _ _ Hrotate) as Hstate.
  rewrite (bind_step_silent _ _ _ _ _ Hrotate).
  destruct rotated.
  - intros [= <- <- <-]. simpl in Hstate.
    pose proof Hstate as Hinit.
    apply init_inv in Hinit as (? & ? & ? & ? & _ & _ & _ & _ & _ & -> & _).
    simpl. repeat (split; [done|]). left. split; [done|].
    split; [by eexists|]. by rewrite app_nil_r.
  - rewrite bind_emit. intros [= <- <- <-].
    rewrite without_position_idemp in Hstate.
    assert (Hsettings : settings (without_position b) = settings b) by done.
    rewrite Hsettings in Hstate.
    assert (Hb3 : b3 = without_position b
                  ∨ ∃ slug info,
                      resolve_slug (settings b) symbol
                        (discovery (reconstruction t)) = Ret slug
                      ∧ fetch_market_from_slug (reconstruction t) slug
                        = Ret info
                      ∧ b3 = with_ids info (without_position b)).
    { destruct Hstate as [->|[->|H]]; [by left..|by right]. }
    clear Hstate.
    assert (Hflat : is_performed b3 = false ∧ is_performed_informed b3 = false
                    ∧ is_finished b3 = false ∧ order b3 = None
                    ∧ market_slug b3 = market_slug b
                    ∧ market_end_timestamp b3 = market_end_timestamp b).
    { destruct Hb3 as [->|(? & ? & _ & _ & ->)]; by repeat split. }
    destruct Hflat as (? & ? & ? & ? & ? & ?).
    do 4 (split; [done|]). right. by repeat split.
Qed.

Lemma close_clears_the_position_witness :
  let b := Sample.holding_up (Sample.settings_with 60 0.10 0 0 false) in
  let q := Sample.quoting 0.99 0.01 100 100 0.99 0.01 in
  let configured := Sample.holding_up (Scenario.with_slug "eth-updown-15m-900") in
  (∃ b' ev,
     monitor_step "btc" 10 (Sample.tick 1300 q) b = (Ret AwaitingMarket, b', ev)
     ∧ is_performed b = true
     ∧ is_performed b' = false
     ∧ order b' = None
     ∧ market_end_timestamp b' = Some 1300
     ∧ market_id b' = market_id b)
  ∧ (∃ b' ev,
       monitor_step "btc" 10 (Scenario.half_rotated 1300 q) configured
       = (Ret AwaitingMarket, b', ev)
       ∧ market_slug b' = "btc-updown-5m-1000"
       ∧ market_end_timestamp b' = Some 1300
       ∧ market_id configured = "m"
       ∧ market_id b' = "m2").
Proof.
  intros b q configured. split.
  - destruct (monitor_step "btc" 10 (Sample.tick 1300 q) b) as [[r b'] ev]
      eqn:Hstep.
    assert (Hr : r = Ret AwaitingMarket).
    { assert (H := f_equal (λ x, x.1.1) Hstep). simpl in H.
      vm_compute in H. by subst r. }
    subst r.
    destruct (close_clears_the_position "btc" 10 (Sample.tick 1300 q) b b' _
                ev ltac:(reflexivity) ltac:(by vm_compute) Hstep)
      as (Hperf & _ & _ & Horder
          & [(? & _)|(_ & _ & Hend & _ & [->|(? & ? & Hslug & _)])]);
      [done| |by vm_compute in Hslug].
    exists (without_position b), ev. by repeat split.
  - destruct (monitor_step "btc" 10 (Scenario.half_rotated 1300 q) configured)
      as [[r b'] ev] eqn:Hstep.
    assert (Hr : r = Ret AwaitingMarket).
    { assert (H := f_equal (λ x, x.1.1) Hstep). simpl in H.
      vm_compute in H. by subst r. }
    subst r.
    destruct (close_clears_the_position "btc" 10
                (Scenario.half_rotated 1300 q) configured b' _ ev
                ltac:(reflexivity) ltac:(by vm_compute) Hstep)
      as (_ & _ & _ & _
          & [(? & _)|(_ & Hslug & Hend & _ & Hb')]); [done|].
    exists b', ev. split; [done|]. split; [exact Hslug|]. split; [exact Hend|].
    split; [done|].
    destruct Hb' as [->|(slug & info & Hs & Hfetch & ->)].
    + assert (H := f_equal (λ x, market_id x.1.2) Hstep). simpl in H.
      by vm_compute in H.
    + vm_compute in Hs. injection Hs as <-.
      vm_compute in Hfetch. by injection Hfetch as <-.
Defined.

(** ** Order books *)

Lemma nonempty_some (s : option string) (id : string) :
  nonempty s = Some id → s = Some id ∧ id ≠ EmptyString.
Proof. destruct s as [[|c s]|]; [done| |done]. by intros [= <-]. Qed.

Lemma book_key_nonempty (ob : OrderBook) (id : string) :
  book_key ob = Some id → id ≠ EmptyString.
Proof.
  unfold book_key. destruct (nonempty (book_asset_id ob)) eqn:Hasset.
  - intros [= <-]. by apply nonempty_some in Hasset as [_ ?].
  - by intros [_ ?]%nonempty_some.
Qed.

(** The best ask of an entry is the price of the last level of the asks,
    its size is that level's; a book without asks has no best ask and an
    ask size of zero. *)
Lemma book_entry_asks (ob : OrderBook) (entry : BookEntry) :
  book_entry ob = Ret entry →
  match last (default [] (book_asks ob)) with
  | Some level =>
      level_price level = Ret (default 0%float (best_ask entry))
      ∧ is_Some (best_ask entry)
      ∧ level_size level = Ret (ask_size entry)
  | None => best_ask entry = None ∧ ask_size entry = 0%float
  end.
Proof.
  unfold book_entry, best_price, best_size.
  destruct (last (default [] (book_bids ob))) as [bid|].
  - destruct (level_price bid) as [bid_price|]; [|done].
    rewrite !outcome_bind_ret.
    destruct (last (default [] (book_asks ob))) as [ask|].
    + destruct (level_price ask) as [ask_price|]; [|done].
      rewrite !outcome_bind_ret.
      destruct (level_size bid) as [bid_size|]; [|done].
      rewrite outcome_bind_ret.
      destruct (level_size ask) as [ask_size|]; [|done].
      intros [= <-]. simpl. by eauto.
    + rewrite !outcome_bind_ret.
      destruct (level_size bid) as [bid_size|]; [|done].
      by intros [= <-].
  - rewrite !outcome_bind_ret.
    destruct (last (default [] (book_asks ob))) as [ask|].
    + destruct (level_price ask) as [ask_price|]; [|done].
      rewrite !outcome_bind_ret.
      destruct (level_size ask) as [ask_size|]; [|done].
      intros [= <-]. simpl. by eauto.
    + by intros [= <-].
Qed.

Lemma index_books_inv (orderbooks : list OrderBook)
    (acc result : gmap string BookEntry) :
  index_books orderbooks acc = Ret result →
  Forall (λ ob, book_key ob = None ∨ ∃ entry, book_entry ob = Ret entry)
    orderbooks
  ∧ ∀ id entry,
      result !! id = Some entry →
      acc !! id = Some entry
      ∨ ∃ ob, ob ∈ orderbooks ∧ book_key ob = Some id
              ∧ book_entry ob = Ret entry.
Proof.
  revert acc. induction orderbooks as [|ob orderbooks IH]; intros acc; simpl.
  { intros [= <-]. split; [constructor|]. by left. }
  destruct (book_key ob) as [key|] eqn:Hkey.
  - destruct (book_entry ob) as [first|] eqn:Hentry; [|done].
    rewrite outcome_bind_ret.
    intros [Hall Hin]%IH. split.
    { constructor; [right; by eexists|done]. }
    intros id entry [Hacc|(ob' & Hob' & Hk & He)]%Hin.
    + destruct (decide (key = id)) as [->|Hne].
      * rewrite lookup_insert_eq in Hacc. injection Hacc as <-.
        right. exists ob. split; [by left|done].
      * rewrite lookup_insert_ne in Hacc by done. by left.
    + right. exists ob'. split; [by right|done].
  - intros [Hall Hin]%IH. split.
    { constructor; [by left|done]. }
    intros id entry [Hacc|(ob' & Hob' & Hk & He)]%Hin; [by left|].
    right. exists ob'. split; [by right|done].
Qed.

(** X18: [_fetch_orderbooks] answers all or nothing.  An entry of its
    result comes from a book of the answer that has a non-empty [asset_id]
    (or, failing that, [token_id]) as key; the entry's best ask is the price
    of the last level of that book's asks and its ask size that level's
    size ([None] and 0 for a book without asks); and then every keyed book
    of the answer parsed.  If the request raises, or one level of one keyed
    book does not parse, the result is the empty dict. *)
Theorem order_books_all_or_nothing (fetched : outcome (list OrderBook)) :
  (∀ id entry,
     _fetch_orderbooks fetched !! id = Some entry →
     id ≠ EmptyString
     ∧ ∃ orderbooks ob,
         fetched = Ret orderbooks
         ∧ ob ∈ orderbooks ∧ book_key ob = Some id
         ∧ book_entry ob = Ret entry
         ∧ match last (default [] (book_asks ob)) with
           | Some level =>
               level_price level = Ret (default 0%float (best_ask entry))
               ∧ is_Some (best_ask entry)
               ∧ level_size level = Ret (ask_size entry)
           | None => best_ask entry = None ∧ ask_size entry = 0%float
           end
         ∧ Forall (λ ob', book_key ob' = None
                          ∨ ∃ entry', book_entry ob' = Ret entry')
             orderbooks)
  ∧ (∀ e, fetched = Raise e → _fetch_orderbooks fetched = ∅)
  ∧ (∀ orderbooks ob id e,
       fetched = Ret orderbooks → ob ∈ orderbooks →
       book_key ob = Some id → book_entry ob = Raise e →
       _fetch_orderbooks fetched = ∅).
Proof.
  split; [|split].
  - intros id entry. unfold _fetch_orderbooks.
    destruct fetched as [orderbooks|];
      [|by rewrite outcome_bind_raise, lookup_empty].
    rewrite outcome_bind_ret.
    destruct (index_books orderbooks ∅) as [result|] eqn:Hindex;
      [|by rewrite lookup_empty].
    apply index_books_inv in Hindex as [Hall Hin].
    intros [Hempty|(ob & Hob & Hkey & Hentry)]%Hin;
      [by rewrite lookup_empty in Hempty|].
    split; [by eapply book_key_nonempty|].
    exists orderbooks, ob. repeat (split; [done|]).
    split; [by apply book_entry_asks|done].
  - by intros e ->.
  - intros orderbooks ob id e -> Hob Hkey Hentry. unfold _fetch_orderbooks.
    rewrite outcome_bind_ret.
    destruct (index_books orderbooks ∅) as [result|] eqn:Hindex; [|done].
    apply index_books_inv in Hindex as [Hall _].
    rewrite Forall_forall in Hall.
    destruct (Hall ob Hob) as [Hnone|[entry Hsome]]; congruence.
Qed.

Lemma order_books_all_or_nothing_witness :
  let level := {| level_price := Ret 0.52%float; level_size := Ret 40%float |} in
  let broken := {| level_price := Raise ValueError; level_size := Ret 1%float |} in
  let book := {| book_asset_id := Some "yes"; book_token_id := None;
                 book_bids := None; book_asks := Some [level] |} in
  let bad := {| book_asset_id := None; book_token_id := Some "no";
                book_bids := Some [broken]; book_asks := None |} in
  (best_ask <$> _fetch_orderbooks (Ret [book]) !! "yes") = Some (Some 0.52%float)
  ∧ _fetch_orderbooks (Ret [book; bad]) = ∅.
Proof.
  intros level broken book bad.
  destruct (order_books_all_or_nothing (Ret [book; bad])) as (_ & _ & Hvoid).
  split; [reflexivity|].
  apply (Hvoid [book; bad] bad "no" ValueError); try reflexivity.
  apply elem_of_cons. right. by apply list_elem_of_singleton.
Defined.

(** ** Quotes *)

Lemma quote_attempt_inv (b : Bot) (feed : Feed) (q : Prices) :
  quote_attempt b feed = Some q →
  ∃ pu pd,
    (get_last_trades_prices feed ≫=
       (λ prices_response,
          last_trades (yes_token_id b) (no_token_id b) prices_response 0 0))
    = Ret (pu, pd)
    ∧ q = {| price_up := Some pu; price_down := Some pd;
             size_up := Some (from_option ask_size 0%float
                                (_fetch_orderbooks (get_order_books feed)
                                 !! yes_token_id b));
             size_down := Some (from_option ask_size 0%float
                                  (_fetch_orderbooks (get_order_books feed)
                                   !! no_token_id b));
             best_up := from_option best_ask (Some 0%float)
                          (_fetch_orderbooks (get_order_books feed)
                           !! yes_token_id b);
             best_down := from_option best_ask (Some 0%float)
                            (_fetch_orderbooks (get_order_books feed)
                             !! no_token_id b) |}.
Proof.
  unfold quote_attempt.
  destruct (get_last_trades_prices feed ≫= _) as [[pu pd]|]; [|done].
  intros [= <-]. by exists pu, pd.
Qed.

(** The loop returns the answer of the first attempt that does not raise,
    after one pause for each attempt before it. *)
Lemma attempts_first (quotes : nat → option Prices) :
  (∃ (attempt : nat) q,
     (1 ≤ attempt ≤ 3)%nat
     ∧ quotes attempt = Some q
     ∧ (∀ earlier : nat, (1 ≤ earlier < attempt)%nat → quotes earlier = None)
     ∧ prices_of quotes = q
     ∧ pauses_of quotes = replicate (attempt - 1) (Slept 1))
  ∨ quotes 1%nat = None ∧ quotes 2%nat = None ∧ quotes 3%nat = None
    ∧ prices_of quotes = no_prices
    ∧ pauses_of quotes = [Slept 1; Slept 1].
Proof.
  unfold prices_of, pauses_of. simpl.
  destruct (quotes 1%nat) as [q|] eqn:H1.
  { left. exists 1%nat, q. split; [lia|]. split; [done|].
    split; [intros ??; lia|done]. }
  destruct (quotes 2%nat) as [q|] eqn:H2; simpl.
  { left. exists 2%nat, q. split; [lia|]. split; [done|]. split; [|done].
    intros earlier ?. by replace earlier with 1%nat by lia. }
  destruct (quotes 3%nat) as [q|] eqn:H3; simpl; [|by right].
  left. exists 3%nat, q. split; [lia|]. split; [done|]. split; [|done].
  intros earlier ?.
  assert (earlier = 1 ∨ earlier = 2)%nat as [->| ->] by lia; done.
Qed.

(** X19: [get_current_prices] returns the answer of the first of its three
    attempts that does not raise, after a one-second pause for each attempt
    that failed before it, and leaves the bot as it is.  Such an answer
    always has both last-trade prices and both ask sizes, and when the
    order books could not be read (the dict of [_fetch_orderbooks] is
    empty) the sizes and the best asks are all 0, not [None].  The six
    values are [None] exactly when all three attempts raised, which takes
    two pauses. *)
Theorem quotes_are_none_only_after_three_failures (b : Bot)
    (feeds : nat → Feed) :
  let quotes := feed_quotes b feeds in
  let q := prices_of quotes in
  current_prices feeds b = (Ret q, b, pauses_of quotes)
  ∧ (price_up q = None ↔
     quote_attempt b (feeds 1%nat) = None
     ∧ quote_attempt b (feeds 2%nat) = None
     ∧ quote_attempt b (feeds 3%nat) = None)
  ∧ (price_up q = None →
     q = no_prices ∧ pauses_of quotes = [Slept 1; Slept 1])
  ∧ (price_up q ≠ None →
     ∃ (attempt : nat) pu pd su sd,
       (1 ≤ attempt ≤ 3)%nat
       ∧ quote_attempt b (feeds attempt) = Some q
       ∧ (∀ earlier : nat, (1 ≤ earlier < attempt)%nat →
                           quote_attempt b (feeds earlier) = None)
       ∧ pauses_of quotes = replicate (attempt - 1) (Slept 1)
       ∧ price_up q = Some pu ∧ price_down q = Some pd
       ∧ size_up q = Some su ∧ size_down q = Some sd
       ∧ (_fetch_orderbooks (get_order_books (feeds attempt)) = ∅ →
          su = 0%float ∧ sd = 0%float
          ∧ best_up q = Some 0%float ∧ best_down q = Some 0%float)).
Proof.
  intros quotes q. subst q. split.
  { unfold current_prices. by rewrite bind_self. }
  destruct (attempts_first quotes)
    as [(attempt & q & Hwhich & Hq & Hfirst & Hprices & Hpauses)
       |(H1 & H2 & H3 & Hprices & Hpauses)]; rewrite Hprices.
  - unfold quotes, feed_quotes in Hq, Hfirst.
    pose proof Hq as Hinv.
    apply quote_attempt_inv in Hinv as (pu & pd & _ & Hshape).
    split; [|split].
    + rewrite Hshape. simpl. split; [done|]. intros (H1 & H2 & H3).
      assert (attempt = 1 ∨ attempt = 2 ∨ attempt = 3)%nat
        as [->|[->| ->]] by lia; congruence.
    + by rewrite Hshape.
    + intros _. eexists attempt, pu, pd, _, _. split; [done|].
      split; [done|]. split; [done|]. split; [done|].
      rewrite Hshape. simpl. repeat (split; [done|]).
      intros ->. by rewrite !lookup_empty.
  - by repeat split.
Qed.

Lemma quotes_are_none_only_after_three_failures_witness :
  let b := Sample.bot_1000 (Sample.settings_with 60 0.10 0 0 false) in
  let down := {| get_last_trades_prices := Raise (ExternalError "timeout");
                 get_order_books := Raise (ExternalError "timeout") |} in
  let feeds := λ attempt : nat,
    if (attempt <? 3)%nat then down else Scenario.bookless in
  current_prices feeds b
  = (Ret {| price_up := Some 0.5%float; price_down := Some 0.5%float;
            size_up := Some 0%float; size_down := Some 0%float;
            best_up := Some 0%float; best_down := Some 0%float |},
     b, [Slept 1; Slept 1])
  ∧ current_prices (λ _, down) b = (Ret no_prices, b, [Slept 1; Slept 1]).
Proof.
  intros b down feeds.
  destruct (quotes_are_none_only_after_three_failures b feeds) as [Hrun _].
  destruct (quotes_are_none_only_after_three_failures b (λ _, down))
    as [Hdown _].
  split; [exact Hrun|exact Hdown].
Defined.

(** ** A scan without order books *)

Lemma adjust_size_zero : adjust_size 0 = Raise ZeroDivisionError.
Proof. reflexivity. Qed.

(** X20: when the last trades are read but the order books are not (the
    request raises, or a level does not parse), the best asks are 0; a scan
    that then finds its signal builds an order at the price 0.00, which
    costs less than $1 at any finite size, and raises [ZeroDivisionError]
    at [10000 / price_cents]: it neither submits nor returns [False]. *)
Theorem scan_without_books_divides_by_zero (io : Scan) (b : Bot)
    (feeds : nat → Feed) (pu pd : float) :
  quotes io = feed_quotes b feeds →
  (get_last_trades_prices (feeds 1%nat) ≫=
     (λ prices_response,
        last_trades (yes_token_id b) (no_token_id b) prices_response 0 0))
  = Ret (pu, pd) →
  _fetch_orderbooks (get_order_books (feeds 1%nat)) = ∅ →
  get_time_remaining b (now_close io) ≠ "CLOSED" →
  get_strategy_remaining_to_start b (now_start io) ≠ "CLOSED" →
  signal_up b pu || signal_down b pd = true →
  (0 * Config.order_size (settings b) <? 1)%float = true →
  (run_once io b).1.1 = Raise ZeroDivisionError
  ∧ (run_once io b).2 = [].
Proof.
  intros Hquotes Htrades Hbooks Hopen Hwindow Hsignal Hsize.
  assert (Hq : prices_of (quotes io)
               = {| price_up := Some pu; price_down := Some pd;
                    size_up := Some 0%float; size_down := Some 0%float;
                    best_up := Some 0%float; best_down := Some 0%float |}
               ∧ pauses_of (quotes io) = []).
  { apply pauses_of_first. rewrite Hquotes. unfold feed_quotes, quote_attempt.
    rewrite Htrades, Hbooks. by rewrite !lookup_empty. }
  destruct Hq as [Hq Hpauses].
  unfold run_once. rewrite bind_self.
  rewrite (eqb_closed_false _ Hopen), (eqb_closed_false _ Hwindow).
  rewrite bind_quotes, Hq, Hpauses, after_outcome, after_events.
  simpl. rewrite !bind_mret.
  fold (signal_up b pu). fold (signal_down b pd). rewrite Hsignal.
  assert (Hchoose : ∃ direction token,
    choose_side io
      {| price_up := Some pu; price_down := Some pd;
         size_up := Some 0%float; size_down := Some 0%float;
         best_up := Some 0%float; best_down := Some 0%float |}
      (signal_up b pu) (signal_down b pd) b
    = (Ret (Some (OrderDto.mk token 0 (Config.order_size (settings b)))),
       set_order (Some (entry_row (time_stamp io) direction 0)) b, [])).
  { unfold choose_side. rewrite bind_self.
    destruct (signal_up b pu); [by eexists _, _|].
    destruct (signal_down b pd); [by eexists _, _|done]. }
  destruct Hchoose as (direction & token & Hchoose).
  rewrite (bind_step_silent _ _ _ _ _ Hchoose).
  unfold size_order. rewrite bind_assoc, bind_self.
  rewrite bind_assoc.
  rewrite (bind_step_silent _ _ _ _ _ (order_setitem_set _ _ _ _)).
  simpl. rewrite Hsize, !bind_assoc, bind_lift, adjust_size_zero. done.
Qed.

Lemma scan_without_books_divides_by_zero_witness :
  let b := Sample.bot_1000 (Sample.settings_with 60 0.10 0 0 false) in
  let feeds := λ _ : nat, Scenario.bookless in
  let io := {| now_close := 1100; now_start := 1100;
               quotes := feed_quotes b feeds;
               time_stamp := "1100.5"; backend := Sample.accepting |} in
  prices_of (feed_quotes b feeds)
  = {| price_up := Some 0.5%float; price_down := Some 0.5%float;
       size_up := Some 0%float; size_down := Some 0%float;
       best_up := Some 0%float; best_down := Some 0%float |}
  ∧ (run_once io b).1.1 = Raise ZeroDivisionError.
Proof.
  intros b feeds io. split; [reflexivity|].
  apply (scan_without_books_divides_by_zero io b feeds 0.5 0.5);
    try reflexivity; vm_compute; discriminate.
Defined.

(** ** Placing one order *)

(** X21: [place_order] reaches the client only with an order that passed
    its checks: when it returns, the price and the size were not at or below
    zero, the token id was not empty, the side read [BUY] or [SELL] once
    [str.upper] was applied to it, and the response is the venue's answer to
    the signed order with those arguments.  An order that fails a check
    raises [ValueError] whatever the client would do, and any failure of
    the venue comes out as [RuntimeError].  On an ASCII side the check is
    the comparison of its letters, whatever their case. *)
Theorem place_order_checks_first (unicode : string → string) (cached : bool)
    (connect : outcome unit) (client : TradingClient.Client)
    (settings : Config.Settings) (side token_id : string)
    (price size : float) :
  let side_up := TradingClient.upper unicode side in
  let valid :=
    negb (price <=? 0)%float && negb (size <=? 0)%float
    && negb (String.eqb token_id EmptyString)
    && (String.eqb side_up "BUY" || String.eqb side_up "SELL") in
  let result :=
    TradingClient.place_order unicode cached connect client settings side
      token_id price size in
  (valid = false → result = Raise ValueError)
  ∧ (∀ response,
       result = Ret response →
       valid = true
       ∧ ∃ signed,
           TradingClient.create_order client
             {| TradingClient.args_token_id := token_id;
                TradingClient.args_price := price;
                TradingClient.args_size := size;
                TradingClient.args_side :=
                  if String.eqb side_up "BUY"
                  then TradingClient.BUY else TradingClient.SELL |}
           = Ret signed
           ∧ TradingClient.post_order client signed = Ret response)
  ∧ (valid = true →
     get_client cached settings connect = Ret tt →
     (∀ response, result ≠ Ret response) →
     result = Raise (RuntimeError "place_order failed"))
  ∧ (Py.isascii side = true →
     side_up = TradingClient.upper_letters side).
Proof.
  intros side_up valid result. subst valid result side_up.
  unfold TradingClient.place_order.
  assert (Hascii : Py.isascii side = true →
                   TradingClient.upper unicode side
                   = TradingClient.upper_letters side).
  { intros H. unfold TradingClient.upper. by rewrite H. }
  destruct (price <=? 0)%float; [by repeat split|].
  destruct (size <=? 0)%float; [by repeat split|].
  destruct (String.eqb token_id EmptyString); [by repeat split|].
  destruct (String.eqb (TradingClient.upper unicode side) "BUY"
            || String.eqb (TradingClient.upper unicode side) "SELL");
    [|by repeat split].
  simpl. split; [done|].
  destruct (get_client cached settings connect) as [[]|e]; simpl.
  2:{ split; [done|]. split; [|done]. intros _ [=]. }
  destruct (TradingClient.create_order client _) as [signed|e] eqn:Hsign;
    simpl.
  2:{ split; [done|]. split; done. }
  destruct (TradingClient.post_order client signed) as [response|e] eqn:Hpost.
  - split; [|split; [by intros _ _ H; destruct (H response)|done]].
    intros ? [= <-]. split; [done|]. by exists signed.
  - split; [done|]. split; done.
Qed.

Lemma place_order_checks_first_witness :
  let client := {| TradingClient.create_order := Ret;
                   TradingClient.post_order := λ _, Ret "ok" |} in
  let s := Sample.settings_with 60 0.10 0 0 false in
  let unicode := λ text : string, text in
  TradingClient.place_order unicode false (Ret tt) client s "buy" "yes" 0.46 50
  = Ret "ok"
  ∧ TradingClient.place_order unicode false (Ret tt) client s "buy" "yes" 0 50
    = Raise ValueError
  ∧ TradingClient.place_order unicode false (Ret tt) client s "hold" "yes"
      0.46 50
    = Raise ValueError
  ∧ TradingClient.upper unicode "Sell" = "SELL".
Proof.
  intros client s unicode.
  destruct (place_order_checks_first unicode false (Ret tt) client s "buy"
              "yes" 0 50) as (Hprice & _ & _).
  destruct (place_order_checks_first unicode false (Ret tt) client s "hold"
              "yes" 0.46 50) as (Hside & _ & _).
  destruct (place_order_checks_first unicode false (Ret tt) client s "Sell"
              "yes" 0.46 50) as (_ & _ & _ & Hascii).
  split; [reflexivity|]. split; [by apply Hprice|]. split; [by apply Hside|].
  by rewrite Hascii.
Defined.

(** ** Positions *)

Lemma collect_inv (token_ids : option (list string))
    (positions : list TradingClient.Position)
    (acc result : gmap string TradingClient.Holding) :
  TradingClient.collect token_ids positions acc = Ret result →
  ∀ id holding,
    result !! id = Some holding →
    acc !! id = Some holding
    ∨ id ≠ EmptyString
      ∧ (∀ ids, token_ids = Some ids → id ∈ ids)
      ∧ TradingClient.holding_raw holding ∈ positions
      ∧ TradingClient.pos_asset (TradingClient.holding_raw holding) = Some id
      ∧ TradingClient.pos_size (TradingClient.holding_raw holding)
        = Ret (TradingClient.holding_size holding).
Proof.
  revert acc. induction positions as [|pos positions IH]; intros acc; simpl.
  { intros [= <-] id holding ?. by left. }
  destruct (nonempty (TradingClient.pos_asset pos)) as [token_id|] eqn:Hasset.
  2:{ intros Hrest id holding Hin.
      destruct (IH _ Hrest id holding Hin) as [?|(?&?&?&?&?)]; [by left|].
      right. split; [done|]. split; [done|]. split; [by right|done]. }
  apply nonempty_some in Hasset as [Hasset Hne].
  match goal with |- context [if ?c then _ else _] =>
    destruct c eqn:Hwanted end.
  2:{ intros Hrest id holding Hin.
      destruct (IH _ Hrest id holding Hin) as [?|(?&?&?&?&?)]; [by left|].
      right. split; [done|]. split; [done|]. split; [by right|done]. }
  destruct (TradingClient.pos_size pos) as [size|] eqn:Hsize; [|done].
  rewrite outcome_bind_ret.
  destruct (TradingClient.pos_avg_price pos) as [avg|]; [|done].
  rewrite outcome_bind_ret.
  intros Hrest id holding Hin.
  destruct (IH _ Hrest id holding Hin) as [Hacc|(?&?&?&?&?)].
  - destruct (decide (token_id = id)) as [->|Hother].
    + rewrite lookup_insert_eq in Hacc. injection Hacc as <-. simpl.
      right. split; [done|]. split.
      { intros ids ->. by apply bool_decide_eq_true in Hwanted. }
      split; [by left|done].
    + rewrite lookup_insert_ne in Hacc by done. by left.
  - right. split; [done|]. split; [done|]. split; [by right|done].
Qed.

(** X22: every entry of the dict [get_positions] returns is for a position
    of the answer with that non-empty asset id, carries its size, and, when
    [token_ids] were given, is for one of them; the dict has entries only
    if a funder address is configured.  Without one, or when the request
    raises, it is empty. *)
Theorem positions_are_filtered (settings : Config.Settings)
    (token_ids : option (list string))
    (fetched : outcome (list TradingClient.Position)) :
  (∀ id holding,
     TradingClient.get_positions settings token_ids fetched !! id
     = Some holding →
     Config.funder settings ≠ EmptyString
     ∧ id ≠ EmptyString
     ∧ (∀ ids, token_ids = Some ids → id ∈ ids)
     ∧ ∃ positions,
         fetched = Ret positions
         ∧ TradingClient.holding_raw holding ∈ positions
         ∧ TradingClient.pos_asset (TradingClient.holding_raw holding)
           = Some id
         ∧ TradingClient.pos_size (TradingClient.holding_raw holding)
           = Ret (TradingClient.holding_size holding))
  ∧ (Config.funder settings = EmptyString →
     TradingClient.get_positions settings token_ids fetched = ∅)
  ∧ (∀ e, fetched = Raise e →
          TradingClient.get_positions settings token_ids fetched = ∅).
Proof.
  unfold TradingClient.get_positions. split; [|split].
  - intros id holding.
    destruct (String.eqb_spec (Config.funder settings) EmptyString)
      as [|Hfunder]; [by rewrite lookup_empty|].
    destruct fetched as [positions|];
      [|by rewrite outcome_bind_raise, lookup_empty].
    rewrite outcome_bind_ret.
    destruct (TradingClient.collect token_ids positions ∅) as [result|]
      eqn:Hcollect; [|by rewrite lookup_empty].
    intros Hin.
    destruct (collect_inv _ _ _ _ Hcollect id holding Hin)
      as [Hempty|(? & ? & ? & ? & ?)]; [by rewrite lookup_empty in Hempty|].
    repeat (split; [done|]). by exists positions.
  - by intros ->.
  - intros e ->. by destruct (String.eqb _ _).
Qed.

Lemma positions_are_filtered_witness :
  let position := λ asset size,
    {| TradingClient.pos_asset := Some asset;
       TradingClient.pos_size := Ret size;
       TradingClient.pos_avg_price := Ret 0%float |} in
  let s := Scenario.funded "0xfunder" in
  let held := TradingClient.get_positions s (Some ["yes"; "no"])
                (Ret [position "yes" 50%float; position "other" 7%float]) in
  (TradingClient.holding_size <$> held !! "yes") = Some 50%float
  ∧ held !! "other" = None
  ∧ TradingClient.get_positions (Sample.settings_with 60 0.10 0 0 false)
      (Some ["yes"; "no"]) (Ret [position "yes" 50%float]) = ∅.
Proof.
  intros position s held.
  destruct (positions_are_filtered (Sample.settings_with 60 0.10 0 0 false)
              (Some ["yes"; "no"]) (Ret [position "yes" 50%float]))
    as (_ & Hnone & _).
  split; [reflexivity|]. split; [reflexivity|]. by apply Hnone.
Defined.

(** ** The slug after a slug *)

Lemma all_digits_pretty_N_go (x : N) (s : string) :
  all_digits s = true → all_digits (pretty_N_go x s) = true.
Proof.
  revert s. induction (N.lt_wf_0 x) as [x _ IH]; intros s Hs.
  destruct (decide (x = 0)%N) as [->|Hx]; [by rewrite pretty_N_go_0|].
  rewrite pretty_N_go_step by lia.
  apply IH; [apply N.div_lt; lia|]. simpl.
  rewrite digit_pretty_N_char by (apply N.mod_lt; lia). by rewrite Hs.
Qed.

Lemma all_digits_pretty (n : Z) : 0 ≤ n → all_digits (pretty n) = true.
Proof.
  intros Hn. destruct n as [|p|p]; [done| |lia].
  unfold pretty, pretty_Z, pretty, pretty_positive, pretty, pretty_N.
  destruct (decide (N.pos p = 0)%N); [done|].
  by apply all_digits_pretty_N_go.
Qed.

Lemma digit_not_special (c : Ascii.ascii) :
  is_Some (digit c) →
  Ascii.eqb c MarketLookup.newline = false
  ∧ Ascii.eqb c MarketLookup.hyphen = false.
Proof.
  intros [d Hd]. split; apply Ascii.eqb_neq; intros ->; discriminate Hd.
Qed.

Lemma groups_all_digits (taken text : string) :
  all_digits text = true → MarketLookup.groups taken text = None.
Proof.
  revert taken. induction text as [|c text IH]; intros taken; [done|].
  simpl. intros [Hc Htext]%andb_true_iff.
  apply bool_decide_eq_true in Hc.
  destruct (digit_not_special c Hc) as [-> ->]. by rewrite IH.
Qed.

Lemma digits_to_end_all_digits (text : string) (seen : bool) :
  all_digits text = true →
  MarketLookup.digits_to_end seen text
  = seen || negb (String.eqb text EmptyString).
Proof.
  revert seen. induction text as [|c text IH]; intros seen.
  { by destruct seen. }
  simpl. intros [Hc Htext]%andb_true_iff.
  apply bool_decide_eq_true in Hc. destruct Hc as [d ->].
  rewrite IH by done. by rewrite orb_true_r.
Qed.

Lemma rev_app_app (s acc : string) :
  String.rev_app s acc = String.rev_app s EmptyString +:+ acc.
Proof.
  revert acc. induction s as [|c s IH]; intros acc; [done|].
  simpl. rewrite (IH (String c acc)), (IH (String c EmptyString)).
  by rewrite string_app_assoc.
Qed.

(** The match of the pattern on a one-line prefix, a hyphen and a number. *)
Lemma groups_prefix (prefix taken num : string) :
  one_line prefix = true →
  all_digits num = true → num ≠ EmptyString →
  prefix ≠ EmptyString ∨ taken ≠ EmptyString →
  MarketLookup.groups taken (prefix +:+ String MarketLookup.hyphen num)
  = Some (String.rev taken +:+ prefix +:+ String MarketLookup.hyphen EmptyString,
          num).
Proof.
  intros Hline Hnum Hnonempty. revert taken Hline.
  induction prefix as [|c prefix IH]; intros taken Hline Hsome.
  - destruct Hsome as [|Htaken]; [done|].
    change (EmptyString +:+ String MarketLookup.hyphen num)
      with (String MarketLookup.hyphen num).
    simpl. rewrite (groups_all_digits _ _ Hnum).
    rewrite (digits_to_end_all_digits _ _ Hnum).
    rewrite (proj2 (String.eqb_neq _ _) Htaken).
    rewrite (proj2 (String.eqb_neq _ _) Hnonempty). simpl.
    f_equal. f_equal. unfold String.rev. simpl.
    by rewrite rev_app_app.
  - simpl in Hline. apply andb_true_iff in Hline as [Hc Hline].
    apply negb_true_iff in Hc.
    change (String c prefix +:+ String MarketLookup.hyphen num)
      with (String c (prefix +:+ String MarketLookup.hyphen num)).
    simpl. rewrite Hc.
    rewrite (IH (String c taken) Hline) by by right.
    f_equal. f_equal. unfold String.rev. simpl.
    rewrite (rev_app_app taken (String c EmptyString)).
    by rewrite string_app_assoc.
Qed.

(** X23: [next_slug] reads the number at the end of a slug back and writes
    it 900 larger after the same prefix: for a prefix of one line that is
    not empty and a number [n ≥ 0], the slug [<prefix>-<n>] becomes
    [<prefix>-<n + 900>]; of the slug of a five-minute market it makes the
    slug three windows on, not the next one.  A slug of digits only, with
    no hyphen before them, raises [ValueError]. *)
Theorem next_slug_adds_900 (prefix : string) (n : Z) :
  prefix ≠ EmptyString → one_line prefix = true → 0 ≤ n →
  MarketLookup.next_slug
    (prefix +:+ String MarketLookup.hyphen (pretty n))
  = Ret (prefix +:+ String MarketLookup.hyphen (pretty (n + 900)))
  ∧ MarketLookup.next_slug (pretty n) = Raise ValueError.
Proof.
  intros Hprefix Hline Hn. unfold MarketLookup.next_slug. split.
  - rewrite (groups_prefix prefix EmptyString (pretty n)); try done.
    + rewrite digits_pretty_Z by done.
      change (String.rev EmptyString) with EmptyString.
      change (EmptyString +:+ ?s) with s.
      rewrite string_app_assoc. done.
    + by apply all_digits_pretty.
    + destruct (pretty_Z_head n Hn) as (c & rest & d & -> & _). done.
    + by left.
  - by rewrite groups_all_digits by by apply all_digits_pretty.
Qed.

Lemma next_slug_adds_900_witness :
  MarketLookup.next_slug "btc-updown-5m-900" = Ret "btc-updown-5m-1800"
  ∧ MarketLookup.next_slug "900" = Raise ValueError.
Proof.
  destruct (next_slug_adds_900 "btc-updown-5m" 900) as [Hnext Hbare];
    [done|done|lia|].
  split; [exact Hnext|exact Hbare].
Defined.

(** ** A trade in a dry run *)

(** X24: in a dry run, with no minimum time configured and the cap not
    reached, [execute_arbitrage] on an opportunity of [check_arbitrage]
    records the trade without submitting anything: the pair's cost times
    the order size is added to [total_invested], twice the order size to
    [total_shares_bought], the opportunity to [positions], one to
    [current_market_trades] and to [opportunities_found];
    [trades_executed] counts live trades only and stays. *)
Theorem dry_run_trade_is_tracked (be : Backend) (now : Z)
    (quotes : nat → option Prices) (now_iso : string) (b0 b : Bot)
    (ev0 : list event) (opportunity : gmap string pyval) :
  check_arbitrage quotes now_iso b0 = (Ret (Some opportunity), b, ev0) →
  Config.dry_run (settings b) = true →
  Config.min_time_remaining_minutes (settings b) ≤ 0 →
  capped b = false →
  ∃ total_cost,
    opportunity !! "total_cost" = Some (VFloat total_cost)
    ∧ execute_arbitrage be now opportunity b
      = (Ret tt,
         set_current_market_trades (current_market_trades b + 1)
           (tracked opportunity (Config.order_size (settings b))
              (total_cost * Config.order_size (settings b))
              (set_opportunities_found (opportunities_found b + 1) b)),
         []).
Proof.
  intros (pu & pd & su & sd & bu & bd & _ & _ & _ & _ & _ & _ & _ & _ & ->
          & Hb & _)%check_arbitrage_inv Hdry Hmin Hcap.
  assert (Hs : settings b0 = settings b) by by rewrite Hb.
  rewrite Hs. clear Hb Hs b0.
  exists (pu + pd)%float. split; [done|].
  destruct (opportunity_items (settings b) now_iso pu pd su sd)
    as (H1 & H2 & [? H3] & [? H4] & [? H5] & H6 & H7 & [? H8] & [? H9]).
  unfold execute_arbitrage.
  rewrite bind_self, bind_assign, !item_lift.
  rewrite H1, bind_lift, H2, bind_lift, H3, bind_lift, H4, bind_lift, H5,
    bind_lift, H6, bind_lift, H7, bind_lift, H8, bind_lift, H9, bind_lift.
  rewrite (proj2 (Z.ltb_ge _ _) Hmin).
  fold (capped b). rewrite Hcap, Hdry. reflexivity.
Qed.

Lemma dry_run_trade_is_tracked_witness :
  let b := Sample.bot_1000 (Sample.settings_with 60 0.10 0 0 true) in
  let q := Sample.quoting 0.40 0.55 100 100 0.40 0.55 in
  let b1 := set_last_price_info (Some (prices_of q)) b in
  let opportunity :=
    opportunity_of (settings b) "1970-01-01T00:18:20" 0.40 0.55 100 100 in
  ∃ b',
    execute_arbitrage Sample.accepting 1100 opportunity b1 = (Ret tt, b', [])
    ∧ total_invested b' = ((0 + (0.40 + 0.55) * 50)%float)
    ∧ total_shares_bought b' = (0 + 50 * 2)%float
    ∧ current_market_trades b' = 1
    ∧ trades_executed b' = 0.
Proof.
  intros b q b1 opportunity.
  destruct (dry_run_trade_is_tracked Sample.accepting 1100 q
              "1970-01-01T00:18:20" b b1 [] opportunity)
    as (total_cost & Hcost & Hrun); [reflexivity|reflexivity|done|reflexivity|].
  injection Hcost as <-.
  eexists. split; [exact Hrun|]. by repeat split.
Defined.

(** ** A scan on a book without asks *)

(** X25: when the side that gives the signal has no best ask (its book has
    no asks), the scan assigns [self.order] with an [entry_price] of [None]
    and then raises [TypeError] where [OrderDto] converts the price: nothing
    is submitted (the pauses of reading the quotes are all it did to the
    outside), and the bot is left with that row and no position. *)
Theorem scan_without_asks_raises (io : Scan) (b : Bot) (pu pd : float) :
  get_time_remaining b (now_close io) ≠ "CLOSED" →
  get_strategy_remaining_to_start b (now_start io) ≠ "CLOSED" →
  price_up (prices_of (quotes io)) = Some pu →
  price_down (prices_of (quotes io)) = Some pd →
  signal_up b pu || signal_down b pd = true →
  (picked b (prices_of (quotes io)) (signal_up b pu)).2 = None →
  run_once io b
  = (Raise TypeError,
     set_order (Some (
       <["time_stamp" := VStr (time_stamp io)]> (
       <["direction" :=
           VStr (picked b (prices_of (quotes io))
                   (signal_up b pu)).1.1]> (
       <["entry_price" := VNone]> ∅)))) b,
     pauses_of (quotes io)).
Proof.
  intros Hopen Hwindow Hpu Hpd Hsignal Hask.
  unfold run_once. rewrite bind_self.
  rewrite (eqb_closed_false _ Hopen), (eqb_closed_false _ Hwindow).
  rewrite bind_quotes, Hpu, Hpd.
  rewrite <- (app_nil_r (pauses_of (quotes io))) at 2.
  rewrite <- after_triple. f_equal.
  simpl. rewrite !bind_mret.
  fold (signal_up b pu). fold (signal_down b pd). rewrite Hsignal.
  unfold picked in Hask |- *. unfold choose_side.
  rewrite bind_assoc, bind_self.
  destruct (signal_up b pu); simpl in *.
  - rewrite bind_assoc, bind_assign, bind_assoc, bind_lift, Hask. done.
  - rewrite Hsignal.
    rewrite bind_assoc, bind_assign, bind_assoc, bind_lift, Hask. done.
Qed.

Lemma scan_without_asks_raises_witness :
  let b := Sample.bot_1000 (Sample.settings_with 60 0.10 0 0 false) in
  let q := λ _ : nat,
    Some {| price_up := Some 0.5%float; price_down := Some 0.5%float;
            size_up := Some 0%float; size_down := Some 40%float;
            best_up := None; best_down := Some 0.5%float |} in
  let io := {| now_close := 1100; now_start := 1100; quotes := q;
               time_stamp := "1100.5"; backend := Sample.accepting |} in
  (run_once io b).1.1 = Raise TypeError
  ∧ is_performed (run_once io b).1.2 = false
  ∧ (order (run_once io b).1.2 ≫= (.!! "entry_price")) = Some VNone.
Proof.
  intros b q io.
  rewrite (scan_without_asks_raises io b 0.5 0.5);
    [done|vm_compute; discriminate|vm_compute; discriminate|done..].
Defined.

(** ** Watching without a trigger *)

(** X26: an iteration that holds a position on an open market leaves the
    bot as it is, and does nothing to the outside but pause between failed
    attempts to read the quotes, when the quotes are missing (the three
    attempts raised), and also when the price of the held side is less than
    the margin below the entry price: the stop-loss fires on a quoted price
    only. *)
Theorem watching_without_trigger (b : Bot) (symbol : string) (interval : Z)
    (t : Tick) (row : gmap string pyval) :
  get_time_remaining b (now t) ≠ "CLOSED" →
  is_finished b = false →
  is_performed b = true →
  order b = Some row →
  (held_price row (prices_of (quoted t)) = None →
   monitor_step symbol interval t b = (Ret Watching, b, pauses_of (quoted t)))
  ∧ (∀ e p m,
       row !! "entry_price" = Some (VFloat e) →
       held_price row (prices_of (quoted t)) = Some p →
       Config.attrs (settings b) !! "stoploss" = Some (VFloat m) →
       (m <=? e - p)%float = false →
       monitor_step symbol interval t b
       = (Ret Watching, b, pauses_of (quoted t))).
Proof.
  intros Hopen Hfin Hperf Horder.
  assert (Hstep :
    monitor_step symbol interval t b
    = (watch_stoploss (quoted t);; mret Watching) b).
  { unfold monitor_step. rewrite bind_self.
    by rewrite (eqb_closed_false _ Hopen), Hfin, Hperf. }
  rewrite Hstep. unfold watch_stoploss. split.
  - intros Hheld. rewrite bind_assoc, bind_self, bind_assoc, bind_quotes.
    rewrite Horder, bind_assoc, bind_mret, Hheld.
    unfold after. simpl. by rewrite app_nil_r.
  - intros e p m Hentry Hheld Hmargin Hno.
    rewrite bind_assoc, bind_self, bind_assoc, bind_quotes.
    rewrite Horder, bind_assoc, bind_mret, Hheld. unfold get_number.
    rewrite Hentry, bind_assoc, bind_mret, bind_assoc, bind_lift.
    unfold Config.getattr. rewrite Hmargin.
    rewrite bind_assoc, bind_mret, Hno.
    unfold after. simpl. by rewrite app_nil_r.
Qed.

Lemma watching_without_trigger_witness :
  let b := Sample.holding_up (Sample.settings_with 60 0.10 0 0 false) in
  monitor_step "btc" 0 (Sample.tick 1100 Sample.failing) b
  = (Ret Watching, b, [Slept 1; Slept 1])
  ∧ monitor_step "btc" 0
      (Sample.tick 1100 (Sample.quoting 0.40 0.61 100 100 0.41 0.62)) b
    = (Ret Watching, b, []).
Proof.
  intros b.
  destruct (watching_without_trigger b "btc" 0
              (Sample.tick 1100 Sample.failing) (default ∅ (order b)))
    as [Hmissing _]; [vm_compute; discriminate|done..|].
  destruct (watching_without_trigger b "btc" 0
              (Sample.tick 1100 (Sample.quoting 0.40 0.61 100 100 0.41 0.62))
              (default ∅ (order b)))
    as [_ Hquiet]; [vm_compute; discriminate|done..|].
  split; [by apply Hmissing|].
  by apply (Hquiet 0.46 0.40 0.10)%float.
Defined.
